(** * POSIX storage driver: trash bin, revisions, scan debouncer, assimilation

    A shallow embedding of
      - pkg/storage/fs/posix/trashbin/trashbin.go
      - pkg/storage/fs/posix/tree/assimilation.go
      - pkg/storage/fs/posix/tree (revisions: CreateRevision ... getRevisionNode)
    over an explicit model of the world the Go code acts on: a POSIX tree
    with extended attributes, the id cache, a clock, a source of UUIDs, the
    published events and the goroutines that were started.

    Go functions that return an error and mutate the world become functions
    [World -> res A * World]; a failing call keeps the mutations done so far,
    as in Go. *)

From Stdlib Require Import ZArith String Ascii DecimalString DecimalZ.
From stdpp Require Import gmap strings list fin_maps sorting.

Open Scope string_scope.
Open Scope Z_scope.

(** ** Go's [strings] package, the functions the sources use *)

Module strings.

Definition HasPrefix (s pre : string) : bool := String.prefix pre s.

Definition HasSuffix (s suf : string) : bool :=
  String.prefix (String.rev suf) (String.rev s).

Definition TrimPrefix (s pre : string) : string :=
  if HasPrefix s pre
  then substring (String.length pre) (String.length s - String.length pre) s
  else s.

Definition TrimSuffix (s suf : string) : string :=
  if HasSuffix s suf
  then substring 0 (String.length s - String.length suf) s
  else s.

(** [Split s sep] for a separator of one character. *)
Fixpoint Split1 (s : string) (sep : ascii) : list string :=
  match s with
  | EmptyString => [EmptyString]
  | String c s' =>
      if Ascii.eqb c sep then EmptyString :: Split1 s' sep
      else match Split1 s' sep with
           | [] => [String c EmptyString]
           | x :: xs => String c x :: xs
           end
  end.

(** [SplitN s sep 2]: cut at the first occurrence of [sep]. *)
Definition SplitN2 (s sep : string) : list string :=
  match String.index 0 sep s with
  | Some i =>
      [ substring 0 i s;
        substring (i + String.length sep)
                  (String.length s - (i + String.length sep)) s ]
  | None => [s]
  end.

Definition Contains (s sub : string) : bool :=
  match String.index 0 sub s with Some _ => true | None => false end.

Definition is_space (c : ascii) : bool :=
  let n := nat_of_ascii c in
  (Nat.eqb n 32 || Nat.eqb n 9 || Nat.eqb n 10 || Nat.eqb n 11
   || Nat.eqb n 12 || Nat.eqb n 13)%bool.

Fixpoint TrimLeft (s : string) : string :=
  match s with
  | String c s' => if is_space c then TrimLeft s' else s
  | EmptyString => EmptyString
  end.

Definition TrimSpace (s : string) : string :=
  String.rev (TrimLeft (String.rev (TrimLeft s))).

End strings.

(** ** Paths

    A path is kept as the list of its components, already cleaned the way
    [filepath.Clean] does; [is_abs] tells [/a/b] from [a/b].  The relative
    path without components stands for Go's empty string, which is what a
    failed id-cache lookup yields.  The process working directory is not part
    of the model: no relative path names an existing file. *)

Record fpath := FPath { is_abs : bool; comps : list string }.

Global Instance fpath_eq_dec : EqDecision fpath.
Proof. solve_decision. Defined.

Global Instance fpath_countable : Countable fpath :=
  inj_countable' (fun p => (is_abs p, comps p))
                 (fun x => FPath (fst x) (snd x))
                 (fun p => match p with FPath _ _ => eq_refl end).

Module filepath.

Definition empty : fpath := FPath false [].
Definition root : fpath := FPath true [].

(** One lexical step of [Clean]: [.] and empty components vanish, [..]
    removes the component before it (and stays at the root of an absolute
    path). *)
Definition push (abs : bool) (cs : list string) (c : string) : list string :=
  if bool_decide (c = "" \/ c = ".") then cs
  else if bool_decide (c = "..") then
    match last cs with
    | None => if abs then [] else [".."]
    | Some l => if bool_decide (l = "..") then cs ++ [".."] else removelast cs
    end
  else cs ++ [c].

Definition pushes (abs : bool) (cs : list string) (elems : list string) : list string :=
  fold_left (push abs) (flat_map (fun e => strings.Split1 e "/") elems) cs.

Definition starts_abs (elems : list string) : bool :=
  match filter (fun e => e <> "") elems with
  | e :: _ => strings.HasPrefix e "/"
  | [] => false
  end.

(** [filepath.Join(base, elems...)], cleaned. *)
Definition Join (base : fpath) (elems : list string) : fpath :=
  if bool_decide (base = empty)
  then FPath (starts_abs elems) (pushes (starts_abs elems) [] elems)
  else FPath (is_abs base) (pushes (is_abs base) (comps base) elems).

(** A caller-supplied path string, cleaned. *)
Definition of_string (s : string) : fpath := Join empty [s].

Definition Dir (p : fpath) : fpath := FPath (is_abs p) (removelast (comps p)).

Definition Base (p : fpath) : string :=
  match last (comps p) with
  | Some c => c
  | None => if is_abs p then "/" else "."
  end.

(** The Go expression [path + suffix] for a suffix without separator. *)
Definition add_suffix (p : fpath) (suffix : string) : fpath :=
  match last (comps p) with
  | Some c => FPath (is_abs p) (removelast (comps p) ++ [c ++ suffix])
  | None => FPath (is_abs p) [suffix]
  end.

Definition to_string (p : fpath) : string :=
  (if is_abs p then "/" else "") ++ String.concat "/" (comps p).

(** [q] lies strictly below [p]. *)
Definition under (p q : fpath) : Prop :=
  is_abs p = is_abs q /\ comps p `prefix_of` comps q /\ comps p <> comps q.

Definition at_or_under (p q : fpath) : Prop :=
  is_abs p = is_abs q /\ comps p `prefix_of` comps q.

Global Instance under_dec p q : Decision (under p q).
Proof. unfold under. apply _. Defined.

Global Instance at_or_under_dec p q : Decision (at_or_under p q).
Proof. unfold at_or_under. apply _. Defined.

End filepath.

(** ** Errors *)

Inductive errno := ENOENT | EEXIST | ENOTDIR | EISDIR | ENOTEMPTY | EINVAL | ENODATA.

Inductive error :=
| NotFound (s : string)             (* errtypes.NotFound *)
| PermissionDenied (s : string)     (* errtypes.PermissionDenied *)
| InternalError (s : string)        (* errtypes.InternalError *)
| PathError (op : string) (p : fpath) (e : errno)   (* *os.PathError *)
| LinkError (op : string) (src dst : fpath) (e : errno) (* *os.LinkError *)
| XattrError (op : string) (p : fpath) (name : string) (e : errno) (* *xattr.Error *)
| ParseError (s : string)           (* time.ParseError, strconv errors *)
| Errorf (s : string)               (* fmt.Errorf, errors.New *)
| Wrap (e : error) (msg : string)   (* errors.Wrap *)
| Collaborator (s : string).        (* an error handed back by an injected collaborator *)

Global Instance errno_eq_dec : EqDecision errno.
Proof. solve_decision. Defined.

Global Instance error_eq_dec : EqDecision error.
Proof. solve_decision. Defined.

(** [errors.Is(err, os.ErrExist)] *)
Fixpoint IsExist (e : error) : bool :=
  match e with
  | PathError _ _ EEXIST | LinkError _ _ _ EEXIST => true
  | Wrap e' _ => IsExist e'
  | _ => false
  end.

(** [metadata.IsAttrUnset(err)] *)
Definition IsAttrUnset (e : error) : bool :=
  match e with
  | XattrError _ _ _ ENODATA => true
  | _ => false
  end.

Inductive res (A : Type) :=
| Ok (a : A)
| Err (e : error).
Arguments Ok {A} a.
Arguments Err {A} e.

(** ** The file tree

    Every entry carries its extended attributes; a rename therefore moves
    them with the entry.  Modification times of parent directories, modes and
    owners are not modelled. *)

Definition Time := Z.

Record inode := Inode {
  i_dir : bool;
  i_data : string;
  i_mtime : Time;
  i_gid : Z;
  i_xattrs : gmap string string
}.

Global Instance inode_eq_dec : EqDecision inode.
Proof. solve_decision. Defined.

Definition with_data (d : string) (i : inode) : inode :=
  Inode (i_dir i) d (i_mtime i) (i_gid i) (i_xattrs i).
Definition with_mtime (t : Time) (i : inode) : inode :=
  Inode (i_dir i) (i_data i) t (i_gid i) (i_xattrs i).
Definition with_xattrs (x : gmap string string) (i : inode) : inode :=
  Inode (i_dir i) (i_data i) (i_mtime i) (i_gid i) x.

Abbreviation filetree := (gmap fpath inode).

Module os.

(** The root directory always exists; the empty path never does. *)
Definition root_inode : inode := Inode true "" 0 0 ∅.

Definition lookup (fs : filetree) (p : fpath) : option inode :=
  if bool_decide (p = filepath.root) then
    match fs !! p with Some i => Some i | None => Some root_inode end
  else fs !! p.

Definition Stat (fs : filetree) (p : fpath) : res inode :=
  match lookup fs p with
  | Some i => Ok i
  | None => Err (PathError "stat" p ENOENT)
  end.

Definition parent_is_dir (fs : filetree) (p : fpath) : bool :=
  match lookup fs (filepath.Dir p) with
  | Some i => i_dir i
  | None => false
  end.

Definition new_dir (now : Time) : inode := Inode true "" now 0 ∅.
Definition new_file (now : Time) (d : string) : inode := Inode false d now 0 ∅.

(** [os.MkdirAll]: walks down from the first component, creating what is
    missing; an existing file on the way is ENOTDIR. *)
Fixpoint mkdir_down (now : Time) (abs : bool) (done todo : list string) (fs : filetree)
  : res unit * filetree :=
  match todo with
  | [] => (Ok tt, fs)
  | c :: todo' =>
      let q := FPath abs (done ++ [c]) in
      match lookup fs q with
      | Some i =>
          if i_dir i then mkdir_down now abs (done ++ [c]) todo' fs
          else (Err (PathError "mkdir" q ENOTDIR), fs)
      | None => mkdir_down now abs (done ++ [c]) todo' (<[q := new_dir now]> fs)
      end
  end.

Definition MkdirAll (now : Time) (fs : filetree) (p : fpath) : res unit * filetree :=
  if is_abs p then mkdir_down now true [] (comps p) fs
  else (Err (PathError "mkdir" p ENOENT), fs).

(** [os.OpenFile(p, O_RDONLY, 0)] followed by reading: the content. *)
Definition OpenRead (fs : filetree) (p : fpath) : res string :=
  match lookup fs p with
  | Some i => Ok (i_data i)
  | None => Err (PathError "open" p ENOENT)
  end.

(** [os.OpenFile(p, O_CREATE|O_WRONLY|O_EXCL, 0600)] *)
Definition OpenExcl (now : Time) (fs : filetree) (p : fpath) : res unit * filetree :=
  match lookup fs p with
  | Some _ => (Err (PathError "open" p EEXIST), fs)
  | None =>
      if parent_is_dir fs p then (Ok tt, <[p := new_file now ""]> fs)
      else (Err (PathError "open" p ENOENT), fs)
  end.

(** [os.OpenFile(p, O_CREATE|O_WRONLY|O_TRUNC, _)], [os.Create] and
    [os.WriteFile]: an existing file keeps its attributes and gets the new
    content. *)
Definition WriteFile (now : Time) (fs : filetree) (p : fpath) (d : string) : res unit * filetree :=
  match lookup fs p with
  | Some i =>
      if i_dir i then (Err (PathError "open" p EISDIR), fs)
      else (Ok tt, <[p := with_mtime now (with_data d i)]> fs)
  | None =>
      if parent_is_dir fs p then (Ok tt, <[p := new_file now d]> fs)
      else (Err (PathError "open" p ENOENT), fs)
  end.

Definition Create (now : Time) (fs : filetree) (p : fpath) : res unit * filetree :=
  WriteFile now fs p "".

(** [os.OpenFile(p, O_RDWR|O_CREATE, 0600)] *)
Definition OpenCreate (now : Time) (fs : filetree) (p : fpath) : res unit * filetree :=
  match lookup fs p with
  | Some i => if i_dir i then (Err (PathError "open" p EISDIR), fs) else (Ok tt, fs)
  | None =>
      if parent_is_dir fs p then (Ok tt, <[p := new_file now ""]> fs)
      else (Err (PathError "open" p ENOENT), fs)
  end.

(** [io.Copy(dst, src)] between two open files: reading a directory fails *)
Definition Copy (fs : filetree) (dst src : fpath) : res unit * filetree :=
  match lookup fs src, fs !! dst with
  | Some i, Some j =>
      if i_dir i then (Err (PathError "read" src EISDIR), fs)
      else (Ok tt, <[dst := with_data (i_data i) j]> fs)
  | _, _ => (Err (PathError "read" src ENOENT), fs)
  end.

(** writing through an open descriptor *)
Definition write_fd (fs : filetree) (p : fpath) (d : string) : filetree :=
  match fs !! p with
  | Some i => <[p := with_data d i]> fs
  | None => fs
  end.

Definition has_children (fs : filetree) (p : fpath) : bool :=
  negb (bool_decide (map_Forall (fun q (_ : inode) => ~ filepath.under p q) fs)).

Definition Remove (fs : filetree) (p : fpath) : res unit * filetree :=
  match fs !! p with
  | Some i =>
      if i_dir i && has_children fs p then (Err (PathError "remove" p ENOTEMPTY), fs)
      else (Ok tt, delete p fs)
  | None => (Err (PathError "remove" p ENOENT), fs)
  end.

(** [os.RemoveAll]: no error when the path is already gone. *)
Definition RemoveAll (fs : filetree) (p : fpath) : res unit * filetree :=
  (Ok tt, filter (fun kv => ~ filepath.at_or_under p (fst kv)) fs).

Definition rebase (src dst q : fpath) : fpath :=
  FPath (is_abs dst) (comps dst ++ drop (length (comps src)) (comps q)).

(** the entries below [src], re-rooted at [dst] *)
Definition moved_children (src dst : fpath) (fs : filetree) : filetree :=
  map_fold (fun q i acc =>
              if decide (filepath.under src q) then <[rebase src dst q := i]> acc else acc)
           ∅ fs.

Definition rename_tree (src dst : fpath) (i : inode) (fs : filetree) : filetree :=
  <[dst := i]>
    (moved_children src dst fs
     ∪ filter (fun kv => ~ filepath.at_or_under src (fst kv)
                         /\ ~ filepath.at_or_under dst (fst kv)) fs).

(** [os.Rename] *)
Definition Rename (fs : filetree) (src dst : fpath) : res unit * filetree :=
  match fs !! src with
  | None => (Err (LinkError "rename" src dst ENOENT), fs)
  | Some i =>
      if negb (parent_is_dir fs dst) then (Err (LinkError "rename" src dst ENOENT), fs)
      else if bool_decide (filepath.under src dst) then
        (Err (LinkError "rename" src dst EINVAL), fs)
      else if bool_decide (src = dst) then (Ok tt, fs)
      else
        match fs !! dst with
        | Some j =>
            if i_dir i && negb (i_dir j) then (Err (LinkError "rename" src dst ENOTDIR), fs)
            else if negb (i_dir i) && i_dir j then (Err (LinkError "rename" src dst EISDIR), fs)
            else if i_dir j && has_children fs dst then
              (Err (LinkError "rename" src dst ENOTEMPTY), fs)
            else (Ok tt, rename_tree src dst i fs)
        | None => (Ok tt, rename_tree src dst i fs)
        end
  end.

Definition Chtimes (fs : filetree) (p : fpath) (t : Time) : res unit * filetree :=
  match fs !! p with
  | Some i => (Ok tt, <[p := with_mtime t i]> fs)
  | None => (Err (PathError "chtimes" p ENOENT), fs)
  end.

Definition name_le (a b : string * inode) : Prop := String.leb (fst a) (fst b) = true.

Global Instance name_le_dec a b : Decision (name_le a b).
Proof. unfold name_le. apply _. Defined.

(** [os.ReadDir]: the entries of a directory, sorted by name.  Every
    failure is a [*PathError]. *)
Definition ReadDir (fs : filetree) (p : fpath) : res (list (string * inode)) :=
  match lookup fs p with
  | None => Err (PathError "open" p ENOENT)
  | Some i =>
      if i_dir i then
        Ok (merge_sort name_le
              (omap (fun kv =>
                       if decide (filepath.Dir (fst kv) = p /\ fst kv <> p)
                       then Some (filepath.Base (fst kv), snd kv) else None)
                    (map_to_list fs)))
      else Err (PathError "readdirent" p ENOTDIR)
  end.

End os.

(** ** Extended attributes ([github.com/pkg/xattr]) *)

Module xattr.

Definition Get (fs : filetree) (p : fpath) (name : string) : res string :=
  match os.lookup fs p with
  | None => Err (XattrError "xattr.get" p name ENOENT)
  | Some i =>
      match i_xattrs i !! name with
      | Some v => Ok v
      | None => Err (XattrError "xattr.get" p name ENODATA)
      end
  end.

Definition Set_ (fs : filetree) (p : fpath) (name v : string) : res unit * filetree :=
  match os.lookup fs p with
  | None => (Err (XattrError "xattr.set" p name ENOENT), fs)
  | Some i => (Ok tt, <[p := with_xattrs (<[name := v]> (i_xattrs i)) i]> fs)
  end.

Definition Remove (fs : filetree) (p : fpath) (name : string) : res unit * filetree :=
  match os.lookup fs p with
  | None => (Err (XattrError "xattr.remove" p name ENOENT), fs)
  | Some i => (Ok tt, <[p := with_xattrs (delete name (i_xattrs i)) i]> fs)
  end.

End xattr.

(** ** Timestamps

    [time.Time] is a count of nanoseconds since the Unix epoch, the zero
    [time.Time] is [0].  The RFC3339Nano text of a time in UTC, which names
    the instant, is abstracted to its decimal rendering.  The layout of the
    trash info files, a local wall-clock reading without zone, is modelled
    with the calendar and the zones of the [Location]. *)

Module time.

Definition Format (t : Time) : string := NilZero.string_of_int (Z.to_int t).

Definition Parse (s : string) : res Time :=
  match NilZero.int_of_string s with
  | Some d => Ok (Z.of_int d)
  | None => Err (ParseError s)
  end.

(** *** Local time

    [time.Now().Format(layout)] renders the wall clock of the local zone,
    [time.ParseInLocation(layout, s, time.Local)] reads such a text back; the
    layout of the trash info files carries no zone.  A [Location] is the
    table of its zone transitions (the rule by which Go extends the table to
    later times is left out: its transitions can be listed), and the ranges
    of the machine integers are not modelled. *)

Definition nanos : Z := 1000000000.

(** A zone of a [Location]: its offset from UTC in seconds, in effect for
    the Unix times [zstart <= t < zend]. *)
Record zone := Zone { offset : Z; zstart : Z; zend : Z }.

(** A [Location]: the offset in effect before the first transition, and the
    transitions in ascending order, each with the offset from then on. *)
Record Location := MkLocation { first_offset : Z; tx : list (Z * Z) }.

Definition UTC : Location := MkLocation 0 [].
Definition FixedZone (off : Z) : Location := MkLocation off [].

Definition alpha : Z := - 2 ^ 63.
Definition omega : Z := 2 ^ 63 - 1.

Fixpoint lookup_tx (off start : Z) (l : list (Z * Z)) (sec : Z) : zone :=
  match l with
  | [] => Zone off start omega
  | (when, off') :: rest =>
      if sec <? when then Zone off start when else lookup_tx off' when rest sec
  end.

(** [l.lookup(sec)]: the zone in effect at the Unix time [sec] *)
Definition lookup (l : Location) (sec : Z) : zone :=
  lookup_tx (first_offset l) alpha (tx l) sec.

(** the proleptic Gregorian calendar: the date (year, month, day) of a
    count of days since 1970-01-01, and back *)
Definition civil_from_days (days : Z) : Z * Z * Z :=
  let z := days + 719468 in
  let era := z / 146097 in
  let doe := z - era * 146097 in
  let yoe := (doe - doe / 1460 + doe / 36524 - doe / 146096) / 365 in
  let doy := doe - (365 * yoe + yoe / 4 - yoe / 100) in
  let mp := (5 * doy + 2) / 153 in
  let d := doy - (153 * mp + 2) / 5 + 1 in
  let m := if mp <? 10 then mp + 3 else mp - 9 in
  ((yoe + era * 400) + (if m <=? 2 then 1 else 0), m, d).

Definition days_from_civil (year month day : Z) : Z :=
  let y := if month <=? 2 then year - 1 else year in
  let era := y / 400 in
  let yoe := y - era * 400 in
  let doy := (153 * (if 2 <? month then month - 3 else month + 9) + 2) / 5 + day - 1 in
  let doe := yoe * 365 + yoe / 4 - yoe / 100 + doy in
  era * 146097 + doe - 719468.

Definition isLeap (year : Z) : bool :=
  (year mod 4 =? 0) && (negb (year mod 100 =? 0) || (year mod 400 =? 0)).

Definition daysIn (month year : Z) : Z :=
  if month =? 2 then (if isLeap year then 29 else 28)
  else if (month =? 4) || (month =? 6) || (month =? 9) || (month =? 11) then 30
  else 31.

(** the digit characters *)
Definition digit (n : Z) : ascii := ascii_of_nat (48 + Z.to_nat n).

Definition isDigit (c : ascii) : bool :=
  (48 <=? nat_of_ascii c)%nat && (nat_of_ascii c <=? 57)%nat.

Definition digit_val (c : ascii) : Z := Z.of_nat (nat_of_ascii c) - 48.

(** the decimal digits of a natural number, most significant first *)
Definition decimal (u : Z) : string := NilZero.string_of_uint (N.to_uint (Z.to_N u)).

(** [appendInt(b, x, width)]: the decimal form of [x], zero-padded to
    [width] *)
Definition appendInt (x : Z) (width : nat) : string :=
  let u := Z.abs x in
  (if x <? 0 then "-" else "")
  ++ (if Nat.eqb width 2 && (u <? 100) then
        String (digit (u / 10)) (String (digit (u mod 10)) "")
      else if Nat.eqb width 4 && (u <? 10000) then
        String (digit (u / 1000))
          (String (digit (u / 100 mod 10))
             (String (digit (u / 10 mod 10)) (String (digit (u mod 10)) "")))
      else
        let s := decimal u in
        String.concat "" (replicate (width - String.length s) "0") ++ s).

(** [t.In(loc).Format("2006-01-02T15:04:05")] *)
Definition Format_timeFormat (loc : Location) (t : Time) : string :=
  let unix := t / nanos in
  let abs := unix + offset (lookup loc unix) in
  let '(year, month, day) := civil_from_days (abs / 86400) in
  let secs := abs mod 86400 in
  appendInt year 4 ++ "-" ++ appendInt month 2 ++ "-" ++ appendInt day 2
  ++ "T" ++ appendInt (secs / 3600) 2 ++ ":" ++ appendInt (secs mod 3600 / 60) 2
  ++ ":" ++ appendInt (secs mod 60) 2.

(** [t.In(loc).Year()] *)
Definition Year (loc : Location) (t : Time) : Z :=
  let unix := t / nanos in
  fst (fst (civil_from_days ((unix + offset (lookup loc unix)) / 86400))).

(** [getnum(s, fixed)]: a number of one or two digits, of two when
    [fixed] *)
Definition getnum (s : string) (fixed : bool) : option (Z * string) :=
  match s with
  | String a rest =>
      if isDigit a then
        match rest with
        | String b rest' =>
            if isDigit b then Some (digit_val a * 10 + digit_val b, rest')
            else if fixed then None else Some (digit_val a, rest)
        | EmptyString => if fixed then None else Some (digit_val a, rest)
        end
      else None
  | EmptyString => None
  end.

(** the year of the layout: four digits *)
Definition getyear (s : string) : option (Z * string) :=
  match s with
  | String a (String b (String c (String d rest))) =>
      if isDigit a && isDigit b && isDigit c && isDigit d
      then Some (digit_val a * 1000 + digit_val b * 100 + digit_val c * 10 + digit_val d, rest)
      else None
  | _ => None
  end.

(** [skip(value, prefix)] for a prefix of one character that is no space *)
Definition skip (s : string) (c : ascii) : option string :=
  match s with
  | String a rest => if Ascii.eqb a c then Some rest else None
  | EmptyString => None
  end.

Fixpoint span_digits (s : string) : string * string :=
  match s with
  | String a rest =>
      if isDigit a then let '(ds, r) := span_digits rest in (String a ds, r)
      else ("", s)
  | EmptyString => ("", "")
  end.

Fixpoint digits_val (s : string) (acc : Z) : Z :=
  match s with
  | String a rest => digits_val rest (acc * 10 + digit_val a)
  | EmptyString => acc
  end.

Definition commaOrPeriod (c : ascii) : bool := Ascii.eqb c "." || Ascii.eqb c ",".

(** a fractional second in the input that the layout does not have: the
    nanoseconds of its first nine digits, and the input after its digits *)
Definition fraction (s : string) : Z * string :=
  match s with
  | String c (String d rest) =>
      if commaOrPeriod c && isDigit d then
        let '(ds, r) := span_digits (String d rest) in
        let ds9 := substring 0 9 ds in
        (digits_val ds9 0 * 10 ^ Z.of_nat (9 - String.length ds9), r)
      else (0, s)
  | _ => (0, s)
  end.

(** the Unix time of a local wall-clock reading, given as the Unix time
    the reading has in UTC, as [time.Date] finds it: the offset of the zone
    in effect at that time is taken off, and when the result lies outside
    that zone, the offset of the zone in effect at the result *)
Definition unix_of_local (loc : Location) (unix : Z) : Z :=
  let z := lookup loc unix in
  if offset z =? 0 then unix
  else
    let utc := unix - offset z in
    if (utc <? zstart z) || (zend z <=? utc) then unix - offset (lookup loc utc)
    else utc.

(** [time.Date(year, month, day, hour, min, sec, nsec, loc)] for fields in
    their ranges *)
Definition Date (year month day hour min sec nsec : Z) (loc : Location) : Time :=
  unix_of_local loc (days_from_civil year month day * 86400 + hour * 3600 + min * 60 + sec)
  * nanos + nsec.

Definition bind_opt {A B} (o : option A) (k : A -> option B) : option B :=
  match o with Some a => k a | None => None end.

(** [time.ParseInLocation("2006-01-02T15:04:05", s, loc)] *)
Definition ParseInLocation_timeFormat (s : string) (loc : Location) : res Time :=
  let r :=
    bind_opt (getyear s) (fun '(year, s) =>
    bind_opt (skip s "-") (fun s =>
    bind_opt (getnum s true) (fun '(month, s) =>
    if (month <=? 0) || (12 <? month) then None else
    bind_opt (skip s "-") (fun s =>
    bind_opt (getnum s true) (fun '(day, s) =>
    bind_opt (skip s "T") (fun s =>
    bind_opt (getnum s false) (fun '(hour, s) =>
    if 24 <=? hour then None else
    bind_opt (skip s ":") (fun s =>
    bind_opt (getnum s true) (fun '(min, s) =>
    if 60 <=? min then None else
    bind_opt (skip s ":") (fun s =>
    bind_opt (getnum s true) (fun '(sec, s) =>
    if 60 <=? sec then None else
    let '(nsec, s) := fraction s in
    if negb (String.eqb s "") then None (* extra text *)
    else if (day <? 1) || (daysIn month year <? day) then None (* day out of range *)
    else Some (Date year month day hour min sec nsec loc)))))))))))) in
  match r with
  | Some t => Ok t
  | None => Err (ParseError s)
  end.

End time.

Definition FormatInt (z : Z) : string := NilZero.string_of_int (Z.to_int z).

Definition ParseInt (s : string) : res Z :=
  match NilZero.int_of_string s with
  | Some d => Ok (Z.of_int d)
  | None => Err (ParseError s)
  end.

(** ** Attribute names ([metadata/prefixes]) *)

Module prefixes.
Definition OcPrefix := "user.oc.".
Definition IDAttr := "user.oc.id".
Definition SpaceIDAttr := "user.oc.space.id".
Definition ParentidAttr := "user.oc.parentid".
Definition NameAttr := "user.oc.name".
Definition TypeAttr := "user.oc.type".
Definition BlobIDAttr := "user.oc.blobid".
Definition BlobsizeAttr := "user.oc.blobsize".
Definition MTimeAttr := "user.oc.mtime".
Definition TreesizeAttr := "user.oc.treesize".
Definition PropagationAttr := "user.oc.propagation".
Definition ChecksumPrefix := "user.oc.cs.".
Definition OwnerIDAttr := "user.oc.owner.id".
Definition OwnerIDPAttr := "user.oc.owner.idp".
End prefixes.

Definition dirtyFlag := "user.oc.dirty".
Definition RevisionIDDelimiter := ".REV.".
Definition CurrentIDDelimiter := ".CURRENT".

(** ** Scan items, events, background tasks *)

Record scanItem := ScanItem {
  Path : fpath;
  ForceRescan : bool;
  Recurse : bool
}.

Global Instance scanItem_eq_dec : EqDecision scanItem.
Proof. solve_decision. Defined.

Record Reference := Ref {
  ref_SpaceId : string;
  ref_OpaqueId : string;
  ref_Path : string
}.

Inductive Event :=
| ItemTrashed (r : Reference) (id : string)
| ItemMoved (r oldr : Reference)
| ContainerCreated (r : Reference)
| FileTouched (r : Reference)
| UploadReady (r : Reference).

(** A [go func() { ... }()] statement: the goroutine is recorded, not run. *)
Inductive Task :=
| GoAssimilate (item : scanItem)
| GoWarmupIDCache (root : fpath) (assimilate onlyDirty : bool)
| GoReplicateCurrent (spaceID id : string) (p : fpath).

(** ** The scan debouncer's state

    A pending entry keeps the item that was stored and, separately, the flags
    its timer closure captured; [deadline] is the instant the timer fires. *)

Record queueItem := QueueItem {
  item : scanItem;
  timer_force : bool;
  timer_recurse : bool;
  deadline : Time
}.

Record ScanDebouncer := Debouncer {
  after : Z;
  pending : gmap fpath queueItem;
  inProgress : gset fpath;
  ran : list scanItem          (* the calls [d.f(item)] made so far, oldest first *)
}.

(** ** The world *)

Record World := MkWorld {
  w_fs : filetree;
  w_ids : gmap (string * string) fpath;     (* id cache: (space, id) -> path *)
  w_paths : gmap fpath (string * string);   (* id cache, reverse direction *)
  w_now : Time;                             (* time.Now() *)
  w_uuid : nat -> string;                   (* what uuid.New() returns, call by call *)
  w_uuid_next : nat;
  w_events : list Event;                    (* published, oldest first *)
  w_tasks : list Task;                      (* goroutines started, oldest first *)
  w_scope : option Z;                       (* gid the thread was last scoped to *)
  w_deb : ScanDebouncer
}.

Definition set_fs (f : filetree) (w : World) : World :=
  MkWorld f (w_ids w) (w_paths w) (w_now w) (w_uuid w) (w_uuid_next w)
          (w_events w) (w_tasks w) (w_scope w) (w_deb w).
Definition set_cache (i : gmap (string * string) fpath) (p : gmap fpath (string * string))
  (w : World) : World :=
  MkWorld (w_fs w) i p (w_now w) (w_uuid w) (w_uuid_next w)
          (w_events w) (w_tasks w) (w_scope w) (w_deb w).
Definition set_uuid_next (n : nat) (w : World) : World :=
  MkWorld (w_fs w) (w_ids w) (w_paths w) (w_now w) (w_uuid w) n
          (w_events w) (w_tasks w) (w_scope w) (w_deb w).
Definition set_events (e : list Event) (w : World) : World :=
  MkWorld (w_fs w) (w_ids w) (w_paths w) (w_now w) (w_uuid w) (w_uuid_next w)
          e (w_tasks w) (w_scope w) (w_deb w).
Definition set_tasks (t : list Task) (w : World) : World :=
  MkWorld (w_fs w) (w_ids w) (w_paths w) (w_now w) (w_uuid w) (w_uuid_next w)
          (w_events w) t (w_scope w) (w_deb w).
Definition set_scope (s : option Z) (w : World) : World :=
  MkWorld (w_fs w) (w_ids w) (w_paths w) (w_now w) (w_uuid w) (w_uuid_next w)
          (w_events w) (w_tasks w) s (w_deb w).
Definition set_deb (d : ScanDebouncer) (w : World) : World :=
  MkWorld (w_fs w) (w_ids w) (w_paths w) (w_now w) (w_uuid w) (w_uuid_next w)
          (w_events w) (w_tasks w) (w_scope w) d.

(** ** Fallible, stateful computations *)

Definition M (A : Type) : Type := World -> res A * World.

Definition ret {A} (a : A) : M A := fun w => (Ok a, w).
Definition fail {A} (e : error) : M A := fun w => (Err e, w).
Definition bind {A B} (m : M A) (k : A -> M B) : M B :=
  fun w => match m w with
           | (Ok a, w') => k a w'
           | (Err e, w') => (Err e, w')
           end.

(** [_ = f()] and "log the error and go on": the outcome of [m] as a value. *)
Definition try {A} (m : M A) : M (res A) :=
  fun w => let '(r, w') := m w in (Ok r, w').

Definition get_world : M World := fun w => (Ok w, w).
Definition modify (f : World -> World) : M unit := fun w => (Ok tt, f w).
Definition lift_res {A} (r : res A) : M A := fun w => (r, w).

(** a call on the file tree *)
Definition on_fs {A} (f : filetree -> res A * filetree) : M A :=
  fun w => let '(r, fs') := f (w_fs w) in (r, set_fs fs' w).
Definition read_fs {A} (f : filetree -> res A) : M A := fun w => (f (w_fs w), w).

Declare Scope go_scope.
Delimit Scope go_scope with go.
Notation "x <- m ;; k" := (bind m (fun x => k))
  (at level 100, m at next level, right associativity) : go_scope.
Notation "m ;;; k" := (bind m (fun _ => k))
  (at level 100, right associativity) : go_scope.
Open Scope go_scope.

Definition now : M Time := fun w => (Ok (w_now w), w).

(** [uuid.New().String()] *)
Definition uuid_New : M string :=
  fun w => (Ok (w_uuid w (w_uuid_next w)), set_uuid_next (S (w_uuid_next w)) w).

Definition PublishEvent (e : Event) : M unit :=
  modify (fun w => set_events (w_events w ++ [e]) w).

Definition go (t : Task) : M unit :=
  modify (fun w => set_tasks (w_tasks w ++ [t]) w).

(** ** Id cache and path lookup *)

Module IDCache.

(** Modelled from the spec: [cacheId(spaceId, id, path)] stores both
    directions. *)
Definition Set_ (spaceID id : string) (p : fpath) : M unit :=
  modify (fun w => set_cache (<[(spaceID, id) := p]> (w_ids w))
                             (<[p := (spaceID, id)]> (w_paths w)) w).

(** Modelled from the spec: [getCachedId(spaceId, id)], the cached path if
    there is one. *)
Definition Get (w : World) (spaceID id : string) : option fpath :=
  w_ids w !! (spaceID, id).

(** Modelled from the spec: [deletePath(path)] removes only the reverse
    entry. *)
Definition DeletePath (p : fpath) : M unit :=
  modify (fun w => set_cache (w_ids w) (delete p (w_paths w)) w).

(** Modelled from the spec: [DeleteByPath] purges the id-cache entry of the
    path, that is the reverse entry and the forward entry it names. *)
Definition DeleteByPath (p : fpath) : M unit :=
  modify (fun w =>
            match w_paths w !! p with
            | Some k => set_cache (delete k (w_ids w)) (delete p (w_paths w)) w
            | None => w
            end).

End IDCache.

Module lookup.

Definition cached (w : World) (spaceID id : string) : fpath :=
  default filepath.empty (IDCache.Get w spaceID id).

(** Modelled from the spec: [internalPath(spaceId, id)] is the cached path
    for the POSIX driver; a revision [<id>.REV.<ts>] and the current copy
    [<id>.CURRENT] are siblings of the node, named [<nodePath>.REV.<ts>] and
    [<nodePath>.CURRENT].  A lookup that misses yields the empty path. *)
Definition InternalPath (w : World) (spaceID id : string) : fpath :=
  match strings.SplitN2 id RevisionIDDelimiter with
  | [nid; ts] => filepath.add_suffix (cached w spaceID nid) (RevisionIDDelimiter ++ ts)
  | _ =>
      if strings.HasSuffix id CurrentIDDelimiter
      then filepath.add_suffix (cached w spaceID (strings.TrimSuffix id CurrentIDDelimiter))
                               CurrentIDDelimiter
      else cached w spaceID id
  end.

(** Modelled from the spec: [versionPath(spaceId, nodeId, timestamp)] is
    [<internalPath>.REV.<timestamp>]. *)
Definition VersionPath (w : World) (spaceID id version : string) : fpath :=
  filepath.add_suffix (InternalPath w spaceID id) (RevisionIDDelimiter ++ version).

Definition CacheID (spaceID id : string) (p : fpath) : M unit :=
  IDCache.Set_ spaceID id p.

Definition GetCachedID (w : World) (spaceID id : string) : fpath * bool :=
  match IDCache.Get w spaceID id with
  | Some p => (p, true)
  | None => (filepath.empty, false)
  end.

Definition attr_or_empty (fs : filetree) (p : fpath) (name : string) : string :=
  match xattr.Get fs p name with Ok v => v | Err _ => "" end.

(** Modelled from the spec: [idsForPath(path)] answers from the id cache
    and on a miss reads the xattrs; it fails with NotFound if the path has
    no id. *)
Definition IDsForPath (w : World) (p : fpath) : res (string * string) :=
  match w_paths w !! p with
  | Some k => Ok k
  | None =>
      let id := attr_or_empty (w_fs w) p prefixes.IDAttr in
      if bool_decide (id = "") then Err (NotFound (filepath.to_string p))
      else Ok (attr_or_empty (w_fs w) p prefixes.SpaceIDAttr, id)
  end.

End lookup.

(** ** Metadata backend

    The nodes handed to the backend: a [node.Node] or [node.BaseNode]
    resolves its path through the lookup each time it is asked, a [trashNode]
    or [assimilationNode] carries its path. *)

Inductive MetadataNode :=
| ByID (spaceID id : string)
| ByPath (spaceID id : string) (p : fpath).

Definition mn_InternalPath (w : World) (n : MetadataNode) : fpath :=
  match n with
  | ByID s i => lookup.InternalPath w s i
  | ByPath _ _ p => p
  end.

Module MetadataBackend.

Definition is_oc (name : string) : bool := strings.HasPrefix name prefixes.OcPrefix.

(** Modelled from the spec: the backend gets, sets and purges the xattrs of
    a path, all of them below [user.oc.]. *)
Definition Get (n : MetadataNode) (key : string) : M string :=
  fun w => (xattr.Get (w_fs w) (mn_InternalPath w n) key, w).

Definition GetInt64 (n : MetadataNode) (key : string) : M Z :=
  v <- Get n key ;; lift_res (ParseInt v).

Definition All (n : MetadataNode) : M (gmap string string) :=
  fun w => match os.lookup (w_fs w) (mn_InternalPath w n) with
           | Some i => (Ok (filter (fun kv => is_oc (fst kv) = true) (i_xattrs i)), w)
           | None => (Err (PathError "listxattr" (mn_InternalPath w n) ENOENT), w)
           end.

Definition set_attrs (p : fpath) (a : gmap string string) (fs : filetree) : res unit * filetree :=
  match os.lookup fs p with
  | Some i => (Ok tt, <[p := with_xattrs (a ∪ i_xattrs i) i]> fs)
  | None => (Err (PathError "setxattr" p ENOENT), fs)
  end.

(** [SetMultiple]: all attributes of [a] are written at once. *)
Definition SetMultiple (n : MetadataNode) (a : gmap string string) : M unit :=
  fun w => on_fs (set_attrs (mn_InternalPath w n) a) w.

Definition Set_ (n : MetadataNode) (key val : string) : M unit :=
  SetMultiple n {[key := val]}.

(** Modelled from the spec: [Purge] drops the metadata kept for the node's
    path; nothing is left to drop, and nothing fails, when no file is there. *)
Definition Purge (n : MetadataNode) : M unit :=
  fun w =>
    let p := mn_InternalPath w n in
    match w_fs w !! p with
    | Some i =>
        (Ok tt,
         set_fs (<[p := with_xattrs (filter (fun kv => is_oc (fst kv) = false) (i_xattrs i)) i]>
                   (w_fs w)) w)
    | None => (Ok tt, w)
    end.

(** Modelled from the spec: assimilation reads the [id] and [mtime] xattrs
    of a path in one call, together with the space id; an attribute that is
    not there reads as empty (as the zero time for [mtime]). *)
Definition IdentifyPath (p : fpath) : M (string * string * Time) :=
  fun w =>
    let fs := w_fs w in
    (Ok (lookup.attr_or_empty fs p prefixes.SpaceIDAttr,
         lookup.attr_or_empty fs p prefixes.IDAttr,
         match time.Parse (lookup.attr_or_empty fs p prefixes.MTimeAttr) with
         | Ok t => t
         | Err _ => 0
         end), w).

(** Modelled from the spec: the metadata lock is acquire-wait and released
    on close; taking and releasing it leaves the node as it was. *)
Definition Lock (n : MetadataNode) : M unit := ret tt.
Definition unlock (n : MetadataNode) : M unit := ret tt.

(** Modelled from the spec: [<node>.mlock] is the lock sidecar of a node. *)
Definition LockfilePath (p : fpath) : fpath := filepath.add_suffix p ".mlock".

(** Modelled from the spec: all metadata is persisted as xattrs on the
    path itself, so no file is a metadata file and the metadata of a path
    lives at the path. *)
Definition MetadataPath (p : fpath) : fpath := p.
Definition IsMetaFile (p : fpath) : bool := false.

End MetadataBackend.

(** [lookup.CopyMetadata] and [CopyMetadataWithSourceLock]: the attributes of
    [src] the filter keeps are written to [dst].  Modelled from the spec:
    "copy a filtered subset of xattrs from the live node". *)
Definition CopyMetadata (src dst : fpath) (keep : string -> bool) : M unit :=
  attrs <- MetadataBackend.All (ByPath "" "" src) ;;
  MetadataBackend.SetMultiple (ByPath "" "" dst)
    (filter (fun kv => keep (fst kv) = true) attrs).

(** ** Nodes and permissions *)

Module provider.

Record ResourcePermissions := Perms {
  Stat : bool;
  ListFileVersions : bool;
  InitiateFileDownload : bool;
  RestoreFileVersion : bool;
  ListRecycle : bool;
  PurgeRecycle : bool
}.

End provider.

Abbreviation ResourcePermissions := provider.ResourcePermissions.

Record Node := MkNode {
  SpaceID : string;
  ID : string;
  ParentID : string;
  Name : string;
  Blobsize : Z;
  BlobID : string;
  Exists : bool;
  SpaceRoot : string * string      (* SpaceID and ID of the space root node *)
}.

Definition as_mn (n : Node) : MetadataNode := ByID (SpaceID n) (ID n).
Definition node_InternalPath (w : World) (n : Node) : fpath :=
  lookup.InternalPath w (SpaceID n) (ID n).
Definition SpaceRoot_InternalPath (w : World) (n : Node) : fpath :=
  lookup.InternalPath w (fst (SpaceRoot n)) (snd (SpaceRoot n)).

Module node.

Definition NewBaseNode (spaceID id : string) : MetadataNode := ByID spaceID id.

(** Modelled from the spec: loading a node reads its attributes from the
    path the id resolves to; the node exists when a file is there. *)
Definition ReadNode (spaceID id : string) : M Node :=
  fun w =>
    let p := lookup.InternalPath w spaceID id in
    let a := lookup.attr_or_empty (w_fs w) p in
    (Ok (MkNode spaceID id (a prefixes.ParentidAttr) (a prefixes.NameAttr)
                (match ParseInt (a prefixes.BlobsizeAttr) with Ok z => z | Err _ => 0 end)
                (a prefixes.BlobIDAttr)
                (bool_decide (is_Some (os.lookup (w_fs w) p)))
                (spaceID, spaceID)), w).

(** [n.GetMTime]: the mtime attribute, parsed. *)
Definition GetMTime (n : Node) : M Time :=
  v <- MetadataBackend.Get (as_mn n) prefixes.MTimeAttr ;;
  lift_res (time.Parse v).

End node.

Module lookup_nodes.

(** Modelled from the spec: path lookup resolves [(spaceId, nodeId)] to a
    node. *)
Definition NodeFromID (spaceID id : string) : M Node :=
  if bool_decide (id = "") then fail (Errorf "invalid resource id")
  else node.ReadNode spaceID id.

(** Modelled from the spec: a reference is a node id and a path below it. *)
Definition NodeFromResource (r : Reference) : M Node :=
  n <- NodeFromID (ref_SpaceId r) (ref_OpaqueId r) ;;
  if bool_decide (comps (filepath.of_string (ref_Path r)) = []) then ret n
  else
    w <- get_world ;;
    let p := filepath.Join (node_InternalPath w n) [ref_Path r] in
    match lookup.IDsForPath w p with
    | Ok (_, id) => node.ReadNode (ref_SpaceId r) id
    | Err _ => ret (MkNode (ref_SpaceId r) "" (ID n) (filepath.Base p) 0 "" false
                           (ref_SpaceId r, ref_SpaceId r))
    end.

End lookup_nodes.

Definition FormatReference (r : Reference) : string :=
  ref_SpaceId r ++ "!" ++ ref_OpaqueId r ++ "/" ++ ref_Path r.

Definition nl : string := String (ascii_of_nat 10) EmptyString.

(** ** pkg/storage/fs/posix/trashbin/trashbin.go *)

Module trashbin.

Record Trashbin := MkTrashbin {
  (* Permissions.AssembleTrashPermissions *)
  AssembleTrashPermissions : Node -> res ResourcePermissions;
  (* time.Local, the time zone of the process *)
  Local : time.Location
}.

Definition trashHeader := "[Trash Info]".

(** the layout is a wall-clock reading in whole seconds, without zone;
    [time.Now()] is in the local zone *)
Definition timeFormat := "2006-01-02T15:04:05".

Definition writeInfoFile (tb : Trashbin) (trashPath : fpath) (id path : string) : M unit :=
  t <- now ;;
  let c := trashHeader ++ nl ++ "Path=" ++ path
           ++ nl ++ "DeletionDate=" ++ time.Format_timeFormat (Local tb) t in
  on_fs (fun fs => os.WriteFile t fs (filepath.Join trashPath ["info"; id ++ ".trashinfo"]) c).

(** the loop over the lines of a .trashinfo file *)
Fixpoint readInfoLines (tb : Trashbin) (lines : list string) (path : string)
  (ts : option Time) : res (string * option Time) :=
  match lines with
  | [] => Ok (path, ts)
  | line :: rest =>
      let step (ts' : option Time) :=
        if strings.HasPrefix line "Path="
        then readInfoLines tb rest (strings.TrimPrefix line "Path=") ts'
        else readInfoLines tb rest path ts' in
      if strings.HasPrefix line "DeletionDate=" then
        match time.ParseInLocation_timeFormat
                (strings.TrimSpace (strings.TrimPrefix line "DeletionDate=")) (Local tb) with
        | Err e => Err e
        | Ok t => step (Some t)
        end
      else step ts
  end.

Definition readInfoFile (tb : Trashbin) (trashPath : fpath) (id : string)
  : M (string * option Time) :=
  c <- read_fs (fun fs => os.OpenRead fs (filepath.Join trashPath ["info"; id ++ ".trashinfo"])) ;;
  lift_res (readInfoLines tb (strings.Split1 c (ascii_of_nat 10)) "" None).

Definition trashRootForNode (w : World) (n : Node) : fpath :=
  filepath.Join (SpaceRoot_InternalPath w n) [".Trash"].

Definition MoveToTrash (tb : Trashbin) (n : Node) (path : fpath) : M unit :=
  key <- uuid_New ;;
  w0 <- get_world ;;
  let trashPath := trashRootForNode w0 n in
  t <- now ;;
  on_fs (fun fs => os.MkdirAll t fs (filepath.Join trashPath ["info"])) ;;;
  on_fs (fun fs => os.MkdirAll t fs (filepath.Join trashPath ["files"])) ;;;
  w1 <- get_world ;;
  let relPath := strings.TrimPrefix (filepath.to_string path)
                   (filepath.to_string (SpaceRoot_InternalPath w1 n)) in
  let relPath := strings.TrimPrefix relPath "/" in
  writeInfoFile tb trashPath key relPath ;;;
  (* purge metadata *)
  IDCache.DeleteByPath path ;;;
  MetadataBackend.Purge (as_mn n) ;;;
  let itemTrashPath := filepath.Join trashPath ["files"; key ++ ".trashitem"] in
  on_fs (fun fs => os.Rename fs path itemTrashPath).

Inductive ResourceType := RESOURCE_TYPE_FILE | RESOURCE_TYPE_CONTAINER.

Record RecycleItem := MkRecycleItem {
  Key : string;
  Size : Z;
  item_Ref : Reference;
  DeletionTime : option Time;
  Type_ : ResourceType
}.

(** the body of the loop over the directory entries; [ts] is the variable
    the loop shares with the code before it *)
Fixpoint listEntries (tb : Trashbin) (spaceID key relativePath : string)
  (trashRoot base : fpath)
  (originalPath : string) (entries : list (string * inode)) (ts : option Time)
  (items : list RecycleItem) (w : World) : list RecycleItem :=
  match entries with
  | [] => items
  | (name, ino) :: rest =>
      let continue_ ts' := listEntries tb spaceID key relativePath trashRoot base
                             originalPath rest ts' items w in
      let emit entryKey entryOriginalPath (fi : inode) ts' :=
        let it := MkRecycleItem
                    (filepath.to_string (filepath.Join filepath.empty [key; relativePath; entryKey]))
                    (Z.of_nat (String.length (i_data fi)))
                    (Ref spaceID spaceID entryOriginalPath)
                    ts'
                    (if i_dir ino then RESOURCE_TYPE_CONTAINER else RESOURCE_TYPE_FILE) in
        listEntries tb spaceID key relativePath trashRoot base originalPath rest ts'
                    (items ++ [it]) w in
      if strings.HasSuffix name ".trashitem" then
        let entryKey := strings.TrimSuffix name ".trashitem" in
        match fst (readInfoFile tb trashRoot entryKey w) with
        | Err _ => continue_ None
        | Ok (entryOriginalPath, ts') => emit entryKey entryOriginalPath ino ts'
        end
      else
        match os.Stat (w_fs w) (filepath.Join base [name]) with
        | Err _ => continue_ ts
        | Ok fi =>
            emit name (filepath.to_string (filepath.Join (filepath.of_string originalPath) [name]))
                 fi ts
        end
  end.

Definition ListRecycle (tb : Trashbin) (spaceID key relativePath : string)
  : M (list RecycleItem) :=
  w <- get_world ;;
  let trashRoot := filepath.Join (lookup.InternalPath w spaceID spaceID) [".Trash"] in
  let base0 := filepath.Join trashRoot ["files"] in
  ctx <- (if bool_decide (key <> "") then
            (* this is listing a specific item/folder *)
            info <- readInfoFile tb trashRoot key ;;
            ret (filepath.Join base0 [key ++ ".trashitem"; relativePath],
                 filepath.to_string
                   (filepath.Join (filepath.of_string (fst info)) [relativePath]),
                 snd info)
          else ret (base0, "", None)) ;;
  let '(base, originalPath, ts) := ctx in
  match os.ReadDir (w_fs w) base with
  | Err (PathError _ _ _) => ret []
  | Err e => fail e
  | Ok entries =>
      ret (listEntries tb spaceID key relativePath trashRoot base originalPath entries ts []
             w)
  end.

Definition RestoreRecycleItem (tb : Trashbin) (spaceID key relativePath : string)
  (restoreRef : Reference) : M unit :=
  w <- get_world ;;
  let trashRoot := filepath.Join (lookup.InternalPath w spaceID spaceID) [".Trash"] in
  let trashPath := filepath.Join trashRoot ["files"; key ++ ".trashitem"; relativePath] in
  restoreBaseNode <- lookup_nodes.NodeFromID (ref_SpaceId restoreRef) (ref_OpaqueId restoreRef) ;;
  let restorePath := filepath.Join (node_InternalPath w restoreBaseNode) [ref_Path restoreRef] in
  ident <- MetadataBackend.IdentifyPath trashPath ;;
  let id := snd (fst ident) in
  (* update parent id in case it was restored to a different location *)
  pident <- MetadataBackend.IdentifyPath (filepath.Dir restorePath) ;;
  let parentID := snd (fst pident) in
  if bool_decide (parentID = "") then
    fail (Errorf ("trashbin: parent id not found for " ++ filepath.to_string restorePath))
  else
    let trashNode := ByPath spaceID id trashPath in
    MetadataBackend.Set_ trashNode prefixes.ParentidAttr parentID ;;;
    (* restore the item *)
    on_fs (fun fs => os.Rename fs trashPath restorePath) ;;;
    _ <- try (lookup.CacheID spaceID id restorePath) ;;
    (* cleanup trash info *)
    if bool_decide (relativePath = "." \/ relativePath = "/") then
      on_fs (fun fs => os.Remove fs (filepath.Join trashRoot ["info"; key ++ ".trashinfo"]))
    else ret tt.

Definition PurgeRecycleItem (tb : Trashbin) (r : Reference) (key relativePath : string)
  : M unit :=
  n <- lookup_nodes.NodeFromResource r ;;
  (* check permissions of deleted node *)
  match AssembleTrashPermissions tb n with
  | Err e => fail e
  | Ok rp =>
      if negb (provider.PurgeRecycle rp) then
        if provider.Stat rp then fail (PermissionDenied key) else fail (NotFound key)
      else
        w <- get_world ;;
        let trashRoot := trashRootForNode w n in
        on_fs (fun fs => os.RemoveAll fs
                 (filepath.Join trashRoot ["files"; key ++ ".trashitem"; relativePath])) ;;;
        let cleanPath := filepath.of_string relativePath in
        if bool_decide (comps cleanPath = []) then
          on_fs (fun fs => os.Remove fs (filepath.Join trashRoot ["info"; key ++ ".trashinfo"]))
        else ret tt
  end.

Definition EmptyRecycle (tb : Trashbin) (r : Reference) : M unit :=
  n <- lookup_nodes.NodeFromResource r ;;
  (* check permissions of deleted node *)
  match AssembleTrashPermissions tb n with
  | Err e => fail e
  | Ok rp =>
      if negb (provider.ListRecycle rp) && negb (provider.PurgeRecycle rp) then
        if provider.Stat rp then fail (PermissionDenied (ID n)) else fail (NotFound (ID n))
      else
        w <- get_world ;;
        let trashRoot := trashRootForNode w n in
        on_fs (fun fs => os.RemoveAll fs (filepath.Join trashRoot ["files"])) ;;;
        on_fs (fun fs => os.RemoveAll fs (filepath.Join trashRoot ["info"]))
  end.

End trashbin.

(** ** pkg/storage/fs/posix/tree *)

Module tree.

Record Options := MkOptions {
  Root : string;
  UseSpaceGroups : bool;
  MountID : string
}.

Record ResourceInfo := MkResourceInfo {
  ri_Id : string;
  ri_Size : Z;
  ri_Mtime : Time;
  ri_Etag : string
}.

(** The collaborators of [Tree] whose code is not part of these files. *)
Record Tree := MkTree {
  options : Options;
  AssemblePermissions : Node -> res ResourcePermissions;
  ScopeUserByIds : Z -> Z -> res unit;
  Propagate : Node -> Z -> M unit;
  DeleteBlob : Node -> M unit;
  ReadBlob : Node -> M string;
  CheckLock : Node -> M unit;
  AsResourceInfo : Node -> ResourcePermissions -> res ResourceInfo;
  CalculateEtag : string -> Time -> res string;
  sha1sum : string -> string;
  md5sum : string -> string;
  adler32sum : string -> string;
  isIndex : fpath -> bool;
  isUpload : fpath -> bool;
  isInternal : fpath -> bool;
  isTrash : fpath -> bool;
  isLockFile : fpath -> bool
}.

Inductive EventAction :=
| ActionCreate | ActionUpdate | ActionMove | ActionDelete | ActionMoveFrom.

(** *** ScanDebouncer *)

Definition NewScanDebouncer (d : Z) : ScanDebouncer := Debouncer d ∅ ∅ [].

Definition call_f (it : scanItem) (d : ScanDebouncer) : ScanDebouncer :=
  Debouncer (after d) (pending d) (inProgress d) (ran d ++ [it]).

(** [Debounce], called at instant [t].  The timer closure captures [path],
    [force] and [recurse]; the entry stores the item as it was passed. *)
Definition Debounce (t : Time) (it : scanItem) (d : ScanDebouncer) : ScanDebouncer :=
  if bool_decide (after d = 0) then call_f it d
  else
    let path := Path it in
    let force := match pending d !! Path it with
                 | Some q => ForceRescan it || ForceRescan (item q)
                 | None => ForceRescan it
                 end in
    let recurse := match pending d !! Path it with
                   | Some q => Recurse it || Recurse (item q)
                   | None => Recurse it
                   end in
    Debouncer (after d)
              (<[Path it := QueueItem it force recurse (t + after d)]> (pending d))
              (inProgress d) (ran d).

(** The function a timer runs when it expires at instant [t], up to and
    including the call of [f]; an entry whose deadline lies ahead has no
    expired timer. *)
Definition fire (t : Time) (path : fpath) (d : ScanDebouncer) : ScanDebouncer :=
  match pending d !! path with
  | None => d
  | Some q =>
      if bool_decide (t < deadline q) then d
      else if bool_decide (path ∈ inProgress d) then
        (* Reschedule this run for when the previous run has finished *)
        Debouncer (after d)
                  (<[path := QueueItem (item q) (timer_force q) (timer_recurse q)
                                       (t + after d)]> (pending d))
                  (inProgress d) (ran d)
      else
        Debouncer (after d) (delete path (pending d)) ({[path]} ∪ inProgress d)
                  (ran d ++ [ScanItem path (timer_force q) (timer_recurse q)])
  end.

(** [defer d.inProgress.Delete(path)], once [f] has returned *)
Definition fire_done (path : fpath) (d : ScanDebouncer) : ScanDebouncer :=
  Debouncer (after d) (pending d) (inProgress d ∖ {[path]}) (ran d).

Definition InProgress (path : fpath) (d : ScanDebouncer) : bool :=
  match pending d !! path with
  | Some _ => true
  | None => bool_decide (path ∈ inProgress d)
  end.

(** What happens at a debouncer, one call or timer at a time. *)
Inductive DebEvent :=
| EvDebounce (it : scanItem)
| EvTimer (path : fpath)
| EvDone (path : fpath)
| EvSleep (dt : Z).

Definition deb_step (st : Time * ScanDebouncer) (e : DebEvent) : Time * ScanDebouncer :=
  let '(t, d) := st in
  match e with
  | EvDebounce it => (t, Debounce t it d)
  | EvTimer p => (t, fire t p d)
  | EvDone p => (t, fire_done p d)
  | EvSleep dt => (t + Z.max 0 dt, d)
  end.

Definition deb_run (st : Time * ScanDebouncer) (es : list DebEvent) : Time * ScanDebouncer :=
  fold_left deb_step es st.

(** the debouncer of the tree, inside the world *)
Definition scanDebouncer_Debounce (it : scanItem) : M unit :=
  modify (fun w => set_deb (Debounce (w_now w) it (w_deb w)) w).

Definition scanDebouncer_InProgress (p : fpath) : M bool :=
  fun w => (Ok (InProgress p (w_deb w)), w).

(** *** dirty flag *)

Definition setDirty (path : fpath) (dirty : bool) : M unit :=
  on_fs (fun fs => xattr.Set_ fs path dirtyFlag (if dirty then "true" else "false")).

Definition isDirty (path : fpath) : M bool :=
  fun w =>
    match xattr.Get (w_fs w) path dirtyFlag with
    | Err e => if IsAttrUnset e then (Ok true, w) else (Err e, w)
    | Ok dirtyAttr => (Ok (bool_decide (dirtyAttr = "true")), w)
    end.

Definition getNodeForPath (path : fpath) : M Node :=
  w <- get_world ;;
  ids <- lift_res (lookup.IDsForPath w path) ;;
  node.ReadNode (fst ids) (snd ids).

Definition HandleFileDelete (t : Tree) (path : fpath) : M unit :=
  w <- get_world ;;
  ids <- lift_res (lookup.IDsForPath w path) ;;
  let '(spaceID, id) := ids in
  let n := node.NewBaseNode spaceID id in
  (* purge metadata *)
  _ <- try (IDCache.DeleteByPath path) ;;
  _ <- try (MetadataBackend.Purge n) ;;
  parentNode <- getNodeForPath (filepath.Dir path) ;;
  PublishEvent (ItemTrashed (Ref spaceID (ID parentNode) (filepath.Base path)) id).

(** *** Scan *)

Definition Scan (t : Tree) (path : fpath) (action : EventAction) (isDir : bool) : M unit :=
  match action with
  | ActionCreate =>
      if negb isDir then
        (* 1. New file (could be emitted as part of a new directory) *)
        busy <- scanDebouncer_InProgress (filepath.Dir path) ;;
        (if negb busy then scanDebouncer_Debounce (ScanItem path false false)
         else ret tt) ;;;
        setDirty (filepath.Dir path) true ;;;
        scanDebouncer_Debounce (ScanItem (filepath.Dir path) true true)
      else
        (* 2. New directory *)
        setDirty path true ;;;
        scanDebouncer_Debounce (ScanItem path true true)
  | ActionUpdate =>
      (* 3. Updated file *)
      busy <- scanDebouncer_InProgress (filepath.Dir path) ;;
      if negb busy then scanDebouncer_Debounce (ScanItem path true false)
      else ret tt
  | ActionMove =>
      (* 4. Moved file, 5. Moved directory *)
      scanDebouncer_Debounce (ScanItem path isDir isDir)
  | ActionMoveFrom =>
      (* 6. file/directory moved out of the watched directory *)
      setDirty (filepath.Dir path) true ;;;
      go (GoWarmupIDCache (filepath.Dir path) false true)
  | ActionDelete =>
      (* 7. Deleted file or directory *)
      HandleFileDelete t path ;;;
      scanDebouncer_Debounce (ScanItem (filepath.Dir path) true true)
  end.

(** *** assimilation *)

Definition wrap {A} (msg : string) (m : M A) : M A :=
  fun w => match m w with
           | (Err e, w') => (Err (Wrap e msg), w')
           | r => r
           end.

(** replace whatever error [m] gives by [e] *)
Definition or_fail {A} (e : error) (m : M A) : M A :=
  fun w => match m w with
           | (Err _, w') => (Err e, w')
           | r => r
           end.

(** [defer d(); body]: [d] runs when [body] is left, its outcome dropped. *)
Definition defer_ {A} (d : M unit) (body : M A) : M A :=
  r <- try body ;;
  _ <- try d ;;
  lift_res r.

Definition scopeSpace (t : Tree) (spaceCandidate : fpath) : M unit :=
  if negb (UseSpaceGroups (options t)) then ret tt
  else
    (* set the uid and gid for the space *)
    fi <- read_fs (fun fs => os.Stat fs spaceCandidate) ;;
    lift_res (ScopeUserByIds t (-1) (i_gid fi)) ;;;
    modify (set_scope (Some (i_gid fi))).

(** The loop of [findSpaceId].  It climbs one directory per round; [fuel]
    bounds the rounds, and a search that would circle at the root for ever
    ends with the error the function has for "not found". *)
Fixpoint findSpaceId_loop (t : Tree) (fuel : nat) (path spaceCandidate : fpath) : M string :=
  let notfound := Errorf ("could not find space for path " ++ filepath.to_string path) in
  if strings.HasPrefix (filepath.to_string spaceCandidate) (Root (options t)) then
    w <- get_world ;;
    let up := match fuel with
              | O => fail notfound
              | S fuel' => findSpaceId_loop t fuel' path (filepath.Dir spaceCandidate)
              end in
    match lookup.IDsForPath w spaceCandidate with
    | Ok (spaceID, _) =>
        if bool_decide (spaceID <> "") then
          scopeSpace t spaceCandidate ;;; ret spaceID
        else up
    | Err _ => up
    end
  else fail notfound.

Definition findSpaceId (t : Tree) (path : fpath) : M string :=
  findSpaceId_loop t (length (comps path)) path path.

Definition RESOURCE_TYPE_FILE : Z := 1.
Definition RESOURCE_TYPE_CONTAINER : Z := 2.

(** [node.CalculateChecksums]: reading fails on a directory. *)
Definition CalculateChecksums (t : Tree) (fs : filetree) (path : fpath)
  : res (string * string * string) :=
  match os.lookup fs path with
  | None => Err (PathError "open" path ENOENT)
  | Some i =>
      if i_dir i then Err (PathError "read" path EISDIR)
      else Ok (sha1sum t (i_data i), md5sum t (i_data i), adler32sum t (i_data i))
  end.

Definition attr_len (a : gmap string string) (k : string) : nat :=
  match a !! k with Some v => String.length v | None => O end.

(** the [assimilate:] label of [updateFile] with its [goto]: find the id of
    the parent, assimilating the parent first when it has no metadata *)
Fixpoint readParent (assimilate : scanItem -> M unit) (retries : nat)
  (path : fpath) (id spaceID : string) : M string :=
  if bool_decide (id <> spaceID) then
    (* read parent *)
    w <- get_world ;;
    ids <- or_fail (Errorf "failed to read parent id")
             (lift_res (lookup.IDsForPath w (filepath.Dir path))) ;;
    let parentID := snd ids in
    parentAttribs <- or_fail (Errorf "failed to read parent item attributes")
                       (MetadataBackend.All (node.NewBaseNode spaceID parentID)) ;;
    if bool_decide (size parentAttribs = O) || Nat.eqb (attr_len parentAttribs prefixes.IDAttr) 0
    then
      match retries with
      | O => fail (Errorf "got empty parent attribs even after assimilating")
      | S retries' =>
          (* assimilate parent first *)
          assimilate (ScanItem (filepath.Dir path) false false) ;;;
          (* retry *)
          readParent assimilate retries' path id spaceID
      end
    else ret (default "" (parentAttribs !! prefixes.IDAttr))
  else ret "".

Definition updateFile (t : Tree) (assimilate : scanItem -> M unit)
  (path : fpath) (id spaceID : string) : M (inode * gmap string string) :=
  let bn := ByPath spaceID id path in
  parentID <- readParent assimilate 1 path id spaceID ;;
  (* assimilate file *)
  fi <- wrap "failed to stat item" (read_fs (fun fs => os.Stat fs path)) ;;
  previous <- try (MetadataBackend.All bn) ;;
  match previous with
  | Err e => if IsAttrUnset e then ret None
             else fail (Wrap e "failed to get item attribs")
  | Ok a => ret (Some a)
  end ;;;
  let previousAttribs := match previous with Ok a => a | Err _ => ∅ end in
  let attributes0 : gmap string string :=
    <[prefixes.NameAttr := filepath.Base path]> {[prefixes.IDAttr := id]} in
  let attributes1 :=
    if bool_decide (parentID <> "") then <[prefixes.ParentidAttr := parentID]> attributes0
    else attributes0 in
  w <- get_world ;;
  let attributes2 :=
    match CalculateChecksums t (w_fs w) path with
    | Ok (s1, m5, a32) =>
        <[prefixes.ChecksumPrefix ++ "adler32" := a32]>
          (<[prefixes.ChecksumPrefix ++ "md5" := m5]>
             (<[prefixes.ChecksumPrefix ++ "sha1" := s1]> attributes1))
    | Err _ => attributes1
    end in
  typed <-
    (if i_dir fi then
       let a := <[prefixes.TreesizeAttr := FormatInt 0]>
                  (<[prefixes.TypeAttr := FormatInt RESOURCE_TYPE_CONTAINER]> attributes2) in
       let a := match previousAttribs !! prefixes.TreesizeAttr with
                | Some v => <[prefixes.TreesizeAttr := v]> a
                | None => a
                end in
       let a := <[prefixes.PropagationAttr := "1"]> a in
       treeSize <- or_fail (Errorf "failed to parse treesize")
                     (lift_res (ParseInt (default "" (a !! prefixes.TreesizeAttr)))) ;;
       ret (a, MkNode spaceID id parentID (filepath.Base path) treeSize ""
                      true (spaceID, spaceID))
     else
       blobID <- uuid_New ;;
       let size := Z.of_nat (String.length (i_data fi)) in
       let a := <[prefixes.TypeAttr := FormatInt RESOURCE_TYPE_FILE]>
                  (<[prefixes.BlobsizeAttr := FormatInt size]>
                     (<[prefixes.BlobIDAttr := blobID]> attributes2)) in
       ret (a, MkNode spaceID id parentID (filepath.Base path) size blobID
                      true (spaceID, spaceID))) ;;
  let attributes := <[prefixes.MTimeAttr := time.Format (i_mtime fi)]> (fst typed) in
  let n := snd typed in
  (* Copy the previous current version to a revision, in the background *)
  go (GoReplicateCurrent (SpaceID n) (ID n) path) ;;;
  wrap "failed to propagate" (Propagate t n 0) ;;;
  wrap "failed to set attributes" (MetadataBackend.SetMultiple bn attributes) ;;;
  _ <- try (lookup.CacheID spaceID id path) ;;
  ret (fi, attributes).

(** [assimilate].  The function calls itself through [updateFile], each
    time on the parent directory; [fuel] bounds that nesting. *)
Fixpoint assimilate_fuel (t : Tree) (fuel : nat) (it : scanItem) : M unit :=
  match fuel with
  | O => fail (Errorf "assimilate: nesting limit reached")
  | S fuel' =>
      let path := Path it in
      (* First find the space id *)
      spaceID <- findSpaceId t path ;;
      let assimilationNode := ByPath spaceID "" path in
      (* lock the file for assimilation *)
      wrap "failed to lock item for assimilation" (MetadataBackend.Lock assimilationNode) ;;;
      defer_ (MetadataBackend.unlock assimilationNode)
        ((* check for the id attribute again after grabbing the lock *)
         ident <- MetadataBackend.IdentifyPath path ;;
         let id := snd (fst ident) in
         let mtime := snd ident in
         if bool_decide (id <> "") then
           (* the file has an id set, we already know it from the past *)
           let n := node.NewBaseNode spaceID id in
           w <- get_world ;;
           let '(previousPath, ok) := lookup.GetCachedID w spaceID id in
           pp <- try (MetadataBackend.Get n prefixes.ParentidAttr) ;;
           let previousParentID := match pp with Ok v => v | Err _ => "" end in
           (* compare metadata mtime with actual mtime *)
           let fi := os.Stat (w_fs w) path in
           let handled := match fi with
                          | Ok i => bool_decide (previousPath = path)
                                    && bool_decide (mtime = i_mtime i)
                          | Err _ => false
                          end in
           if handled then ret tt
           else if ok && negb (String.eqb previousParentID "")
                   && negb (bool_decide (previousPath = path)) then
             (* was it moved or copied/restored with a clashing id? *)
             w' <- get_world ;;
             match os.Stat (w_fs w') previousPath with
             | Ok _ =>
                 (* this id clashes with an existing item -> clear metadata and re-assimilate *)
                 _ <- try (MetadataBackend.Purge assimilationNode) ;;
                 go (GoAssimilate (ScanItem path true false))
             | Err _ =>
                 (* this is a move *)
                 _ <- try (lookup.CacheID spaceID id path) ;;
                 r <- updateFile t (assimilate_fuel t fuel') path id spaceID ;;
                 let attrs := snd r in
                 _ <- try (IDCache.DeletePath previousPath) ;;
                 match fi with
                 | Ok i => if i_dir i then go (GoWarmupIDCache path false true) else ret tt
                 | Err _ => fail (Errorf "invalid memory address or nil pointer dereference")
                 end ;;;
                 let parentID := default "" (attrs !! prefixes.ParentidAttr) in
                 if negb (String.eqb parentID "") then
                   PublishEvent (ItemMoved (Ref spaceID parentID (filepath.Base path))
                                           (Ref spaceID previousParentID
                                                (filepath.Base previousPath)))
                 else ret tt
             end
           else
             (* This item had already been assimilated in the past. Update the path *)
             _ <- try (lookup.CacheID spaceID id path) ;;
             _ <- updateFile t (assimilate_fuel t fuel') path id spaceID ;;
             ret tt
         else
           (* assimilate new file *)
           newId <- uuid_New ;;
           r <- updateFile t (assimilate_fuel t fuel') path newId spaceID ;;
           let fi := fst r in
           let ref := Ref spaceID newId "" in
           if i_dir fi then PublishEvent (ContainerCreated ref)
           else if bool_decide (String.length (i_data fi) = O)
                then PublishEvent (FileTouched ref)
                else PublishEvent (UploadReady ref))
  end.

(** every nested call works on a path one component shorter *)
Definition assimilate (t : Tree) (it : scanItem) : M unit :=
  assimilate_fuel t (S (S (length (comps (Path it))))) it.

(** *** WarmupIDCache *)

(** what the walk function hands back to [filepath.Walk] *)
Inductive cb_result :=
| CbNil
| CbSkipDir
| CbErr (e : error).

(** the variables the walk function closes over *)
Record walkState := WalkState {
  sizes : gmap fpath Z;
  ws_spaceID : string
}.

Definition add_size (dir : fpath) (sz : Z) (m : gmap fpath Z) : gmap fpath Z :=
  <[dir := default 0 (m !! dir) + sz]> m.

(** [for dir != root { dir = Clean(Dir(dir)); sizes[dir] += size }] *)
Fixpoint add_sizes (fuel : nat) (root dir : fpath) (sz : Z) (m : gmap fpath Z)
  : gmap fpath Z :=
  if bool_decide (dir = root) then m
  else match fuel with
       | O => m
       | S fuel' =>
           let d := filepath.Dir dir in
           add_sizes fuel' root d sz (add_size d sz m)
       end.

(** the "try to find space" loop of the walk function; [inl] is an error
    the walk function returns, [inr] the space id the loop ends with *)
Fixpoint warmup_findSpace (t : Tree) (fuel : nat) (path spaceCandidate : fpath)
  (spaceID : string) : M (error + string) :=
  if strings.HasPrefix (filepath.to_string spaceCandidate) (Root (options t)) then
    w <- get_world ;;
    let '(spaceID1, found) :=
      match lookup.IDsForPath w spaceCandidate with
      | Ok (sp, _) => (sp, bool_decide (sp <> ""))
      | Err _ => ("", false)
      end in
    if found then
      r <- try (scopeSpace t path) ;;
      match r with Err e => ret (inl e) | Ok _ => ret (inr spaceID1) end
    else
      r <- try (MetadataBackend.IdentifyPath spaceCandidate) ;;
      match r with
      | Ok ident =>
          r' <- try (scopeSpace t path) ;;
          match r' with Err e => ret (inl e) | Ok _ => ret (inr (fst (fst ident))) end
      | Err _ =>
          match fuel with
          | O => ret (inr "")
          | S fuel' => warmup_findSpace t fuel' path (filepath.Dir spaceCandidate) ""
          end
      end
  else ret (inr spaceID).

(** [return t.setDirty(path, false)] *)
Definition warmup_finish (path : fpath) (st : walkState) : M (cb_result * walkState) :=
  r <- try (setDirty path false) ;;
  match r with
  | Ok _ => ret (CbNil, st)
  | Err e => ret (CbErr e, st)
  end.

(** the walk function, first half: "calculate tree sizes" with the dirty
    check of an [onlyDirty] walk; [inl] is what the walk function returns
    at once *)
Definition warmup_sizes (root : fpath) (onlyDirty : bool) (st : walkState)
  (path : fpath) (info : inode) : M (cb_result + walkState) :=
  if negb (i_dir info) then
    ret (inr (WalkState
                (add_sizes (length (comps path)) root path
                           (Z.of_nat (String.length (i_data info))) (sizes st))
                (ws_spaceID st)))
  else if onlyDirty then
    d <- try (isDirty path) ;;
    match d with
    | Err e => ret (inl (CbErr e))
    | Ok dirty =>
        if negb dirty then ret (inl CbSkipDir)
        else
          (* Make sure to set the size to 0 for empty directories *)
          ret (inr (WalkState (add_size path 0 (sizes st)) (ws_spaceID st)))
    end
  else ret (inr st).

(** the walk function, second half: identify the entry, find its space,
    cache its id or assimilate it, clear the dirty flag *)
Definition warmup_ids (t : Tree) (assimilate_ : bool) (st1 : walkState) (path : fpath)
  : M (cb_result * walkState) :=
  ident <- try (MetadataBackend.IdentifyPath path) ;;
  match ident with
  | Ok (nodeSpaceID, id, _) =>
      if negb (String.eqb id "") then
        sp <-
          (if negb (String.eqb nodeSpaceID "") then
             r <- try (scopeSpace t path) ;;
             match r with Err e => ret (inl e) | Ok _ => ret (inr nodeSpaceID) end
           else
             (* try to find space *)
             warmup_findSpace t (length (comps path)) path path (ws_spaceID st1)) ;;
        match sp with
        | inl e => ret (CbErr e, st1)
        | inr spaceID =>
            let st2 := WalkState (sizes st1) spaceID in
            if String.eqb spaceID "" then ret (CbNil, st2) (* no space found *)
            else
              w <- get_world ;;
              let '(previousPath, ok) := lookup.GetCachedID w spaceID id in
              (if ok && negb (bool_decide (previousPath = path)) then
                 (* this id clashes with an existing id -> re-assimilate *)
                 match os.Stat (w_fs w) previousPath with
                 | Ok _ => _ <- try (assimilate t (ScanItem path true false)) ;; ret tt
                 | Err _ => ret tt
                 end
               else ret tt) ;;;
              _ <- try (lookup.CacheID spaceID id path) ;;
              warmup_finish path st2
        end
      else if assimilate_ then
        _ <- try (assimilate t (ScanItem path true false)) ;;
        warmup_finish path st1
      else warmup_finish path st1
  | Err _ =>
      if assimilate_ then
        _ <- try (assimilate t (ScanItem path true false)) ;;
        warmup_finish path st1
      else warmup_finish path st1
  end.

(** the function [WarmupIDCache] passes to [filepath.Walk] *)
Definition warmup_visit (t : Tree) (root : fpath) (assimilate_ onlyDirty : bool)
  (st : walkState) (path : fpath) (info : option inode) (err : option error)
  : M (cb_result * walkState) :=
  (* skip lock and upload files *)
  if isIndex t path || isTrash t path || isUpload t path then ret (CbSkipDir, st)
  else if isInternal t path || isLockFile t path then ret (CbNil, st)
  else
    match err, info with
    | Some e, _ => ret (CbErr e, st)
    | None, None => ret (CbErr (Errorf "invalid memory address or nil pointer dereference"), st)
    | None, Some info =>
        pre <- warmup_sizes root onlyDirty st path info ;;
        match pre with
        | inl r => ret (r, st)
        | inr st1 => warmup_ids t assimilate_ st1 path
        end
    end.

(** [filepath.Walk]'s recursion: a directory is handed to the walk function
    first and its entries, in name order, after it.  [fuel] bounds the
    depth. *)
Fixpoint walk (fuel : nat)
  (fn : walkState -> fpath -> option inode -> option error -> M (cb_result * walkState))
  (path : fpath) (info : inode) (st : walkState) : M (cb_result * walkState) :=
  match fuel with
  | O => ret (CbErr (Errorf "walk: depth limit reached"), st)
  | S fuel' =>
      if negb (i_dir info) then fn st path (Some info) None
      else
        w <- get_world ;;
        let names := match os.ReadDir (w_fs w) path with Ok l => l | Err _ => [] end in
        r <- fn st path (Some info) None ;;
        match r with
        | (CbNil, st1) =>
            (fix children (names : list (string * inode)) (st : walkState)
               : M (cb_result * walkState) :=
               match names with
               | [] => ret (CbNil, st)
               | (name, _) :: rest =>
                   let filename := filepath.Join path [name] in
                   w' <- get_world ;;
                   match os.Stat (w_fs w') filename with
                   | Err e =>
                       r' <- fn st filename None (Some e) ;;
                       match r' with
                       | (CbErr e', st') => ret (CbErr e', st')
                       | (_, st') => children rest st'
                       end
                   | Ok fileInfo =>
                       r' <- walk fuel' fn filename fileInfo st ;;
                       match r' with
                       | (CbNil, st') => children rest st'
                       | (CbSkipDir, st') =>
                           if i_dir fileInfo then children rest st'
                           else ret (CbSkipDir, st')
                       | (CbErr e', st') => ret (CbErr e', st')
                       end
                   end
               end) names st1
        | other => ret other
        end
  end.

Definition Walk (root : fpath)
  (fn : walkState -> fpath -> option inode -> option error -> M (cb_result * walkState))
  (st : walkState) : M (option error * walkState) :=
  w <- get_world ;;
  r <- match os.Stat (w_fs w) root with
       | Err e => fn st root None (Some e)
       | Ok info => walk (S (size (w_fs w))) fn root info st
       end ;;
  match r with
  | (CbErr e, st') => ret (Some e, st')
  | (_, st') => ret (None, st')
  end.

Definition propagateSizeDiff (t : Tree) (n : Node) (sz : Z) : M unit :=
  attrs <- MetadataBackend.All (as_mn n) ;;
  oldSize <- lift_res (ParseInt (default "" (attrs !! prefixes.TreesizeAttr))) ;;
  Propagate t n (sz - oldSize).

(** the loop over the accumulated sizes; Go ranges over the map in an
    order of its choosing, here the order of [map_to_list] *)
Fixpoint writeSizes (t : Tree) (root : fpath) (l : list (fpath * Z)) : M unit :=
  match l with
  | [] => ret tt
  | (dir, sz) :: rest =>
      w <- get_world ;;
      match lookup.IDsForPath w dir with
      | Err _ => writeSizes t root rest
      | Ok (spaceID, id) =>
          n <- node.ReadNode spaceID id ;;
          (if bool_decide (dir = root) then
             (* Propagate the size diff further up the tree *)
             _ <- try (propagateSizeDiff t n sz) ;; ret tt
           else ret tt) ;;;
          _ <- try (MetadataBackend.Set_ (as_mn n) prefixes.TreesizeAttr (FormatInt sz)) ;;
          writeSizes t root rest
      end
  end.

Definition WarmupIDCache (t : Tree) (root : fpath) (assimilate_ onlyDirty : bool) : M unit :=
  r <- Walk root (warmup_visit t root assimilate_ onlyDirty) (WalkState ∅ "") ;;
  let '(err, st) := r in
  writeSizes t root (map_to_list (sizes st)) ;;;
  match err with
  | Some e => fail e
  | None => ret tt
  end.

(** *** revisions *)

(** the attributes that make up a blob: checksums, type, blob id and size *)
Definition blobAttr (attributeName : string) : bool :=
  strings.HasPrefix attributeName prefixes.ChecksumPrefix
  || String.eqb attributeName prefixes.TypeAttr
  || String.eqb attributeName prefixes.BlobIDAttr
  || String.eqb attributeName prefixes.BlobsizeAttr.

Definition revisionAttr (attributeName : string) : bool :=
  blobAttr attributeName || String.eqb attributeName prefixes.MTimeAttr.

(** Operations on the disk can fail for reasons the file tree does not
    show (an I/O error, a full disk); [io_error] names the steps of an
    execution that fail so. *)
Definition faults := string -> option error.
Definition no_faults : faults := fun _ => None.

Definition step {A} (io_error : faults) (label : string) (m : M A) : M A :=
  match io_error label with
  | Some e => fail e
  | None => m
  end.

(** [CreateRevision] creates a new version of the node *)
Definition CreateRevision (tp : Tree) (n : Node) (version : string) : M fpath :=
  w <- get_world ;;
  let versionPath := lookup.VersionPath w (SpaceID n) (ID n) version in
  t <- now ;;
  on_fs (fun fs => os.MkdirAll t fs (filepath.Dir versionPath)) ;;;
  (* copy file content to version node *)
  _ <- read_fs (fun fs => os.OpenRead fs (node_InternalPath w n)) ;;
  on_fs (fun fs => os.OpenExcl t fs versionPath) ;;;
  on_fs (fun fs => os.Copy fs versionPath (node_InternalPath w n)) ;;;
  (* copy blob metadata to version node *)
  CopyMetadata (node_InternalPath w n) versionPath revisionAttr ;;;
  ret versionPath.

Record FileVersion := MkFileVersion {
  fv_Key : string;
  fv_Mtime : Z;
  fv_Size : Z;
  fv_Etag : string
}.

(** [ReadBlobIDAndSizeAttr], the size *)
Definition ReadBlobSizeAttr (p : fpath) : M Z :=
  MetadataBackend.GetInt64 (ByPath "" "" p) prefixes.BlobsizeAttr.

(** [filepath.Glob] on the version path with a star for the version: the
    entries next to the node whose
    name starts with the name of the node and [.REV.]; no error is
    reported *)
Definition globRevisions (w : World) (nodePath : fpath) : list fpath :=
  match os.ReadDir (w_fs w) (filepath.Dir nodePath) with
  | Ok entries =>
      omap (fun e =>
              if strings.HasPrefix (fst e) (filepath.Base nodePath ++ RevisionIDDelimiter)
              then Some (filepath.Join (filepath.Dir nodePath) [fst e]) else None)
           entries
  | Err _ => []
  end.

Fixpoint listRevisionItems (tp : Tree) (n : Node) (items : list fpath)
  (revisions : list FileVersion) : M (list FileVersion) :=
  match items with
  | [] => ret revisions
  | it :: rest =>
      if MetadataBackend.IsMetaFile it || strings.HasSuffix (filepath.Base it) ".mlock"
      then listRevisionItems tp n rest revisions
      else
        w <- get_world ;;
        match os.Stat (w_fs w) it with
        | Err _ => listRevisionItems tp n rest revisions
        | Ok fi =>
            match strings.SplitN2 (filepath.Base it) RevisionIDDelimiter with
            | [_; ts] =>
                let mtime := i_mtime fi in
                sz <- try (ReadBlobSizeAttr it) ;;
                let blobSize := match sz with Ok z => z | Err _ => 0 end in
                match CalculateEtag tp (ID n) mtime with
                | Err e => fail (Wrap e "error calculating etag")
                | Ok etag =>
                    listRevisionItems tp n rest
                      (revisions ++ [MkFileVersion (ID n ++ RevisionIDDelimiter ++ ts)
                                                   (mtime / 1000000000) blobSize etag])
                end
            | _ => listRevisionItems tp n rest revisions
            end
        end
  end.

Definition ListRevisions (tp : Tree) (ref : Reference) : M (list FileVersion) :=
  n <- lookup_nodes.NodeFromResource ref ;;
  if negb (Exists n) then fail (NotFound (ParentID n ++ "/" ++ Name n))
  else
    match AssemblePermissions tp n with
    | Err e => fail e
    | Ok rp =>
        if negb (provider.ListFileVersions rp) then
          let f := FormatReference ref in
          if provider.Stat rp then fail (PermissionDenied f) else fail (NotFound f)
        else
          w <- get_world ;;
          listRevisionItems tp n (globRevisions w (node_InternalPath w n)) []
    end.

(** [DownloadRevision] returns a reader for the specified revision *)
Definition DownloadRevision (tp : Tree) (ref : Reference) (revisionKey : string)
  (openReaderFunc : ResourceInfo -> bool) : M (ResourceInfo * option string) :=
  (* verify revision key format *)
  match strings.SplitN2 revisionKey RevisionIDDelimiter with
  | [kp0; kp1] =>
      let spaceID := ref_SpaceId ref in
      (* check if the node is available and has not been deleted *)
      n <- node.ReadNode spaceID kp0 ;;
      if negb (Exists n) then fail (NotFound (ParentID n ++ "/" ++ Name n))
      else
        match AssemblePermissions tp n with
        | Err e => fail e
        | Ok rp =>
            if negb (provider.ListFileVersions rp) || negb (provider.InitiateFileDownload rp)
            then
              let f := FormatReference ref in
              if provider.Stat rp then fail (PermissionDenied f) else fail (NotFound f)
            else
              w <- get_world ;;
              let contentPath := lookup.InternalPath w spaceID revisionKey in
              blobsize <- wrap "could not read blob id and size" (ReadBlobSizeAttr contentPath) ;;
              let revisionNode := MkNode spaceID revisionKey (ParentID n) (Name n) blobsize ""
                                         true (spaceID, spaceID) in
              ri0 <- lift_res (AsResourceInfo tp n rp) ;;
              (* update resource info with revision data *)
              mtime <- wrap "could not parse mtime" (lift_res (time.Parse kp1)) ;;
              etag <- wrap "error calculating etag" (lift_res (CalculateEtag tp (ID n) mtime)) ;;
              let ri := MkResourceInfo (ri_Id ri0) blobsize mtime etag in
              if openReaderFunc ri then
                reader <- wrap "could not download blob" (ReadBlob tp revisionNode) ;;
                ret (ri, Some reader)
              else ret (ri, None)
        end
  | _ => fail (NotFound revisionKey)
  end.

(** [RestoreRevision], the checks before anything is written: key format,
    node, permission, lock *)
Definition restore_access (tp : Tree) (ref : Reference) (revisionKey kp0 : string) : M Node :=
  let spaceID := ref_SpaceId ref in
  (* check if the node is available and has not been deleted *)
  n <- node.ReadNode spaceID kp0 ;;
  if negb (Exists n) then fail (NotFound (ParentID n ++ "/" ++ Name n))
  else
    match AssemblePermissions tp n with
    | Err e => fail e
    | Ok rp =>
        if negb (provider.RestoreFileVersion rp) then
          let f := FormatReference ref in
          if provider.Stat rp then fail (PermissionDenied f) else fail (NotFound f)
        else
          (* check lock *)
          CheckLock tp n ;;;
          ret n
    end.

(** move current version to new revision: the path of the new revision,
    touched *)
Definition restore_touch (n : Node) (spaceID kp0 : string) : M (Time * fpath) :=
  mtime <- node.GetMTime n ;;
  w <- get_world ;;
  let newRevisionPath :=
    lookup.InternalPath w spaceID (kp0 ++ RevisionIDDelimiter ++ time.Format mtime) in
  (* touch new revision *)
  t <- now ;;
  on_fs (fun fs => os.Create t fs newRevisionPath) ;;;
  ret (mtime, newRevisionPath).

(** the deferred function that runs when [returnErr != nil] *)
Definition restore_cleanup (newRevisionPath : fpath) : M unit :=
  _ <- try (on_fs (fun fs => os.Remove fs newRevisionPath)) ;;
  _ <- try (MetadataBackend.Purge (ByPath "" "" newRevisionPath)) ;;
  ret tt.

(** the steps from the metadata copy to the read of the blob size *)
Definition restore_steps (io_error : faults) (spaceID kp0 revisionKey : string)
  (mtime : Time) (newRevisionPath : fpath) : M (fpath * Z) :=
  w <- get_world ;;
  let nodePath := lookup.InternalPath w spaceID kp0 in
  (* copy blob metadata from node to new revision node *)
  or_fail (InternalError "failed to copy blob xattrs to version node")
    (step io_error "copy metadata to revision"
       (CopyMetadata nodePath newRevisionPath revisionAttr)) ;;;
  (* remember mtime from node as new revision mtime *)
  or_fail (InternalError "failed to change mtime of version node")
    (step io_error "chtimes"
       (on_fs (fun fs => os.Chtimes fs newRevisionPath mtime))) ;;;
  (* copy blob metadata from restored revision to node *)
  let restoredRevisionPath := lookup.InternalPath w spaceID revisionKey in
  or_fail (InternalError "failed to copy blob xattrs to old revision to node")
    (step io_error "copy metadata to node"
       (CopyMetadata restoredRevisionPath nodePath blobAttr)) ;;;
  (* always set the node mtime to the current time *)
  t <- now ;;
  or_fail (InternalError "failed to set mtime attribute on node")
    (step io_error "set mtime"
       (MetadataBackend.SetMultiple (ByPath "" "" nodePath)
          {[prefixes.MTimeAttr := time.Format t]})) ;;;
  revisionSize <-
    or_fail (InternalError "failed to read blob size xattr from old revision")
      (step io_error "read blobsize"
         (MetadataBackend.GetInt64 (ByPath "" "" restoredRevisionPath) prefixes.BlobsizeAttr)) ;;
  ret (restoredRevisionPath, revisionSize).

(** drop old revision, propagate the size difference *)
Definition restore_finish (tp : Tree) (n : Node) (restoredRevisionPath : fpath)
  (revisionSize : Z) : M unit :=
  _ <- try (on_fs (fun fs => os.Remove fs restoredRevisionPath)) ;;
  _ <- try (on_fs (fun fs => os.Remove fs (MetadataBackend.MetadataPath restoredRevisionPath))) ;;
  _ <- try (on_fs (fun fs => os.Remove fs (MetadataBackend.LockfilePath restoredRevisionPath))) ;;
  _ <- try (MetadataBackend.Purge (ByPath "" "" restoredRevisionPath)) ;;
  (* revision 5, current 10 (restore a smaller blob) -> 5-10 = -5 *)
  let sizeDiff := revisionSize - Blobsize n in
  Propagate tp n sizeDiff.

(** [defer func() { if returnErr != nil { d } }()] *)
Definition defer_on_error {A} (d : M unit) (body : M A) : M A :=
  r <- try body ;;
  match r with
  | Err e => _ <- try d ;; fail e
  | Ok a => ret a
  end.

(** [RestoreRevision] restores the specified revision of the resource *)
Definition RestoreRevision (tp : Tree) (io_error : faults) (ref : Reference)
  (revisionKey : string) : M unit :=
  (* verify revision key format *)
  match strings.SplitN2 revisionKey RevisionIDDelimiter with
  | [kp0; kp1] =>
      let spaceID := ref_SpaceId ref in
      n <- restore_access tp ref revisionKey kp0 ;;
      (* write lock node before copying metadata *)
      w <- get_world ;;
      let lockPath := MetadataBackend.LockfilePath (node_InternalPath w n) in
      t <- now ;;
      on_fs (fun fs => os.OpenCreate t fs lockPath) ;;;
      defer_ (on_fs (fun fs => os.Remove fs lockPath))
        (touched <- restore_touch n spaceID kp0 ;;
         let '(mtime, newRevisionPath) := touched in
         defer_on_error (restore_cleanup newRevisionPath)
           (r <- restore_steps io_error spaceID kp0 revisionKey mtime newRevisionPath ;;
            restore_finish tp n (fst r) (snd r)))
  | _ => fail (NotFound revisionKey)
  end.

Definition getRevisionNode (tp : Tree) (ref : Reference) (revisionKey : string)
  (hasPermission : ResourcePermissions -> bool) : M Node :=
  (* verify revision key format *)
  match strings.SplitN2 revisionKey RevisionIDDelimiter with
  | [kp0; kp1] =>
      let spaceID := ref_SpaceId ref in
      (* check if the node is available and has not been deleted *)
      n <- node.ReadNode spaceID kp0 ;;
      if negb (Exists n) then fail (NotFound (ParentID n ++ "/" ++ Name n))
      else
        match AssemblePermissions tp n with
        | Err e => fail e
        | Ok p =>
            if negb (hasPermission p)
            then fail (PermissionDenied (ParentID n ++ "/" ++ Name n))
            else ret n
        end
  | _ => fail (NotFound revisionKey)
  end.

(** [DeleteRevision] deletes the specified revision of the resource *)
Definition DeleteRevision (tp : Tree) (ref : Reference) (revisionKey : string) : M unit :=
  n <- getRevisionNode tp ref revisionKey provider.RestoreFileVersion ;;
  w <- get_world ;;
  on_fs (fun fs => os.RemoveAll fs (lookup.InternalPath w (SpaceID n) revisionKey)) ;;;
  DeleteBlob tp n.

(** *** goroutines *)

(** The goroutine [updateFile] starts for the node [(spaceID, id)]: "Copy
    the previous current version to a revision", then "Copy the new version
    to the current version".  Each error is logged and ends the goroutine;
    here it is the result. *)
Definition replicateCurrent (t : Tree) (spaceID id : string) : M unit :=
  w <- get_world ;;
  let currentNode := node.NewBaseNode spaceID (id ++ CurrentIDDelimiter) in
  let currentPath := mn_InternalPath w currentNode in
  stat <- read_fs (fun fs => os.Stat fs currentPath) ;;
  let revisionPath := lookup.VersionPath w spaceID id (time.Format (i_mtime stat)) in
  on_fs (fun fs => os.Rename fs currentPath revisionPath) ;;;
  (* Copy the new version to the current version *)
  t0 <- now ;;
  on_fs (fun fs => os.Create t0 fs currentPath) ;;;
  w' <- get_world ;;
  let nodePath := lookup.InternalPath w' spaceID id in
  _ <- read_fs (fun fs => os.OpenRead fs nodePath) ;;
  on_fs (fun fs => os.Copy fs currentPath nodePath) ;;;
  CopyMetadata nodePath (mn_InternalPath w' currentNode) blobAttr.

(** What a goroutine that was started does when it runs; the error it may
    end with is logged or dropped. *)
Definition run_task (t : Tree) (task : Task) : M unit :=
  match task with
  | GoAssimilate it => _ <- try (assimilate t it) ;; ret tt
  | GoWarmupIDCache root assimilate_ onlyDirty =>
      _ <- try (WarmupIDCache t root assimilate_ onlyDirty) ;; ret tt
  | GoReplicateCurrent spaceID id _ => _ <- try (replicateCurrent t spaceID id) ;; ret tt
  end.

(** One round of a worker of [workScanQueue], for the item it received from
    the scan queue: an item that fails to assimilate is logged and left, a
    recursive item is followed by a warmup of its path. *)
Definition workScanQueue_item (t : Tree) (it : scanItem) : M unit :=
  r <- try (assimilate t it) ;;
  match r with
  | Err _ => ret tt
  | Ok _ =>
      if Recurse it then _ <- try (WarmupIDCache t (Path it) true false) ;; ret tt
      else ret tt
  end.


End tree.

(** ** A small world to run the code in

    One space [/s] with a directory [a] and a file [a/f] of eight bytes. *)

Module sample.

Definition P (l : list string) : fpath := FPath true l.

Definition space_attrs : gmap string string :=
  list_to_map [(prefixes.IDAttr, "space1"); (prefixes.SpaceIDAttr, "space1")].
Definition a_attrs : gmap string string :=
  list_to_map [(prefixes.IDAttr, "ida"); (prefixes.ParentidAttr, "space1");
               (prefixes.NameAttr, "a")].
Definition f_attrs : gmap string string :=
  list_to_map [(prefixes.IDAttr, "idf"); (prefixes.ParentidAttr, "ida");
               (prefixes.NameAttr, "f"); (prefixes.BlobsizeAttr, "8");
               (prefixes.BlobIDAttr, "blob1"); (prefixes.MTimeAttr, "12");
               (prefixes.ChecksumPrefix ++ "md5", "md5-of-abcdefgh");
               (prefixes.ChecksumPrefix ++ "sha1", "sha1-of-abcdefgh")].

Definition fs0 : filetree :=
  list_to_map [(P ["s"], Inode true "" 10 0 space_attrs);
               (P ["s"; "a"], Inode true "" 11 0 a_attrs);
               (P ["s"; "a"; "f"], Inode false "abcdefgh" 12 0 f_attrs)].

Definition ids0 : gmap (string * string) fpath :=
  list_to_map [(("space1", "space1"), P ["s"]);
               (("space1", "ida"), P ["s"; "a"]);
               (("space1", "idf"), P ["s"; "a"; "f"])].

Definition paths0 : gmap fpath (string * string) :=
  list_to_map [(P ["s"], ("space1", "space1"));
               (P ["s"; "a"], ("space1", "ida"));
               (P ["s"; "a"; "f"], ("space1", "idf"))].

Definition uuids (n : nat) : string :=
  match n with
  | O => "6f1c0a"
  | S O => "6f1c0b"
  | _ => "6f1c0c"
  end.

Definition w0 : World :=
  MkWorld fs0 ids0 paths0 100 uuids 0 [] [] None (tree.NewScanDebouncer 5).

Definition nf : Node := MkNode "space1" "idf" "ida" "f" 8 "blob1" true ("space1", "space1").

Definition all_perms : ResourcePermissions := provider.Perms true true true true true true.
Definition no_perms : ResourcePermissions := provider.Perms false false false false false false.
(** may list the trash, may not purge it *)
Definition lister : ResourcePermissions := provider.Perms true false false false true false.

Definition tb (rp : ResourcePermissions) : trashbin.Trashbin :=
  trashbin.MkTrashbin (fun _ => Ok rp) time.UTC.

Definition tp (rp : ResourcePermissions) : tree.Tree :=
  tree.MkTree (tree.MkOptions "/s" false "mount1")
    (fun _ => Ok rp)
    (fun _ _ => Ok tt)
    (fun _ _ => ret tt)
    (fun _ => ret tt)
    (fun _ => ret "")
    (fun _ => ret tt)
    (fun n _ => Ok (tree.MkResourceInfo (ID n) (Blobsize n) 0 ""))
    (fun id t => Ok (id ++ ":" ++ time.Format t))
    (fun d => "sha1-of-" ++ d)
    (fun d => "md5-of-" ++ d)
    (fun d => "adler32-of-" ++ d)
    (fun _ => false) (fun _ => false) (fun _ => false)
    (fun p => bool_decide (".Trash" ∈ comps p))
    (fun p => strings.HasSuffix (filepath.Base p) ".mlock").

(** the world after [a/f] went to the trash *)
Definition w_trashed : World := snd (trashbin.MoveToTrash (tb all_perms) nf (P ["s"; "a"; "f"]) w0).

(** the world with a revision of [a/f] next to it *)
Definition w_rev : World :=
  set_fs (<[P ["s"; "a"; "f.REV.7"] :=
              Inode false "old" 7 0
                (list_to_map [(prefixes.BlobsizeAttr, "3"); (prefixes.BlobIDAttr, "blob0");
                              (prefixes.MTimeAttr, "7")])]> fs0) w0.

Definition ref_f : Reference := Ref "space1" "idf" "".
Definition ref_space : Reference := Ref "space1" "space1" "".

End sample.

(** ** What the specification says, as predicates *)

(** A request for [p] is scheduled: it waits in the debouncer or was handed
    to the scan queue already. *)
Definition scheduled (p : fpath) (w : World) : Prop :=
  is_Some (pending (w_deb w) !! p) \/ exists it, it ∈ ran (w_deb w) /\ Path it = p.

(** A rescan of [p] with ForceRescan and Recurse is scheduled. *)
Definition scheduled_rescan (p : fpath) (w : World) : Prop :=
  (exists q, pending (w_deb w) !! p = Some q /\ timer_force q = true /\ timer_recurse q = true)
  \/ last (ran (w_deb w)) = Some (ScanItem p true true).

Definition marked_dirty (p : fpath) (w : World) : Prop :=
  xattr.Get (w_fs w) p dirtyFlag = Ok "true".

(** "Create, file: assimilate path; mark parent dirty; recursively rescan
    parent (force, recurse)", said of every call. *)
Definition spec_Scan_create_file (t : tree.Tree) (path : fpath) (w : World) : Prop :=
  let w' := snd (tree.Scan t path tree.ActionCreate false w) in
  scheduled path w' /\ marked_dirty (filepath.Dir path) w'
  /\ scheduled_rescan (filepath.Dir path) w'.

(** The directory [ListRecycle] would list. *)
Definition recycle_base (w : World) (spaceID key relativePath : string) : fpath :=
  let files := filepath.Join (filepath.Join (lookup.InternalPath w spaceID spaceID) [".Trash"])
                             ["files"] in
  if bool_decide (key <> "") then filepath.Join files [key ++ ".trashitem"; relativePath]
  else files.

(** "ListRecycle returns an empty item list and no error when the directory
    it would list does not exist on disk." *)
Definition spec_ListRecycle_missing_dir (tb : trashbin.Trashbin)
  (spaceID key relativePath : string) (w : World) : Prop :=
  os.lookup (w_fs w) (recycle_base w spaceID key relativePath) = None ->
  fst (trashbin.ListRecycle tb spaceID key relativePath w) = Ok [].


(** "an onlyDirty warmup walk never prunes an untagged directory; only
    directories whose dirty xattr holds a value other than "true" are pruned
    from the walk": a directory for which the walk function answers SkipDir
    carries a dirty xattr with a value other than "true". *)
Definition spec_onlyDirty_prunes_only_tagged (t : tree.Tree) (root : fpath)
  (assimilate_ : bool) (st : tree.walkState) (path : fpath) (w : World) : Prop :=
  forall info st' w',
    os.lookup (w_fs w) path = Some info ->
    i_dir info = true ->
    tree.warmup_visit t root assimilate_ true st path (Some info) None w
    = (Ok (tree.CbSkipDir, st'), w') ->
    exists v, i_xattrs info !! dirtyFlag = Some v /\ v <> "true".

(** worlds for the counterexamples *)
Module sample2.

(** the rescan of [/s/a] is pending *)
Definition w_busy : World :=
  set_deb (tree.Debounce 100 (ScanItem (sample.P ["s"; "a"]) true true) (w_deb sample.w0))
          sample.w0.


End sample2.

(** a walk function that never answers SkipDir *)
Definition noskip (m : M (tree.cb_result * tree.walkState)) : Prop :=
  forall w r st w', m w = (Ok (r, st), w') -> r <> tree.CbSkipDir.


(** worlds for the warmup examples: [/s/a] untagged, and tagged clean *)
Module sample3.

Definition w_clean_a : World := snd (tree.setDirty (sample.P ["s"; "a"]) false sample.w0).

Definition dirty_of (w : World) (p : fpath) : option string :=
  i ← w_fs w !! p; i_xattrs i !! dirtyFlag.

(** a tree whose index files are named [0idx], and a world with such a file
    in the space root, before the directory [a] in the order of the walk *)
Definition tp_idx : tree.Tree :=
  let t := sample.tp sample.all_perms in
  tree.MkTree (tree.options t) (tree.AssemblePermissions t) (tree.ScopeUserByIds t)
    (tree.Propagate t) (tree.DeleteBlob t) (tree.ReadBlob t) (tree.CheckLock t)
    (tree.AsResourceInfo t) (tree.CalculateEtag t)
    (tree.sha1sum t) (tree.md5sum t) (tree.adler32sum t)
    (fun p => bool_decide (filepath.Base p = "0idx"))
    (tree.isUpload t) (tree.isInternal t) (tree.isTrash t) (tree.isLockFile t).

Definition w_idx : World :=
  set_fs (<[sample.P ["s"; "0idx"] := Inode false "" 13 0 ∅]> sample.fs0) sample.w0.

End sample3.

(** A well-formed tree: every entry has an absolute path and lies in a
    directory. *)
Definition fs_wf (fs : filetree) : Prop :=
  map_Forall (fun q (i : inode) =>
                is_abs q = true
                /\ (comps q = [] -> i_dir i = true)
                /\ (comps q <> [] -> os.parent_is_dir fs q = true)) fs.

Global Instance fs_wf_dec fs : Decision (fs_wf fs).
Proof. unfold fs_wf. apply _. Defined.


Definition is_dir_at (fs : filetree) (p : fpath) : Prop :=
  exists i, os.lookup fs p = Some i /\ i_dir i = true.

(** [m] keeps [P] true, whatever its outcome *)
Definition preserves {A} (P : World -> Prop) (m : M A) : Prop :=
  forall w r w', m w = (r, w') -> P w -> P w'.

Definition is_file_at (p : fpath) (w : World) : Prop :=
  exists i, w_fs w !! p = Some i /\ i_dir i = false.

(** a change of the tree that keeps every entry and its kind *)
Definition keeps_kinds (fs fs' : filetree) : Prop :=
  forall p i, fs !! p = Some i -> exists j, fs' !! p = Some j /\ i_dir j = i_dir i.

(** an execution in which changing the times of the new revision fails *)
Definition chtimes_fails : tree.faults :=
  fun label => if String.eqb label "chtimes" then Some (Errorf "input/output error") else None.

(** [w'] is [w] but for the gid the thread is scoped to *)
Definition only_scope (w w' : World) : Prop := exists s, w' = set_scope s w.

(** a string without path separator *)
Fixpoint no_slash (s : string) : bool :=
  match s with
  | EmptyString => true
  | String c s' => negb (Ascii.eqb c "/") && no_slash s'
  end.


(** a component that [filepath.Join] appends as it is *)
Definition plain (c : string) : Prop :=
  no_slash c = true /\ c <> "" /\ c <> "." /\ c <> "..".

(** where an item lies in the trash of the space rooted at [rootp] *)
Definition trash_item (rootp : fpath) (key : string) : fpath :=
  FPath true (comps rootp ++ [".Trash"; "files"; key +:+ ".trashitem"]).
Definition trash_info (rootp : fpath) (key : string) : fpath :=
  FPath true (comps rootp ++ [".Trash"; "info"; key +:+ ".trashinfo"]).

(** the id of a node, as opposed to the key of a revision or current copy *)
Definition is_node_id (id : string) : bool :=
  match strings.SplitN2 id RevisionIDDelimiter with
  | [_] => negb (strings.HasSuffix id CurrentIDDelimiter)
  | _ => false
  end.

(** what moving to the trash may have changed below the tree [fs] before
    the rename: at a path, nothing, or an entry of the trash directories was
    made there, none of them at or below the item *)
Definition trash_frame (rootp : fpath) (key : string) (fs fs' : filetree) : Prop :=
  forall q, fs' !! q = fs !! q
            \/ (fs !! q = None /\ is_abs q = true
                /\ (length (comps q) <= length (comps rootp) + 3)%nat
                /\ ~ filepath.at_or_under (trash_item rootp key) q).

(** ** Notions the further properties are stated with *)

(** a string without line break *)
Fixpoint no_newline (s : string) : bool :=
  match s with
  | EmptyString => true
  | String c s' => negb (Ascii.eqb c (ascii_of_nat 10)) && no_newline s'
  end.

(** the characters of a decimal rendering *)
Definition digit_or_sign (c : ascii) : bool :=
  negb (strings.is_space c) && negb (Ascii.eqb c (ascii_of_nat 10)).

Fixpoint all_chars (f : ascii -> bool) (s : string) : bool :=
  match s with
  | EmptyString => true
  | String c s' => f c && all_chars f s'
  end.

(** the space id [IDsForPath] gives for a path, empty when it gives none *)
Definition space_of (w : World) (c : fpath) : string :=
  match lookup.IDsForPath w c with
  | Ok (spaceID, _) => spaceID
  | Err _ => ""
  end.

(** the group of the entry at a path *)
Definition gid_of (w : World) (c : fpath) : option Z :=
  i_gid <$> os.lookup (w_fs w) c.

(** ** Runs of the debouncer *)

Global Instance DebEvent_eq_dec : EqDecision tree.DebEvent.
Proof. solve_decision. Defined.

(** the scans of [p] that the debouncer started *)
Definition started (p : fpath) (d : ScanDebouncer) : nat :=
  length (filter (fun it => Path it = p) (ran d)).

(** the scans of [p] that reported their end *)
Definition finished (p : fpath) (es : list tree.DebEvent) : nat :=
  length (filter (fun e => e = tree.EvDone p) es).

(** a run in which a scan reports its end only while it is in progress, as
    the deferred [inProgress.Delete] of the timer function does *)
Fixpoint deb_trace_ok (st : Time * ScanDebouncer) (es : list tree.DebEvent) : Prop :=
  match es with
  | [] => True
  | e :: es' =>
      match e with
      | tree.EvDone p => p ∈ inProgress (snd st)
      | _ => True
      end
      /\ deb_trace_ok (tree.deb_step st e) es'
  end.

Definition running (p : fpath) (d : ScanDebouncer) : nat :=
  if decide (p ∈ inProgress d) then 1%nat else 0%nat.

(** the date of a day is a date of the calendar, and that of this day *)
Definition civil_ok (days : Z) : bool :=
  let '(y, m, d) := time.civil_from_days days in
  (time.days_from_civil y m d =? days) && (1 <=? m) && (m <=? 12) && (1 <=? d)
  && (d <=? time.daysIn m y).

(** [f] holds of the [fuel] numbers from [z] on *)
Fixpoint all_from (fuel : nat) (z : Z) (f : Z -> bool) : bool :=
  match fuel with
  | O => true
  | S k => f z && all_from k (z + 1) f
  end.

(** * Properties *)

(** ** Helper facts about the monad *)

Lemma bind_ok {A B} (m : M A) (k : A -> M B) w a w' :
  m w = (Ok a, w') -> bind m k w = k a w'.
Proof. intros H. unfold bind. by rewrite H. Qed.

Lemma bind_err {A B} (m : M A) (k : A -> M B) w e w' :
  m w = (Err e, w') -> bind m k w = (Err e, w').
Proof. intros H. unfold bind. by rewrite H. Qed.

(** ** Existence leaks (C1)

    The operations that decide between NotFound and PermissionDenied by the
    caller's [Stat] permission. *)

Lemma ListRevisions_denied tp ref w n w' rp :
  lookup_nodes.NodeFromResource ref w = (Ok n, w') ->
  Exists n = true ->
  tree.AssemblePermissions tp n = Ok rp ->
  provider.ListFileVersions rp = false ->
  tree.ListRevisions tp ref w
  = (Err (if provider.Stat rp then PermissionDenied (FormatReference ref)
          else NotFound (FormatReference ref)), w').
Proof.
  intros Hn Hex Hrp Hl. unfold tree.ListRevisions.
  rewrite (bind_ok _ _ _ _ _ Hn), Hex, Hrp, Hl. simpl.
  by destruct (provider.Stat rp).
Qed.

Lemma DownloadRevision_denied tp ref key open w k0 k1 n w' rp :
  strings.SplitN2 key RevisionIDDelimiter = [k0; k1] ->
  node.ReadNode (ref_SpaceId ref) k0 w = (Ok n, w') ->
  Exists n = true ->
  tree.AssemblePermissions tp n = Ok rp ->
  provider.ListFileVersions rp = false \/ provider.InitiateFileDownload rp = false ->
  tree.DownloadRevision tp ref key open w
  = (Err (if provider.Stat rp then PermissionDenied (FormatReference ref)
          else NotFound (FormatReference ref)), w').
Proof.
  intros Hk Hn Hex Hrp Hl. unfold tree.DownloadRevision.
  rewrite Hk, (bind_ok _ _ _ _ _ Hn), Hex, Hrp. simpl.
  replace (negb (provider.ListFileVersions rp) || negb (provider.InitiateFileDownload rp))
    with true by (destruct Hl as [-> | ->]; simpl; by rewrite ?orb_true_r).
  by destruct (provider.Stat rp).
Qed.

Lemma restore_access_denied tp ref key k0 w n w' rp :
  node.ReadNode (ref_SpaceId ref) k0 w = (Ok n, w') ->
  Exists n = true ->
  tree.AssemblePermissions tp n = Ok rp ->
  provider.RestoreFileVersion rp = false ->
  tree.restore_access tp ref key k0 w
  = (Err (if provider.Stat rp then PermissionDenied (FormatReference ref)
          else NotFound (FormatReference ref)), w').
Proof.
  intros Hn Hex Hrp Hl. unfold tree.restore_access.
  rewrite (bind_ok _ _ _ _ _ Hn), Hex, Hrp, Hl. simpl.
  by destruct (provider.Stat rp).
Qed.

Lemma RestoreRevision_denied tp io ref key w k0 k1 n w' rp :
  strings.SplitN2 key RevisionIDDelimiter = [k0; k1] ->
  node.ReadNode (ref_SpaceId ref) k0 w = (Ok n, w') ->
  Exists n = true ->
  tree.AssemblePermissions tp n = Ok rp ->
  provider.RestoreFileVersion rp = false ->
  tree.RestoreRevision tp io ref key w
  = (Err (if provider.Stat rp then PermissionDenied (FormatReference ref)
          else NotFound (FormatReference ref)), w').
Proof.
  intros Hk Hn Hex Hrp Hl. unfold tree.RestoreRevision. rewrite Hk.
  by rewrite (bind_err _ _ _ _ _ (restore_access_denied _ _ _ _ _ _ _ _ Hn Hex Hrp Hl)).
Qed.

Lemma PurgeRecycleItem_denied tb ref key rel w n w' rp :
  lookup_nodes.NodeFromResource ref w = (Ok n, w') ->
  trashbin.AssembleTrashPermissions tb n = Ok rp ->
  provider.PurgeRecycle rp = false ->
  trashbin.PurgeRecycleItem tb ref key rel w
  = (Err (if provider.Stat rp then PermissionDenied key else NotFound key), w').
Proof.
  intros Hn Hrp Hl. unfold trashbin.PurgeRecycleItem.
  rewrite (bind_ok _ _ _ _ _ Hn), Hrp, Hl. simpl.
  by destruct (provider.Stat rp).
Qed.

Lemma EmptyRecycle_denied tb ref w n w' rp :
  lookup_nodes.NodeFromResource ref w = (Ok n, w') ->
  trashbin.AssembleTrashPermissions tb n = Ok rp ->
  provider.ListRecycle rp = false ->
  provider.PurgeRecycle rp = false ->
  trashbin.EmptyRecycle tb ref w
  = (Err (if provider.Stat rp then PermissionDenied (ID n) else NotFound (ID n)), w').
Proof.
  intros Hn Hrp Hl Hp. unfold trashbin.EmptyRecycle.
  rewrite (bind_ok _ _ _ _ _ Hn), Hrp, Hl, Hp. simpl.
  by destruct (provider.Stat rp).
Qed.

(** [getRevisionNode], and with it [DeleteRevision], answers a caller without
    the permission with PermissionDenied whatever the caller's [Stat]. *)
Lemma getRevisionNode_denied tp ref key has w k0 k1 n w' rp :
  strings.SplitN2 key RevisionIDDelimiter = [k0; k1] ->
  node.ReadNode (ref_SpaceId ref) k0 w = (Ok n, w') ->
  Exists n = true ->
  tree.AssemblePermissions tp n = Ok rp ->
  has rp = false ->
  tree.getRevisionNode tp ref key has w
  = (Err (PermissionDenied (ParentID n ++ "/" ++ Name n)), w').
Proof.
  intros Hk Hn Hex Hrp Hl. unfold tree.getRevisionNode.
  by rewrite Hk, (bind_ok _ _ _ _ _ Hn), Hex, Hrp, Hl.
Qed.

(** C1, at the input where the code departs from it: the caller of
    [DeleteRevision] has no permission at all on the node, not even [Stat],
    and still learns that the node exists: the answer is PermissionDenied,
    not NotFound. *)
Theorem C1_DeleteRevision_leaks_existence :
  provider.Stat sample.no_perms = false /\
  provider.RestoreFileVersion sample.no_perms = false /\
  tree.DeleteRevision (sample.tp sample.no_perms) sample.ref_f "idf.REV.7" sample.w_rev
  = (Err (PermissionDenied "ida/f"), sample.w_rev).
Proof. split; [done | split; [done | ]]. by vm_compute. Qed.

(** where [DeleteRevision] says PermissionDenied, [RestoreRevision], which
    asks for the same permission, says NotFound *)
Example RestoreRevision_hides_existence :
  fst (tree.RestoreRevision (sample.tp sample.no_perms) tree.no_faults
         sample.ref_f "idf.REV.7" sample.w_rev)
  = Err (NotFound "space1!idf/").
Proof. by vm_compute. Qed.

(** ** Purging the trash (C2) *)

Lemma ReadNode_pure spaceID id w : snd (node.ReadNode spaceID id w) = w.
Proof. done. Qed.

Lemma NodeFromID_pure spaceID id w : snd (lookup_nodes.NodeFromID spaceID id w) = w.
Proof. unfold lookup_nodes.NodeFromID. by case_bool_decide. Qed.

Lemma NodeFromResource_pure r w : snd (lookup_nodes.NodeFromResource r w) = w.
Proof.
  unfold lookup_nodes.NodeFromResource, bind.
  pose proof (NodeFromID_pure (ref_SpaceId r) (ref_OpaqueId r) w) as H.
  destruct (lookup_nodes.NodeFromID _ _ w) as [[n|e] w1]; simpl in *; subst; [|done].
  case_bool_decide; [done|]. simpl.
  destruct (lookup.IDsForPath _ _) as [[? ?]|?]; done.
Qed.

(** [PurgeRecycleItem] requires PurgeRecycle: without it nothing changes and
    the error tells apart callers with and without [Stat]. *)
Lemma PurgeRecycleItem_requires_PurgeRecycle tb ref key rel w n rp :
  fst (lookup_nodes.NodeFromResource ref w) = Ok n ->
  trashbin.AssembleTrashPermissions tb n = Ok rp ->
  provider.PurgeRecycle rp = false ->
  trashbin.PurgeRecycleItem tb ref key rel w
  = (Err (if provider.Stat rp then PermissionDenied key else NotFound key), w).
Proof.
  intros Hn Hrp Hp.
  apply PurgeRecycleItem_denied with (n := n); [|done..].
  pose proof (NodeFromResource_pure ref w).
  destruct (lookup_nodes.NodeFromResource ref w); simpl in *; congruence.
Qed.

(** C2, at the input where the code departs from it: a caller who may list
    the trash but lacks PurgeRecycle empties it. [EmptyRecycle] turns away
    only callers that lack both ListRecycle and PurgeRecycle. *)
Theorem C2_EmptyRecycle_without_PurgeRecycle :
  let item := sample.P ["s"; ".Trash"; "files"; "6f1c0a.trashitem"] in
  let info := sample.P ["s"; ".Trash"; "info"; "6f1c0a.trashinfo"] in
  let r := trashbin.EmptyRecycle (sample.tb sample.lister) sample.ref_space sample.w_trashed in
  provider.PurgeRecycle sample.lister = false /\
  is_Some (w_fs sample.w_trashed !! item) /\
  is_Some (w_fs sample.w_trashed !! info) /\
  fst r = Ok tt /\
  w_fs (snd r) !! item = None /\
  w_fs (snd r) !! info = None.
Proof.
  cbv zeta. repeat split; try (by vm_compute); vm_compute; eauto.
Qed.

(** ** Debouncer (C4) *)

(** What one [Debounce] leaves behind for its path: the deadline starts
    anew, and the flags the timer will pass on are those of the new request
    joined with the flags of the item stored last. *)
Lemma Debounce_pending t it d :
  after d <> 0 ->
  pending (tree.Debounce t it d) !! Path it
  = Some (QueueItem it
            (ForceRescan it || from_option (fun q => ForceRescan (item q)) false
                                           (pending d !! Path it))
            (Recurse it || from_option (fun q => Recurse (item q)) false
                                       (pending d !! Path it))
            (t + after d)).
Proof.
  intros Ha. unfold tree.Debounce. rewrite bool_decide_eq_false_2 by done.
  destruct (pending d !! Path it) as [q|]; simpl;
    rewrite lookup_insert_eq, ?orb_false_r; done.
Qed.

(** Two requests for one path: the scan that runs has the disjunction, and
    it runs one full delay after the second request. *)
Lemma Debounce_two_merge t0 t1 a b d :
  after d <> 0 ->
  Path a = Path b ->
  pending d !! Path a = None ->
  Path a ∉ inProgress d ->
  t0 <= t1 ->
  ran (tree.fire (t1 + after d) (Path a)
         (tree.Debounce t1 b (tree.Debounce t0 a d)))
  = (ran d ++ [ScanItem (Path a) (ForceRescan b || ForceRescan a)
                        (Recurse b || Recurse a)])%list.
Proof.
  intros Ha Hp Hn Hi Ht.
  unfold tree.fire, tree.Debounce.
  rewrite (bool_decide_eq_false_2 (after d = 0)) by done. rewrite Hn. simpl.
  rewrite (bool_decide_eq_false_2 (after d = 0)) by done. simpl.
  rewrite <- Hp, !lookup_insert_eq. simpl.
  rewrite bool_decide_eq_false_2 by lia.
  by rewrite bool_decide_eq_false_2 by done.
Qed.

(** C4, at the input where the code departs from it: three requests for one
    path arrive before the timer fires, the first with ForceRescan and
    Recurse set.  The entry stores the item as passed, not the merged flags,
    so the third request merges with the flags of the second only, and the
    scan that runs has neither flag. *)
Theorem C4_third_request_drops_flags :
  let p := sample.P ["s"; "a"] in
  let requests := [ScanItem p true true; ScanItem p false false; ScanItem p false false] in
  let events := ((tree.EvDebounce <$> requests) ++ [tree.EvSleep 5; tree.EvTimer p])%list in
  ran (snd (tree.deb_run (0, tree.NewScanDebouncer 5) events)) = [ScanItem p false false]
  /\ existsb ForceRescan requests = true
  /\ existsb Recurse requests = true.
Proof. cbv zeta. repeat split; by vm_compute. Qed.

(** ** Scan dispatch (C5) *)

Lemma Debounce_schedules t it d w :
  w_deb w = tree.Debounce t it d -> scheduled (Path it) w.
Proof.
  intros Hw. unfold scheduled. rewrite Hw. unfold tree.Debounce. case_bool_decide.
  - right. exists it. split; [|done]. unfold tree.call_f. simpl. set_solver.
  - left. simpl. rewrite lookup_insert_eq. eauto.
Qed.

Lemma Debounce_keeps_scheduled t it d p w w' :
  w_deb w = d -> w_deb w' = tree.Debounce t it d -> scheduled p w -> scheduled p w'.
Proof.
  intros <- Hw' [Hp | (x & Hx & Hpx)]; unfold scheduled; rewrite Hw'; unfold tree.Debounce;
    case_bool_decide; simpl.
  - by left.
  - left. destruct (decide (Path it = p)) as [->|]; [rewrite lookup_insert_eq; eauto|].
    by rewrite lookup_insert_ne.
  - right. exists x. split; [set_solver | done].
  - right. exists x. split; [done | done].
Qed.

Lemma Debounce_rescan t p d w :
  w_deb w = tree.Debounce t (ScanItem p true true) d -> scheduled_rescan p w.
Proof.
  intros Hw. unfold scheduled_rescan. rewrite Hw. unfold tree.Debounce. case_bool_decide; simpl.
  - right. by rewrite last_snoc.
  - left. rewrite lookup_insert_eq. eexists. split; [done|]. simpl.
    by destruct (pending d !! p).
Qed.

Lemma xattr_Set_Get fs p name v :
  is_Some (os.lookup fs p) ->
  exists fs', xattr.Set_ fs p name v = (Ok tt, fs') /\ xattr.Get fs' p name = Ok v.
Proof.
  intros [i Hi]. unfold xattr.Set_, xattr.Get. rewrite Hi. eexists. split; [done|].
  unfold os.lookup. case_bool_decide; rewrite lookup_insert_eq; simpl; by rewrite lookup_insert_eq.
Qed.

Lemma Scan_create_file_eq t path w i :
  os.lookup (w_fs w) (filepath.Dir path) = Some i ->
  let d := filepath.Dir path in
  let deb1 := if tree.InProgress d (w_deb w) then w_deb w
              else tree.Debounce (w_now w) (ScanItem path false false) (w_deb w) in
  let fs1 := <[d := with_xattrs (<[dirtyFlag := "true"]> (i_xattrs i)) i]> (w_fs w) in
  tree.Scan t path tree.ActionCreate false w
  = (Ok tt, set_deb (tree.Debounce (w_now w) (ScanItem d true true) deb1)
                    (set_fs fs1 (set_deb deb1 w))).
Proof.
  intros Hi d deb1 fs1. subst d deb1 fs1.
  unfold tree.Scan, bind, tree.scanDebouncer_InProgress, tree.setDirty, on_fs,
    tree.scanDebouncer_Debounce, modify, ret. simpl.
  destruct (tree.InProgress (filepath.Dir path) (w_deb w)); simpl;
    unfold xattr.Set_; rewrite Hi; done.
Qed.

(** C5, amended: a call [Scan(path, ActionCreate, isDir=false)] whose parent
    directory exists returns without error, marks the parent directory's
    dirty xattr true and schedules the debounced rescan of the parent with
    ForceRescan and Recurse set.  The debounced assimilation of [path] itself
    is scheduled when the parent directory is neither pending nor in progress
    in the debouncer; when it is, the call asks the debouncer for the parent
    rescan only. *)
Theorem C5_Scan_create_file t path w :
  is_Some (os.lookup (w_fs w) (filepath.Dir path)) ->
  let r := tree.Scan t path tree.ActionCreate false w in
  fst r = Ok tt
  /\ (tree.InProgress (filepath.Dir path) (w_deb w) = false -> scheduled path (snd r))
  /\ (tree.InProgress (filepath.Dir path) (w_deb w) = true ->
      w_deb (snd r)
      = tree.Debounce (w_now w) (ScanItem (filepath.Dir path) true true) (w_deb w))
  /\ marked_dirty (filepath.Dir path) (snd r)
  /\ scheduled_rescan (filepath.Dir path) (snd r).
Proof.
  intros [i Hi] r. subst r. rewrite (Scan_create_file_eq t path w i Hi). simpl.
  split; [done|]. split; [|split; [|split]].
  - intros ->.
    eapply (Debounce_keeps_scheduled _ _ _ _
              (set_deb (tree.Debounce (w_now w) (ScanItem path false false) (w_deb w)) w));
      [reflexivity | reflexivity |].
    by apply (Debounce_schedules (w_now w) (ScanItem path false false) (w_deb w)).
  - by intros ->.
  - unfold marked_dirty, xattr.Get. simpl.
    unfold os.lookup. case_bool_decide; rewrite lookup_insert_eq; simpl;
      by rewrite lookup_insert_eq.
  - by eapply (Debounce_rescan (w_now w) (filepath.Dir path)).
Qed.

Lemma C5_Scan_create_file_witness :
  let t := sample.tp sample.all_perms in
  let path := sample.P ["s"; "a"; "g"] in
  let w := sample.w0 in
  is_Some (os.lookup (w_fs w) (filepath.Dir path)) /\
  let r := tree.Scan t path tree.ActionCreate false w in
  fst r = Ok tt
  /\ (tree.InProgress (filepath.Dir path) (w_deb w) = false -> scheduled path (snd r))
  /\ (tree.InProgress (filepath.Dir path) (w_deb w) = true ->
      w_deb (snd r)
      = tree.Debounce (w_now w) (ScanItem (filepath.Dir path) true true) (w_deb w))
  /\ marked_dirty (filepath.Dir path) (snd r)
  /\ scheduled_rescan (filepath.Dir path) (snd r).
Proof.
  intros t path w.
  assert (H : is_Some (os.lookup (w_fs w) (filepath.Dir path))).
  { vm_compute. eauto. }
  split; [exact H|].
  exact (C5_Scan_create_file t path w H).
Defined.

(** C5 as the specification states it fails while the rescan of the parent
    directory is pending: the new file itself is not handed to the
    debouncer. *)
Lemma C5_counterexample :
  ~ spec_Scan_create_file (sample.tp sample.all_perms) (sample.P ["s"; "a"; "g"]) sample2.w_busy.
Proof.
  unfold spec_Scan_create_file, scheduled. cbv zeta.
  set (w' := snd (tree.Scan _ _ _ _ _)).
  assert (Hp : pending (w_deb w') !! sample.P ["s"; "a"; "g"] = None) by (by vm_compute).
  assert (Hr : ran (w_deb w') = []) by (by vm_compute).
  rewrite Hp, Hr. intros [[[x Hx] | (it & Hit & _)] _]; [done|].
  by apply not_elem_of_nil in Hit.
Qed.

(** ** Listing the trash (C9) *)

Lemma readInfoFile_pure tb trashPath id w :
  snd (trashbin.readInfoFile tb trashPath id w) = w.
Proof.
  unfold trashbin.readInfoFile, bind, read_fs, lift_res.
  by destruct (os.OpenRead _ _) as [c|e].
Qed.

(** C9, amended: when the directory [ListRecycle] would list does not exist
    on disk, it returns an empty item list and no error, provided [key] is
    empty or the [.trashinfo] sidecar of [key] can be read and parsed. *)
Theorem C9_ListRecycle_missing_dir tb spaceID key relativePath w :
  os.lookup (w_fs w) (recycle_base w spaceID key relativePath) = None ->
  key = "" \/ (exists info,
      fst (trashbin.readInfoFile tb
             (filepath.Join (lookup.InternalPath w spaceID spaceID) [".Trash"]) key w)
      = Ok info) ->
  trashbin.ListRecycle tb spaceID key relativePath w = (Ok [], w).
Proof.
  intros Hbase Hkey. unfold recycle_base in Hbase.
  unfold trashbin.ListRecycle, bind, get_world. 
  case_bool_decide as Hk.
  - destruct Hkey as [-> | [info Hinfo]]; [done|].
    pose proof (readInfoFile_pure tb
                  (filepath.Join (lookup.InternalPath w spaceID spaceID) [".Trash"]) key w) as Hp.
    destruct (trashbin.readInfoFile _ _ key w) as [[i|e] w1]; simpl in *; [|done]. subst w1.
    unfold os.ReadDir. by rewrite Hbase.
  - simpl. unfold os.ReadDir. by rewrite Hbase.
Qed.

(** For a key whose sidecar cannot be read or parsed, [ListRecycle] returns
    that error before it looks at the directory. *)
Lemma ListRecycle_unreadable_info tb spaceID key relativePath w e :
  key <> "" ->
  fst (trashbin.readInfoFile tb
         (filepath.Join (lookup.InternalPath w spaceID spaceID) [".Trash"]) key w) = Err e ->
  trashbin.ListRecycle tb spaceID key relativePath w = (Err e, w).
Proof.
  intros Hk He. unfold trashbin.ListRecycle, bind, get_world.
  rewrite bool_decide_eq_true_2 by done.
  pose proof (readInfoFile_pure tb
                (filepath.Join (lookup.InternalPath w spaceID spaceID) [".Trash"]) key w) as Hp.
  destruct (trashbin.readInfoFile _ _ key w) as [[i|e'] w1]; simpl in *; congruence.
Qed.

Lemma C9_ListRecycle_missing_dir_witness :
  let tb := sample.tb sample.all_perms in
  let w := sample.w_trashed in
  os.lookup (w_fs w) (recycle_base w "space1" "6f1c0a" "gone") = None /\
  ("6f1c0a" = "" \/ (exists info,
      fst (trashbin.readInfoFile tb
             (filepath.Join (lookup.InternalPath w "space1" "space1") [".Trash"]) "6f1c0a" w)
      = Ok info)) /\
  trashbin.ListRecycle tb "space1" "6f1c0a" "gone" w = (Ok [], w).
Proof.
  intros tb w.
  assert (H1 : os.lookup (w_fs w) (recycle_base w "space1" "6f1c0a" "gone") = None)
    by (vm_compute; reflexivity).
  assert (H2 : "6f1c0a" = "" \/ (exists info,
      fst (trashbin.readInfoFile tb
             (filepath.Join (lookup.InternalPath w "space1" "space1") [".Trash"]) "6f1c0a" w)
      = Ok info)).
  { right. exists ("a/f", Some 0). vm_compute. reflexivity. }
  split; [exact H1 | split; [exact H2 |]].
  exact (C9_ListRecycle_missing_dir tb "space1" "6f1c0a" "gone" w H1 H2).
Defined.

(** C9 as stated fails for a key that has no [.trashinfo] sidecar: the
    directory to list does not exist and the answer is the error of reading
    the sidecar. *)
Lemma C9_counterexample :
  ~ spec_ListRecycle_missing_dir (sample.tb sample.all_perms) "space1" "nokey" "" sample.w_trashed.
Proof.
  unfold spec_ListRecycle_missing_dir. intros H.
  assert (Hb : os.lookup (w_fs sample.w_trashed)
                 (recycle_base sample.w_trashed "space1" "nokey" "") = None)
    by (vm_compute; reflexivity).
  assert (Hr : fst (trashbin.ListRecycle (sample.tb sample.all_perms) "space1" "nokey" ""
                      sample.w_trashed)
               = Err (PathError "open" (sample.P ["s"; ".Trash"; "info"; "nokey.trashinfo"])
                        ENOENT))
    by (vm_compute; reflexivity).
  specialize (H Hb). rewrite Hr in H. clear Hb Hr. discriminate H.
Qed.

(** ** Dirty directories in the warmup walk (C10) *)

Lemma noskip_bind {A} (m : M A) k : (forall a, noskip (k a)) -> noskip (bind m k).
Proof.
  intros Hk w r st w' H. unfold bind in H.
  destruct (m w) as [[a|e] w1]; [by eapply Hk | discriminate H].
Qed.

Lemma noskip_ret r st : r <> tree.CbSkipDir -> noskip (ret (r, st)).
Proof. intros Hr w r' st' w' H. unfold ret in H. congruence. Qed.

Lemma noskip_finish path st : noskip (tree.warmup_finish path st).
Proof.
  unfold tree.warmup_finish. apply noskip_bind. intros [?|?]; by apply noskip_ret.
Qed.

Lemma noskip_warmup_ids t a st path : noskip (tree.warmup_ids t a st path).
Proof.
  unfold tree.warmup_ids.
  repeat first
    [ apply noskip_finish
    | apply noskip_ret; discriminate
    | apply noskip_bind; intros ?
    | match goal with
      | |- noskip (match ?x with _ => _ end) => destruct x
      end ].
Qed.

Lemma isDirty_untagged path w i :
  os.lookup (w_fs w) path = Some i ->
  i_xattrs i !! dirtyFlag = None ->
  tree.isDirty path w = (Ok true, w).
Proof.
  intros Hi Hx. unfold tree.isDirty, xattr.Get. by rewrite Hi, Hx.
Qed.

(** C10, amended: a directory whose dirty xattr is unset is treated as dirty,
    [isDirty] returns true for it; and when the walk function of an
    [onlyDirty] warmup answers SkipDir for a directory that is not an index,
    trash or upload path, that directory carries a dirty xattr whose value is
    not "true".  Hence the dirty check never prunes an untagged directory. *)
Theorem C10_onlyDirty_prunes_only_tagged t root assimilate_ st path info w :
  tree.isIndex t path || tree.isTrash t path || tree.isUpload t path = false ->
  os.lookup (w_fs w) path = Some info ->
  i_dir info = true ->
  (i_xattrs info !! dirtyFlag = None -> tree.isDirty path w = (Ok true, w))
  /\ (forall st' w',
        tree.warmup_visit t root assimilate_ true st path (Some info) None w
        = (Ok (tree.CbSkipDir, st'), w') ->
        exists v, i_xattrs info !! dirtyFlag = Some v /\ v <> "true").
Proof.
  intros Hf Hi Hd. split; [by apply isDirty_untagged|].
  intros st' w'. unfold tree.warmup_visit. rewrite Hf.
  destruct (tree.isInternal t path || tree.isLockFile t path); [discriminate|].
  unfold tree.warmup_sizes. rewrite Hd. simpl.
  unfold bind at 1. unfold bind at 1. unfold try, tree.isDirty, xattr.Get. rewrite Hi.
  destruct (i_xattrs info !! dirtyFlag) as [v|] eqn:Hv; simpl.
  - case_bool_decide as Hvt; simpl.
    + intros H. by apply noskip_warmup_ids in H.
    + intros _. eauto.
  - intros H. by apply noskip_warmup_ids in H.
Qed.

(** the converse: a directory tagged with another value is pruned *)
Lemma warmup_visit_prunes_clean t root assimilate_ st path info w v :
  tree.isIndex t path || tree.isTrash t path || tree.isUpload t path = false ->
  tree.isInternal t path || tree.isLockFile t path = false ->
  os.lookup (w_fs w) path = Some info ->
  i_dir info = true ->
  i_xattrs info !! dirtyFlag = Some v -> v <> "true" ->
  tree.warmup_visit t root assimilate_ true st path (Some info) None w
  = (Ok (tree.CbSkipDir, st), w).
Proof.
  intros Hf Hg Hi Hd Hv Hvt. unfold tree.warmup_visit. rewrite Hf, Hg.
  unfold tree.warmup_sizes. rewrite Hd. simpl.
  unfold bind, try, tree.isDirty, xattr.Get. rewrite Hi, Hv. simpl.
  by rewrite bool_decide_eq_false_2.
Qed.

Lemma C10_onlyDirty_prunes_only_tagged_witness :
  let t := sample.tp sample.all_perms in
  let path := sample.P ["s"; "a"] in
  let info := Inode true "" 11 0 sample.a_attrs in
  let w := sample.w0 in
  tree.isIndex t path || tree.isTrash t path || tree.isUpload t path = false /\
  os.lookup (w_fs w) path = Some info /\
  i_dir info = true /\
  (i_xattrs info !! dirtyFlag = None -> tree.isDirty path w = (Ok true, w))
  /\ (forall st' w',
        tree.warmup_visit t (sample.P ["s"]) false true (tree.WalkState ∅ "") path
                          (Some info) None w
        = (Ok (tree.CbSkipDir, st'), w') ->
        exists v, i_xattrs info !! dirtyFlag = Some v /\ v <> "true").
Proof.
  intros t path info w.
  assert (H1 : tree.isIndex t path || tree.isTrash t path || tree.isUpload t path = false)
    by (vm_compute; reflexivity).
  assert (H2 : os.lookup (w_fs w) path = Some info) by (vm_compute; reflexivity).
  assert (H3 : i_dir info = true) by reflexivity.
  split; [exact H1 | split; [exact H2 | split; [exact H3 |]]].
  exact (C10_onlyDirty_prunes_only_tagged t (sample.P ["s"]) false (tree.WalkState ∅ "")
           path info w H1 H2 H3).
Defined.

(** An [onlyDirty] warmup of the sample space reaches the file below the
    untagged directory [a] (its dirty flag gets cleared); with [a] tagged
    "false" the walk does not descend into it. *)
Example warmup_descends_into_untagged :
  sample3.dirty_of sample.w0 (sample.P ["s"; "a"]) = None /\
  sample3.dirty_of
    (snd (tree.WarmupIDCache (sample.tp sample.all_perms) (sample.P ["s"]) false true sample.w0))
    (sample.P ["s"; "a"; "f"]) = Some "false".
Proof. split; vm_compute; reflexivity. Qed.

Example warmup_skips_clean :
  sample3.dirty_of sample3.w_clean_a (sample.P ["s"; "a"]) = Some "false" /\
  sample3.dirty_of
    (snd (tree.WarmupIDCache (sample.tp sample.all_perms) (sample.P ["s"]) false true
            sample3.w_clean_a))
    (sample.P ["s"; "a"; "f"]) = None.
Proof. split; vm_compute; reflexivity. Qed.

(** C10 as stated fails for a trash directory: the walk function answers
    SkipDir for [.Trash], which carries no dirty xattr at all. *)
Lemma C10_counterexample :
  ~ spec_onlyDirty_prunes_only_tagged (sample.tp sample.all_perms) (sample.P ["s"]) false
      (tree.WalkState ∅ "") (sample.P ["s"; ".Trash"]) sample.w_trashed.
Proof.
  unfold spec_onlyDirty_prunes_only_tagged. intros H.
  set (info := Inode true "" 100 0 ∅).
  assert (H1 : os.lookup (w_fs sample.w_trashed) (sample.P ["s"; ".Trash"]) = Some info)
    by (vm_compute; reflexivity).
  assert (H2 : i_dir info = true) by reflexivity.
  assert (H3 : tree.warmup_visit (sample.tp sample.all_perms) (sample.P ["s"]) false true
                 (tree.WalkState ∅ "") (sample.P ["s"; ".Trash"]) (Some info) None
                 sample.w_trashed
               = (Ok (tree.CbSkipDir, tree.WalkState ∅ ""), sample.w_trashed))
    by reflexivity.
  destruct (H info _ _ H1 H2 H3) as (v & Hv & _).
  unfold info in Hv. cbn [i_xattrs] in Hv. rewrite lookup_empty in Hv. discriminate Hv.
Qed.

(** An untagged directory is also left out when a file before it in its
    directory is an index file: the walk function answers SkipDir for the
    file and the walk skips the rest of the directory.  The warmup succeeds,
    the space root was handled, [a] and [a/f] were not. *)
Example warmup_index_file_hides_untagged :
  let r := tree.WarmupIDCache sample3.tp_idx (sample.P ["s"]) false true sample3.w_idx in
  sample3.dirty_of sample3.w_idx (sample.P ["s"; "a"]) = None
  /\ fst r = Ok tt
  /\ sample3.dirty_of (snd r) (sample.P ["s"]) = Some "false"
  /\ sample3.dirty_of (snd r) (sample.P ["s"; "a"]) = None
  /\ sample3.dirty_of (snd r) (sample.P ["s"; "a"; "f"]) = None.
Proof. cbv zeta. repeat split; vm_compute; reflexivity. Qed.

(** ** Revisions: collision of timestamps (C7) *)

Local Open Scope list_scope.

Lemma set_fs_same w : set_fs (w_fs w) w = w.
Proof. by destruct w. Qed.

Lemma os_lookup_Some fs p i : fs !! p = Some i -> os.lookup fs p = Some i.
Proof. intros H. unfold os.lookup. case_bool_decide; by rewrite H. Qed.

Lemma os_lookup_nonroot fs p : comps p <> [] -> os.lookup fs p = fs !! p.
Proof.
  intros H. unfold os.lookup. rewrite bool_decide_eq_false_2; [done|].
  intros ->. by apply H.
Qed.

Lemma parent_is_dir_spec fs p : os.parent_is_dir fs p = true <-> is_dir_at fs (filepath.Dir p).
Proof.
  unfold os.parent_is_dir, is_dir_at. destruct (os.lookup fs (filepath.Dir p)) as [i|].
  - split; [eauto | by intros (j & [= <-] & ?)].
  - split; [done | by intros (j & ? & ?)].
Qed.

(** in a well-formed tree the directories above a directory exist *)
Lemma wf_prefix_dirs fs l :
  fs_wf fs -> is_dir_at fs (FPath true l) ->
  forall pre, pre `prefix_of` l -> is_dir_at fs (FPath true pre).
Proof.
  intros Hwf. induction l as [|x l IH] using rev_ind; intros Hd pre Hpre.
  - apply prefix_nil_inv in Hpre as ->. done.
  - destruct (decide (pre = l ++ [x])) as [->|Hne]; [done|].
    assert (Hpl : pre `prefix_of` l).
    { destruct Hpre as [k Hk]. destruct k as [|y k _] using rev_ind.
      - rewrite app_nil_r in Hk. by subst.
      - rewrite app_assoc in Hk. apply app_inj_tail in Hk as [-> _]. by eexists. }
    apply IH; [|done].
    destruct Hd as (i & Hi & _).
    rewrite os_lookup_nonroot in Hi by (simpl; by destruct l).
    destruct (Hwf _ _ Hi) as (_ & _ & Hp). simpl in Hp.
    specialize (Hp ltac:(by destruct l)).
    apply parent_is_dir_spec in Hp. unfold filepath.Dir in Hp. simpl in Hp.
    by rewrite removelast_last in Hp.
Qed.

Lemma mkdir_down_noop t fs todo : forall made,
  (forall pre, pre `prefix_of` (made ++ todo) -> is_dir_at fs (FPath true pre)) ->
  os.mkdir_down t true made todo fs = (Ok tt, fs).
Proof.
  induction todo as [|c todo IH]; intros made H; [done|]. simpl.
  destruct (H (made ++ [c])) as (i & Hi & Hd).
  { exists todo. by rewrite <- app_assoc. }
  rewrite Hi, Hd. apply IH. intros pre Hpre. apply H. by rewrite <- app_assoc in Hpre.
Qed.

(** [MkdirAll] of an existing directory changes nothing *)
Lemma MkdirAll_existing t fs p :
  fs_wf fs -> is_abs p = true -> is_dir_at fs p -> os.MkdirAll t fs p = (Ok tt, fs).
Proof.
  intros Hwf Ha Hd. unfold os.MkdirAll. rewrite Ha. destruct p as [a l]. simpl in *. subst a.
  apply mkdir_down_noop. simpl. by apply wf_prefix_dirs.
Qed.

Lemma wf_parent fs p i : fs_wf fs -> fs !! p = Some i ->
  is_abs (filepath.Dir p) = true /\ is_dir_at fs (filepath.Dir p).
Proof.
  intros Hwf Hi. destruct (Hwf _ _ Hi) as (Ha & Hr & Hp). split; [done|].
  destruct (decide (comps p = [])) as [He|Hne].
  - destruct p as [a l]. simpl in *. subst. unfold filepath.Dir. simpl.
    exists i. split; [by apply os_lookup_Some | by apply Hr].
  - by apply parent_is_dir_spec, Hp.
Qed.

(** C7: when the revision file for node [n] at timestamp [t] already exists
    (in a well-formed tree in which the file of [n] exists),
    [CreateRevision(n, t)] fails with an error that is [os.ErrExist], and
    nothing on disk changes, the existing revision file included. *)
Theorem C7_CreateRevision_collision tp n version w i v :
  fs_wf (w_fs w) ->
  w_fs w !! node_InternalPath w n = Some i ->
  w_fs w !! lookup.VersionPath w (SpaceID n) (ID n) version = Some v ->
  exists e, tree.CreateRevision tp n version w = (Err e, w) /\ IsExist e = true.
Proof.
  intros Hwf Hn Hv.
  destruct (wf_parent _ _ _ Hwf Hv) as [Ha Hd].
  exists (PathError "open" (lookup.VersionPath w (SpaceID n) (ID n) version) EEXIST).
  split; [|done].
  unfold tree.CreateRevision, bind, get_world, now, on_fs, read_fs.
  rewrite (MkdirAll_existing _ _ _ Hwf Ha Hd). simpl.
  unfold os.OpenRead. rewrite (os_lookup_Some _ _ _ Hn). simpl.
  unfold os.OpenExcl. rewrite (os_lookup_Some _ _ _ Hv). simpl.
  by rewrite !set_fs_same.
Qed.

Lemma C7_CreateRevision_collision_witness :
  let tp := sample.tp sample.all_perms in
  let w := sample.w_rev in
  let i := Inode false "abcdefgh" 12 0 sample.f_attrs in
  let v := Inode false "old" 7 0
             (list_to_map [(prefixes.BlobsizeAttr, "3"); (prefixes.BlobIDAttr, "blob0");
                           (prefixes.MTimeAttr, "7")]) in
  fs_wf (w_fs w) /\
  w_fs w !! node_InternalPath w sample.nf = Some i /\
  w_fs w !! lookup.VersionPath w (SpaceID sample.nf) (ID sample.nf) "7" = Some v /\
  exists e, tree.CreateRevision tp sample.nf "7" w = (Err e, w) /\ IsExist e = true.
Proof.
  intros tp w i v.
  assert (H1 : fs_wf (w_fs w)) by (apply (bool_decide_unpack _); vm_compute; exact I).
  assert (H2 : w_fs w !! node_InternalPath w sample.nf = Some i) by (vm_compute; reflexivity).
  assert (H3 : w_fs w !! lookup.VersionPath w (SpaceID sample.nf) (ID sample.nf) "7" = Some v)
    by (vm_compute; reflexivity).
  split; [exact H1 | split; [exact H2 | split; [exact H3 |]]].
  exact (C7_CreateRevision_collision tp sample.nf "7" w i v H1 H2 H3).
Defined.

(** ** Restoring a revision: compensation (C8) *)

Section preserves.
Context (P : World -> Prop).

Lemma preserves_pure {A} (m : M A) : (forall w, snd (m w) = w) -> preserves P m.
Proof. intros H w r w' Hm HP. specialize (H w). rewrite Hm in H. simpl in H. by subst. Qed.

Lemma preserves_ret {A} (a : A) : preserves P (ret a).
Proof. by apply preserves_pure. Qed.

Lemma preserves_fail {A} e : preserves P (@fail A e).
Proof. by apply preserves_pure. Qed.

Lemma preserves_bind {A B} (m : M A) (k : A -> M B) :
  preserves P m -> (forall a, preserves P (k a)) -> preserves P (bind m k).
Proof.
  intros Hm Hk w r w' H HP. unfold bind in H.
  destruct (m w) as [[a|e] w1] eqn:E.
  - eapply Hk; [exact H|]. by eapply Hm.
  - injection H as <- <-. by eapply Hm.
Qed.

Lemma preserves_try {A} (m : M A) : preserves P m -> preserves P (try m).
Proof.
  intros Hm w r w' H HP. unfold try in H. destruct (m w) as [r1 w1] eqn:E.
  injection H as <- <-. by eapply Hm.
Qed.

Lemma preserves_or_fail {A} e (m : M A) : preserves P m -> preserves P (tree.or_fail e m).
Proof.
  intros Hm w r w' H HP. unfold tree.or_fail in H.
  destruct (m w) as [[a|e1] w1] eqn:E; injection H as <- <-; by eapply Hm.
Qed.

Lemma preserves_step {A} io label (m : M A) : preserves P m -> preserves P (tree.step io label m).
Proof. intros Hm. unfold tree.step. destruct (io label); [apply preserves_fail | done]. Qed.
End preserves.

Lemma keeps_kinds_refl fs : keeps_kinds fs fs.
Proof. intros p i H. eauto. Qed.

Lemma keeps_kinds_update fs q i j :
  os.lookup fs q = Some i -> i_dir j = i_dir i -> keeps_kinds fs (<[q := j]> fs).
Proof.
  intros Hq Hj p k Hp. destruct (decide (q = p)) as [->|Hne].
  - rewrite lookup_insert_eq. rewrite (os_lookup_Some _ _ _ Hp) in Hq.
    injection Hq as ->. eauto.
  - rewrite lookup_insert_ne by done. eauto.
Qed.

Lemma is_file_keeps p w w' :
  keeps_kinds (w_fs w) (w_fs w') -> is_file_at p w -> is_file_at p w'.
Proof. intros Hk (i & Hi & Hd). destruct (Hk _ _ Hi) as (j & Hj & Hjd). exists j. split; congruence. Qed.

Lemma preserves_set_attrs p q a : preserves (is_file_at p) (on_fs (MetadataBackend.set_attrs q a)).
Proof.
  intros w r w' H. apply is_file_keeps. unfold on_fs, MetadataBackend.set_attrs in H.
  destruct (os.lookup (w_fs w) q) as [i|] eqn:E; injection H as <- <-; simpl.
  - by eapply keeps_kinds_update.
  - apply keeps_kinds_refl.
Qed.

Lemma preserves_SetMultiple p n a : preserves (is_file_at p) (MetadataBackend.SetMultiple n a).
Proof. intros w r w' H. unfold MetadataBackend.SetMultiple in H. by eapply preserves_set_attrs. Qed.

Lemma preserves_All P n : preserves P (MetadataBackend.All n).
Proof.
  apply preserves_pure. intros w. unfold MetadataBackend.All.
  by destruct (os.lookup _ _).
Qed.

Lemma preserves_CopyMetadata p src dst keep :
  preserves (is_file_at p) (CopyMetadata src dst keep).
Proof.
  unfold CopyMetadata. apply preserves_bind; [apply preserves_All|].
  intros a. apply preserves_SetMultiple.
Qed.

Lemma preserves_Chtimes p q t : preserves (is_file_at p) (on_fs (fun fs => os.Chtimes fs q t)).
Proof.
  intros w r w' H. apply is_file_keeps. unfold on_fs, os.Chtimes in H.
  destruct (w_fs w !! q) as [i|] eqn:E; injection H as <- <-; simpl.
  - eapply keeps_kinds_update; [by apply os_lookup_Some | done].
  - apply keeps_kinds_refl.
Qed.

Lemma preserves_GetInt64 P n k : preserves P (MetadataBackend.GetInt64 n k).
Proof.
  apply preserves_pure. intros w. unfold MetadataBackend.GetInt64, bind, MetadataBackend.Get, lift_res.
  by destruct (xattr.Get _ _ _).
Qed.

Lemma preserves_restore_steps p io spaceID kp0 key mtime newRev :
  preserves (is_file_at p) (tree.restore_steps io spaceID kp0 key mtime newRev).
Proof.
  unfold tree.restore_steps.
  repeat first
    [ apply preserves_CopyMetadata | apply preserves_Chtimes | apply preserves_SetMultiple
    | apply preserves_GetInt64 | apply preserves_ret
    | apply preserves_or_fail | apply preserves_step
    | apply preserves_bind; [|intros ?]
    | by apply preserves_pure ].
Qed.

Lemma restore_touch_creates n spaceID kp0 w mtime newRev w1 :
  tree.restore_touch n spaceID kp0 w = (Ok (mtime, newRev), w1) -> is_file_at newRev w1.
Proof.
  unfold tree.restore_touch, bind, node.GetMTime, bind, MetadataBackend.Get, lift_res,
    get_world, now, on_fs, ret, os.Create, os.WriteFile.
  destruct (xattr.Get _ _ _) as [v|e]; [|discriminate].
  destruct (time.Parse v) as [t|e]; [|discriminate]. simpl.
  set (q := lookup.InternalPath w spaceID _).
  destruct (os.lookup (w_fs w) q) as [i|] eqn:E.
  - destruct (i_dir i) eqn:Ed; [discriminate|]. intros [= <- <- <-].
    eexists. simpl. rewrite lookup_insert_eq. split; [done|]. done.
  - destruct (os.parent_is_dir _ _); [|discriminate]. intros [= <- <- <-].
    eexists. simpl. rewrite lookup_insert_eq. done.
Qed.

Lemma restore_cleanup_removes p w :
  is_file_at p w -> exists w', tree.restore_cleanup p w = (Ok tt, w') /\ w_fs w' !! p = None.
Proof.
  intros (i & Hi & Hd).
  unfold tree.restore_cleanup, bind, try, on_fs, os.Remove, MetadataBackend.Purge, ret.
  rewrite Hi, Hd. simpl. rewrite lookup_delete_eq. eexists. split; [done|]. simpl.
  apply lookup_delete_eq.
Qed.

Lemma defer_on_error_err {A} (d : M unit) (body : M A) w e w1 w2 :
  body w = (Err e, w1) -> d w1 = (Ok tt, w2) ->
  tree.defer_on_error d body w = (Err e, w2).
Proof.
  intros Hb Hd. unfold tree.defer_on_error, bind, try. by rewrite Hb, Hd.
Qed.

(** C8: in every execution of [RestoreRevision] that has created the new
    revision file and then fails at one of the steps from the metadata copy
    to the read of the blob size (the copy to the revision, chtimes, the
    copy back to the node, the mtime, the blob size), whether by the state of
    the tree or by an I/O fault, the error is returned after the new revision
    has been removed: no file, hence no metadata, is left at its path. *)
Theorem C8_RestoreRevision_compensates tp io ref key kp0 kp1 w n w0 w0' mtime newRev w1 e w2 :
  strings.SplitN2 key RevisionIDDelimiter = [kp0; kp1] ->
  tree.restore_access tp ref key kp0 w = (Ok n, w0) ->
  on_fs (fun fs => os.OpenCreate (w_now w0) fs
                     (MetadataBackend.LockfilePath (node_InternalPath w0 n))) w0
  = (Ok tt, w0') ->
  tree.restore_touch n (ref_SpaceId ref) kp0 w0' = (Ok (mtime, newRev), w1) ->
  tree.restore_steps io (ref_SpaceId ref) kp0 key mtime newRev w1 = (Err e, w2) ->
  exists w3,
    tree.RestoreRevision tp io ref key w = (Err e, w3)
    /\ w_fs w3 !! newRev = None.
Proof.
  intros Hk Ha Hl Ht Hs.
  assert (Hf2 : is_file_at newRev w2).
  { eapply preserves_restore_steps; [exact Hs|]. by eapply restore_touch_creates. }
  destruct (restore_cleanup_removes _ _ Hf2) as (w2' & Hc & Hn).
  unfold tree.RestoreRevision. rewrite Hk.
  rewrite (bind_ok _ _ _ _ _ Ha). unfold bind at 1, get_world at 1.
  unfold bind at 1, now at 1. rewrite (bind_ok _ _ _ _ _ Hl).
  unfold tree.defer_.
  set (body := bind (tree.restore_touch n (ref_SpaceId ref) kp0) _).
  assert (Hbody : body w0' = (Err e, w2')).
  { unfold body. rewrite (bind_ok _ _ _ _ _ Ht).
    eapply defer_on_error_err; [|exact Hc]. by rewrite (bind_err _ _ _ _ _ Hs). }
  unfold bind, try. rewrite Hbody. unfold on_fs, os.Remove, lift_res.
  destruct (w_fs w2' !! MetadataBackend.LockfilePath (node_InternalPath w0 n)) as [i|] eqn:El.
  - destruct (i_dir i && os.has_children _ _); eexists; (split; [done|]); simpl.
    + exact Hn.
    + apply lookup_delete_None. right. exact Hn.
  - eexists. split; [done|]. exact Hn.
Qed.

Lemma C8_RestoreRevision_compensates_witness :
  let tp := sample.tp sample.all_perms in
  let io := chtimes_fails in
  let ref := sample.ref_f in
  let key := "idf.REV.7" in
  let w := sample.w_rev in
  let n := sample.nf in
  let w0' := snd (on_fs (fun fs => os.OpenCreate (w_now w) fs
                           (MetadataBackend.LockfilePath (node_InternalPath w n))) w) in
  let newRev := sample.P ["s"; "a"; "f.REV.12"] in
  let w1 := snd (tree.restore_touch n "space1" "idf" w0') in
  let e := InternalError "failed to change mtime of version node" in
  let w2 := snd (tree.restore_steps io "space1" "idf" key 12 newRev w1) in
  strings.SplitN2 key RevisionIDDelimiter = ["idf"; "7"] /\
  tree.restore_access tp ref key "idf" w = (Ok n, w) /\
  on_fs (fun fs => os.OpenCreate (w_now w) fs
                     (MetadataBackend.LockfilePath (node_InternalPath w n))) w
  = (Ok tt, w0') /\
  tree.restore_touch n (ref_SpaceId ref) "idf" w0' = (Ok (12, newRev), w1) /\
  tree.restore_steps io (ref_SpaceId ref) "idf" key 12 newRev w1 = (Err e, w2) /\
  exists w3,
    tree.RestoreRevision tp io ref key w = (Err e, w3)
    /\ w_fs w3 !! newRev = None.
Proof.
  intros tp io ref key w n w0' newRev w1 e w2.
  assert (H1 : strings.SplitN2 key RevisionIDDelimiter = ["idf"; "7"]) by (vm_compute; reflexivity).
  assert (H2 : tree.restore_access tp ref key "idf" w = (Ok n, w)) by (vm_compute; reflexivity).
  assert (H3 : on_fs (fun fs => os.OpenCreate (w_now w) fs
                     (MetadataBackend.LockfilePath (node_InternalPath w n))) w
               = (Ok tt, w0')) by (vm_compute; reflexivity).
  assert (H4 : tree.restore_touch n (ref_SpaceId ref) "idf" w0' = (Ok (12, newRev), w1))
    by (vm_compute; reflexivity).
  assert (H5 : tree.restore_steps io (ref_SpaceId ref) "idf" key 12 newRev w1 = (Err e, w2))
    by (vm_compute; reflexivity).
  split; [exact H1 | split; [exact H2 | split; [exact H3 | split; [exact H4 | split; [exact H5 |]]]]].
  exact (C8_RestoreRevision_compensates tp io ref key "idf" "7" w n w w0' 12 newRev w1 e w2
           H1 H2 H3 H4 H5).
Defined.

(** ** Assimilation: the fast path (C6) *)

Lemma only_scope_refl w : only_scope w w.
Proof. exists (w_scope w). by destruct w. Qed.

Lemma only_scope_trans w1 w2 w3 : only_scope w1 w2 -> only_scope w2 w3 -> only_scope w1 w3.
Proof. intros [s ->] [s' ->]. exists s'. by destruct w1. Qed.

Lemma scopeSpace_only_scope t p w r w' : tree.scopeSpace t p w = (r, w') -> only_scope w w'.
Proof.
  unfold tree.scopeSpace. destruct (tree.UseSpaceGroups _); simpl.
  - unfold bind, read_fs, lift_res, modify.
    destruct (os.Stat (w_fs w) p) as [fi|e]; [|intros [= <- <-]; apply only_scope_refl].
    destruct (tree.ScopeUserByIds t (-1) (i_gid fi)); intros [= <- <-];
      [by eexists | apply only_scope_refl].
  - intros [= <- <-]. apply only_scope_refl.
Qed.

Lemma findSpaceId_loop_only_scope t fuel path : forall cand w r w',
  tree.findSpaceId_loop t fuel path cand w = (r, w') -> only_scope w w'.
Proof.
  induction fuel as [|fuel IH]; intros cand w r w'; simpl;
    (destruct (strings.HasPrefix _ _); [|intros [= <- <-]; apply only_scope_refl]);
    unfold bind at 1, get_world at 1;
    (destruct (lookup.IDsForPath w cand) as [[sp ?]|?];
     [case_bool_decide|]);
    try (intros [= <- <-]; apply only_scope_refl);
    try (by apply IH).
  - unfold bind. destruct (tree.scopeSpace t cand w) as [[[]|e] w1] eqn:E; intros [= <- <-];
      by eapply scopeSpace_only_scope.
  - unfold bind. destruct (tree.scopeSpace t cand w) as [[[]|e] w1] eqn:E; intros [= <- <-];
      by eapply scopeSpace_only_scope.
Qed.

Lemma xattr_Get_Some fs p i name v :
  os.lookup fs p = Some i -> i_xattrs i !! name = Some v -> xattr.Get fs p name = Ok v.
Proof. intros Hi Hv. unfold xattr.Get. by rewrite Hi, Hv. Qed.

(** C6, the fast path of assimilation: for a path whose space is found,
    that carries an id xattr, whose cached path for that id is the path
    itself and whose mtime xattr equals the mtime of the file,
    [assimilate] returns success and the file tree with its attributes, the
    id cache in both directions, the published events, the started
    goroutines, the UUID source and the debouncer are what they were. *)
Theorem C6_assimilate_fast_path t it w spaceID w1 i id v :
  tree.findSpaceId t (Path it) w = (Ok spaceID, w1) ->
  os.lookup (w_fs w) (Path it) = Some i ->
  i_xattrs i !! prefixes.IDAttr = Some id ->
  id <> "" ->
  IDCache.Get w spaceID id = Some (Path it) ->
  i_xattrs i !! prefixes.MTimeAttr = Some v ->
  time.Parse v = Ok (i_mtime i) ->
  tree.assimilate t it w = (Ok tt, w1)
  /\ w_fs w1 = w_fs w /\ w_ids w1 = w_ids w /\ w_paths w1 = w_paths w
  /\ w_events w1 = w_events w /\ w_tasks w1 = w_tasks w
  /\ w_uuid_next w1 = w_uuid_next w /\ w_deb w1 = w_deb w.
Proof.
  intros Hs Hi Hid Hne Hc Hm Hp.
  destruct (findSpaceId_loop_only_scope _ _ _ _ _ _ _ Hs) as [s ->].
  split; [|by destruct w].
  unfold tree.assimilate. cbn [tree.assimilate_fuel].
  rewrite (bind_ok _ _ _ _ _ Hs).
  unfold tree.wrap, MetadataBackend.Lock, tree.defer_, MetadataBackend.unlock.
  unfold bind at 1. unfold ret at 1. unfold bind at 1. unfold try at 1.
  set (w1 := set_scope s w).
  assert (Hfs : w_fs w1 = w_fs w) by (by destruct w).
  assert (Hids : w_ids w1 = w_ids w) by (by destruct w).
  unfold bind at 1. unfold MetadataBackend.IdentifyPath at 1.
  unfold lookup.attr_or_empty. rewrite Hfs.
  rewrite (xattr_Get_Some _ _ _ _ _ Hi Hid), (xattr_Get_Some _ _ _ _ _ Hi Hm), Hp.
  cbn [fst snd]. rewrite bool_decide_eq_true_2 by done.
  unfold bind at 1, get_world at 1. unfold lookup.GetCachedID, IDCache.Get. rewrite Hids.
  unfold IDCache.Get in Hc. rewrite Hc.
  unfold bind at 1. unfold try at 1.
  destruct (MetadataBackend.Get _ _ w1) as [pp w2] eqn:Eg.
  assert (w2 = w1) as ->.
  { unfold MetadataBackend.Get in Eg. by injection Eg. }
  unfold os.Stat. rewrite Hfs, Hi. rewrite !bool_decide_eq_true_2 by done.
  simpl. done.
Qed.

Lemma C6_assimilate_fast_path_witness :
  let t := sample.tp sample.all_perms in
  let it := ScanItem (sample.P ["s"; "a"; "f"]) false false in
  let w := sample.w0 in
  let i := Inode false "abcdefgh" 12 0 sample.f_attrs in
  tree.findSpaceId t (Path it) w = (Ok "space1", w) /\
  os.lookup (w_fs w) (Path it) = Some i /\
  i_xattrs i !! prefixes.IDAttr = Some "idf" /\
  "idf" <> "" /\
  IDCache.Get w "space1" "idf" = Some (Path it) /\
  i_xattrs i !! prefixes.MTimeAttr = Some "12" /\
  time.Parse "12" = Ok (i_mtime i) /\
  tree.assimilate t it w = (Ok tt, w)
  /\ w_fs w = w_fs w /\ w_ids w = w_ids w /\ w_paths w = w_paths w
  /\ w_events w = w_events w /\ w_tasks w = w_tasks w
  /\ w_uuid_next w = w_uuid_next w /\ w_deb w = w_deb w.
Proof.
  intros t it w i.
  assert (H1 : tree.findSpaceId t (Path it) w = (Ok "space1", w)) by (vm_compute; reflexivity).
  assert (H2 : os.lookup (w_fs w) (Path it) = Some i) by (vm_compute; reflexivity).
  assert (H3 : i_xattrs i !! prefixes.IDAttr = Some "idf") by (vm_compute; reflexivity).
  assert (H4 : "idf" <> "") by discriminate.
  assert (H5 : IDCache.Get w "space1" "idf" = Some (Path it)) by (vm_compute; reflexivity).
  assert (H6 : i_xattrs i !! prefixes.MTimeAttr = Some "12") by (vm_compute; reflexivity).
  assert (H7 : time.Parse "12" = Ok (i_mtime i)) by (vm_compute; reflexivity).
  repeat (split; [assumption|]).
  exact (C6_assimilate_fast_path t it w "space1" w i "idf" "12" H1 H2 H3 H4 H5 H6 H7).
Defined.

(** a file whose content changed out of band (new mtime) leaves the fast
    path: attributes are rewritten *)
Example assimilate_changed_file_rewrites :
  let w := set_fs (<[sample.P ["s"; "a"; "f"] := Inode false "HELLO" 40 0 sample.f_attrs]>
                     sample.fs0) sample.w0 in
  let r := tree.assimilate (sample.tp sample.all_perms)
                           (ScanItem (sample.P ["s"; "a"; "f"]) false false) w in
  fst r = Ok tt /\
  lookup.attr_or_empty (w_fs (snd r)) (sample.P ["s"; "a"; "f"]) prefixes.BlobsizeAttr = "5" /\
  lookup.attr_or_empty (w_fs (snd r)) (sample.P ["s"; "a"; "f"]) prefixes.MTimeAttr = "40".
Proof. cbv zeta. repeat split; vm_compute; reflexivity. Qed.

(** ** Trash round trip (C3) *)

Lemma Split1_no_slash s : no_slash s = true -> strings.Split1 s "/" = [s].
Proof.
  induction s as [|c s IH]; [done|]. simpl. intros [Hc Hs]%andb_prop.
  rewrite (negb_true_iff _) in Hc. rewrite Hc, (IH Hs). done.
Qed.

Lemma no_slash_app s t : no_slash s = true -> no_slash t = true -> no_slash (s +:+ t) = true.
Proof.
  induction s as [|c s IH]; [done|]. simpl. intros [Hc Hs]%andb_prop Ht.
  rewrite Hc. simpl. by apply IH.
Qed.

Lemma app_length_string s t : String.length (s +:+ t) = (String.length s + String.length t)%nat.
Proof. induction s as [|c s IH]; simpl; [done | by rewrite IH]. Qed.

Lemma plain_suffixed key suf :
  no_slash key = true -> no_slash suf = true -> (3 <= String.length suf)%nat ->
  plain (key +:+ suf).
Proof.
  intros Hk Hs Hl. split; [by apply no_slash_app|].
  assert (H : (3 <= String.length (key +:+ suf))%nat) by (rewrite app_length_string; lia).
  repeat split; intros E; rewrite E in H; simpl in H; lia.
Qed.

Lemma push_plain abs cs c : plain c -> filepath.push abs cs c = cs ++ [c].
Proof.
  intros (_ & H1 & H2 & H3). unfold filepath.push.
  rewrite bool_decide_eq_false_2 by (intros [?|?]; done).
  by rewrite bool_decide_eq_false_2.
Qed.

Lemma pushes_cons abs cs e es :
  filepath.pushes abs cs (e :: es)
  = filepath.pushes abs (fold_left (filepath.push abs) (strings.Split1 e "/") cs) es.
Proof. unfold filepath.pushes. simpl. by rewrite fold_left_app. Qed.

Lemma pushes_plain abs cs e es :
  plain e -> filepath.pushes abs cs (e :: es) = filepath.pushes abs (cs ++ [e]) es.
Proof.
  intros He. rewrite pushes_cons, (Split1_no_slash e) by apply He. simpl.
  by rewrite push_plain.
Qed.


Lemma Join_abs base elems :
  is_abs base = true ->
  filepath.Join base elems = FPath true (filepath.pushes true (comps base) elems).
Proof.
  intros Ha. unfold filepath.Join. rewrite bool_decide_eq_false_2; [by rewrite Ha|].
  intros ->. discriminate Ha.
Qed.

Lemma Join_rel_Trash base :
  is_abs base = false -> is_abs (filepath.Join base [".Trash"]) = false.
Proof.
  intros Ha. unfold filepath.Join. case_bool_decide; [reflexivity | exact Ha].
Qed.

Lemma Join_rel base elems :
  is_abs base = false -> base <> filepath.empty -> is_abs (filepath.Join base elems) = false.
Proof.
  intros Ha Hne. unfold filepath.Join. by rewrite bool_decide_eq_false_2.
Qed.

(** what [MkdirAll] can have changed at a path: nothing, or it made there a
    directory that was missing on the way down *)
Lemma mkdir_down_frame t todo : forall made fs r fs',
  os.mkdir_down t true made todo fs = (r, fs') ->
  forall q, fs' !! q = fs !! q
            \/ (fs !! q = None /\ is_abs q = true
                /\ (length (comps q) <= length (made ++ todo))%nat).
Proof.
  induction todo as [|c todo IH]; intros made fs r fs' H q; simpl in H.
  - injection H as <- <-. by left.
  - destruct (os.lookup fs (FPath true (made ++ [c]))) as [i|] eqn:E.
    + destruct (i_dir i).
      * destruct (IH _ _ _ _ H q) as [Hq | (Hn & Ha & Hl)]; [by left | right].
        split; [done|]. split; [done|]. by rewrite <- app_assoc in Hl.
      * injection H as <- <-. by left.
    + destruct (IH _ _ _ _ H q) as [Hq | (Hn & Ha & Hl)].
      * destruct (decide (q = FPath true (made ++ [c]))) as [->|Hne].
        -- right. split; [|split; [done|]].
           ++ unfold os.lookup in E. by case_bool_decide; destruct (fs !! _).
           ++ simpl. rewrite !length_app. simpl. lia.
        -- left. by rewrite Hq, lookup_insert_ne.
      * destruct (decide (q = FPath true (made ++ [c]))) as [->|Hne].
        -- by rewrite lookup_insert_eq in Hn.
        -- right. rewrite lookup_insert_ne in Hn by done.
           split; [done|]. split; [done|]. by rewrite <- app_assoc in Hl.
Qed.

Lemma MkdirAll_frame t fs p r fs' :
  os.MkdirAll t fs p = (r, fs') ->
  forall q, fs' !! q = fs !! q
            \/ (fs !! q = None /\ is_abs q = true
                /\ (length (comps q) <= length (comps p))%nat).
Proof.
  unfold os.MkdirAll. destruct (is_abs p).
  - intros H q. by apply (mkdir_down_frame _ _ _ _ _ _ H q).
  - intros [= <- <-] q. by left.
Qed.

Lemma MkdirAll_ok_abs t fs p fs' : os.MkdirAll t fs p = (Ok tt, fs') -> is_abs p = true.
Proof. unfold os.MkdirAll. by destruct (is_abs p). Qed.

Lemma at_or_under_refl p : filepath.at_or_under p p.
Proof. split; [done | reflexivity]. Qed.

Lemma at_or_under_length p q : filepath.at_or_under p q -> (length (comps p) <= length (comps q))%nat.
Proof. intros [_ H]. by apply prefix_length. Qed.

Lemma moved_children_at src dst fs q i :
  os.moved_children src dst fs !! q = Some i -> filepath.at_or_under dst q.
Proof.
  unfold os.moved_children. revert q i.
  apply (map_fold_weak_ind
           (fun (r : filetree) (_ : filetree) =>
              forall q i, r !! q = Some i -> filepath.at_or_under dst q)).
  - intros q i H. by rewrite lookup_empty in H.
  - intros k x m r Hk IH q i. case_decide; [|by apply IH].
    destruct (decide (os.rebase src dst k = q)) as [<-|Hne].
    + intros _. split; [done|]. simpl. by apply prefix_app_r.
    + rewrite lookup_insert_ne by done. by apply IH.
Qed.

Lemma rename_tree_dst src dst i fs : os.rename_tree src dst i fs !! dst = Some i.
Proof. unfold os.rename_tree. apply lookup_insert_eq. Qed.

Lemma rename_tree_other src dst i fs q :
  ~ filepath.at_or_under src q -> ~ filepath.at_or_under dst q ->
  os.rename_tree src dst i fs !! q = fs !! q.
Proof.
  intros Hs Hd. unfold os.rename_tree.
  rewrite lookup_insert_ne by (intros <-; apply Hd, at_or_under_refl).
  rewrite lookup_union_r.
  - destruct (fs !! q) as [x|] eqn:E.
    + apply map_lookup_filter_Some. done.
    + apply map_lookup_filter_None. by left.
  - destruct (os.moved_children src dst fs !! q) eqn:E; [|done].
    by apply moved_children_at in E.
Qed.

Lemma rename_tree_src src dst i fs :
  ~ filepath.at_or_under dst src -> os.rename_tree src dst i fs !! src = None.
Proof.
  intros Hd. unfold os.rename_tree.
  rewrite lookup_insert_ne by (intros <-; apply Hd, at_or_under_refl).
  apply lookup_union_None. split.
  - destruct (os.moved_children src dst fs !! src) eqn:E; [|done].
    by apply moved_children_at in E.
  - apply map_lookup_filter_None. right. intros x _ [H _]. apply H, at_or_under_refl.
Qed.

(** in a well-formed tree, whatever lies below a path lies in a directory
    at that path *)
Lemma wf_under fs a q i :
  fs_wf fs -> fs !! q = Some i -> filepath.under a q -> is_dir_at fs a.
Proof.
  intros Hwf Hq (Ha & Hp & Hne).
  destruct (wf_parent _ _ _ Hwf Hq) as [Habs Hd].
  destruct (Hwf _ _ Hq) as (Hqa & _ & _).
  assert (Hpre : comps a `prefix_of` removelast (comps q)).
  { destruct Hp as [k Hk]. destruct k as [|y k _] using rev_ind.
    - rewrite app_nil_r in Hk. congruence.
    - rewrite Hk, app_assoc, removelast_last. by eexists. }
  destruct a as [aa al]. simpl in *. rewrite Hqa in Ha. subst aa.
  eapply wf_prefix_dirs; [exact Hwf | | exact Hpre].
  unfold filepath.Dir in Hd. by rewrite Hqa in Hd.
Qed.

Lemma wf_fresh fs a q i :
  fs_wf fs -> fs !! a = None -> comps a <> [] -> fs !! q = Some i ->
  ~ filepath.at_or_under a q.
Proof.
  intros Hwf Ha Hne Hq [Hab Hp].
  destruct (decide (comps a = comps q)) as [He|Hd].
  - assert (a = q) as -> by (destruct a, q; simpl in *; congruence). congruence.
  - destruct (wf_under fs a q i Hwf Hq) as (j & Hj & _); [done|].
    rewrite os_lookup_nonroot in Hj by done. congruence.
Qed.

Lemma InternalPath_node_id w s id :
  is_node_id id = true -> lookup.InternalPath w s id = lookup.cached w s id.
Proof.
  unfold is_node_id, lookup.InternalPath.
  destruct (strings.SplitN2 id RevisionIDDelimiter) as [|a [|b [|c l]]]; try discriminate.
  intros H%negb_true_iff. by rewrite H.
Qed.

Lemma plain_Trash : plain ".Trash". Proof. by repeat split. Qed.
Lemma plain_files : plain "files". Proof. by repeat split. Qed.
Lemma plain_info : plain "info". Proof. by repeat split. Qed.

Section trash_paths.
Context (rootp : fpath) (key : string).
Hypothesis Habs : is_abs rootp = true.
Hypothesis Hkey : no_slash key = true.

Lemma trashPath_eq : filepath.Join rootp [".Trash"] = FPath true (comps rootp ++ [".Trash"]).
Proof. rewrite Join_abs by done. by rewrite pushes_plain by apply plain_Trash. Qed.

Lemma info_dir_eq : filepath.Join (filepath.Join rootp [".Trash"]) ["info"] = FPath true (comps rootp ++ [".Trash"; "info"]).
Proof.
  rewrite trashPath_eq, Join_abs by done. simpl.
  rewrite pushes_plain by apply plain_info. by rewrite <- app_assoc.
Qed.

Lemma files_dir_eq : filepath.Join (filepath.Join rootp [".Trash"]) ["files"] = FPath true (comps rootp ++ [".Trash"; "files"]).
Proof.
  rewrite trashPath_eq, Join_abs by done. simpl.
  rewrite pushes_plain by apply plain_files. by rewrite <- app_assoc.
Qed.

Lemma info_file_eq :
  filepath.Join (filepath.Join rootp [".Trash"]) ["info"; key +:+ ".trashinfo"] = trash_info rootp key.
Proof.
  rewrite trashPath_eq, Join_abs by done. simpl.
  rewrite pushes_plain by apply plain_info.
  rewrite pushes_plain by (by apply plain_suffixed; [| | simpl; lia]).
  unfold trash_info. by rewrite <- !app_assoc.
Qed.

Lemma item_eq :
  filepath.Join (filepath.Join rootp [".Trash"]) ["files"; key +:+ ".trashitem"] = trash_item rootp key.
Proof.
  rewrite trashPath_eq, Join_abs by done. simpl.
  rewrite pushes_plain by apply plain_files.
  rewrite pushes_plain by (by apply plain_suffixed; [| | simpl; lia]).
  unfold trash_item. by rewrite <- !app_assoc.
Qed.

End trash_paths.

Lemma SpaceRoot_path w n spaceID :
  SpaceRoot n = (spaceID, spaceID) -> is_node_id spaceID = true ->
  SpaceRoot_InternalPath w n = lookup.cached w spaceID spaceID.
Proof.
  intros Hr Hs. unfold SpaceRoot_InternalPath. rewrite Hr. simpl. by apply InternalPath_node_id.
Qed.

Lemma trash_frame_refl rootp key fs : trash_frame rootp key fs fs.
Proof. intros q. by left. Qed.

Lemma trash_frame_mkdir rootp key fs fsX t d r fsY :
  trash_frame rootp key fs fsX ->
  os.MkdirAll t fsX (FPath true (comps rootp ++ [".Trash"; d])) = (r, fsY) ->
  trash_frame rootp key fs fsY.
Proof.
  intros HF HM q. destruct (MkdirAll_frame _ _ _ _ _ HM q) as [-> | (Hn & Ha & Hl)]; [apply HF|].
  destruct (HF q) as [Hq | Hq]; [|by right].
  right. rewrite <- Hq. split; [done|]. split; [done|].
  simpl in Hl. rewrite length_app in Hl. simpl in Hl. split; [lia|].
  intros Hu%at_or_under_length. unfold trash_item in Hu. simpl in Hu.
  rewrite length_app in Hu. simpl in Hu. lia.
Qed.

Lemma item_not_above_info rootp key :
  ~ filepath.at_or_under (trash_item rootp key) (trash_info rootp key).
Proof.
  intros [_ [k Hk]]. unfold trash_item, trash_info in Hk. simpl in Hk.
  rewrite <- app_assoc in Hk. apply app_inv_head in Hk. simpl in Hk. discriminate Hk.
Qed.

Lemma trash_frame_info rootp key fs fsX x :
  trash_frame rootp key fs fsX ->
  fs !! trash_info rootp key = None ->
  trash_frame rootp key fs (<[trash_info rootp key := x]> fsX).
Proof.
  intros HF Hn q. destruct (decide (trash_info rootp key = q)) as [<-|Hne].
  - right. split; [done|]. split; [done|]. split.
    + unfold trash_info. simpl. rewrite length_app. simpl. lia.
    + apply item_not_above_info.
  - rewrite lookup_insert_ne by done. apply HF.
Qed.

Lemma trash_frame_old rootp key fs fsX q x :
  trash_frame rootp key fs fsX -> fs !! q = Some x -> fsX !! q = Some x.
Proof. intros HF Hq. destruct (HF q) as [-> | [Hn _]]; congruence. Qed.

Lemma trash_frame_item rootp key fs fsX :
  trash_frame rootp key fs fsX -> fs !! trash_item rootp key = None ->
  fsX !! trash_item rootp key = None.
Proof.
  intros HF Hn. destruct (HF (trash_item rootp key)) as [-> | (_ & _ & _ & Hu)]; [done|].
  destruct Hu. apply at_or_under_refl.
Qed.

Lemma wf_no_empty fs : fs_wf fs -> fs !! filepath.empty = None.
Proof.
  intros Hwf. destruct (fs !! filepath.empty) eqn:E; [|done].
  by destruct (Hwf _ _ E) as [Ha _].
Qed.

Lemma trash_frame_empty rootp key fs fsX :
  fs_wf fs -> trash_frame rootp key fs fsX -> fsX !! filepath.empty = None.
Proof.
  intros Hwf HF. destruct (HF filepath.empty) as [-> | (_ & Ha & _)]; [by apply wf_no_empty|].
  discriminate Ha.
Qed.





(** the attributes the claim names, read off the equation of C3 *)
Lemma round_trip_attrs (a : gmap string string) pid :
  <[prefixes.ParentidAttr := pid]> a !! prefixes.IDAttr = a !! prefixes.IDAttr
  /\ <[prefixes.ParentidAttr := pid]> a !! prefixes.ParentidAttr = Some pid
  /\ (forall k, strings.HasPrefix k prefixes.ChecksumPrefix = true ->
       <[prefixes.ParentidAttr := pid]> a !! k = a !! k).
Proof.
  split; [by rewrite lookup_insert_ne | split; [by rewrite lookup_insert_eq |]].
  intros k Hk. rewrite lookup_insert_ne; [done|]. intros <-. discriminate Hk.
Qed.

(** ** Sanity checks of the model on the sample space *)

Example Join_cleans :
  filepath.Join (FPath true ["s"; "a"]) ["../b/./c"; "/"] = FPath true ["s"; "b"; "c"].
Proof. reflexivity. Qed.

Example Join_of_empty_is_relative :
  filepath.Join filepath.empty [".Trash"] = FPath false [".Trash"].
Proof. reflexivity. Qed.

Example SplitN2_first_delimiter :
  strings.SplitN2 "id.REV.2024.REV.x" RevisionIDDelimiter = ["id"; "2024.REV.x"].
Proof. reflexivity. Qed.

(** E4 of the specification: the trashed file keeps content and attributes,
    its sidecar names the path relative to the space root *)
Example trashinfo_names_relative_path :
  fst (trashbin.readInfoFile (sample.tb sample.all_perms) (sample.P ["s"; ".Trash"]) "6f1c0a"
         sample.w_trashed)
  = Ok ("a/f", Some 0)
  /\ w_fs sample.w_trashed !! sample.P ["s"; "a"; "f"] = None
  /\ w_fs sample.w_trashed !! sample.P ["s"; ".Trash"; "files"; "6f1c0a.trashitem"]
     = Some (Inode false "abcdefgh" 12 0 sample.f_attrs).
Proof. repeat split; vm_compute; reflexivity. Qed.

(** a new out-of-band file gets an id, its parent's id, checksums, and one
    UploadReady event (E6) *)
Example assimilate_new_file :
  let p := sample.P ["s"; "a"; "h"] in
  let w := set_fs (<[p := Inode false "xyz" 50 0 ∅]> sample.fs0) sample.w0 in
  let r := tree.assimilate (sample.tp sample.all_perms) (ScanItem p false false) w in
  fst r = Ok tt
  /\ lookup.attr_or_empty (w_fs (snd r)) p prefixes.IDAttr = "6f1c0a"
  /\ lookup.attr_or_empty (w_fs (snd r)) p prefixes.ParentidAttr = "ida"
  /\ lookup.attr_or_empty (w_fs (snd r)) p (prefixes.ChecksumPrefix ++ "md5") = "md5-of-xyz"
  /\ w_events (snd r) = [UploadReady (Ref "space1" "6f1c0a" "")]
  /\ IDCache.Get (snd r) "space1" "6f1c0a" = Some p.
Proof. cbv zeta. repeat split; vm_compute; reflexivity. Qed.

(** restoring a revision swaps the blob attributes and keeps the replaced
    version as a new revision *)
Example RestoreRevision_swaps :
  let r := tree.RestoreRevision (sample.tp sample.all_perms) tree.no_faults sample.ref_f
                                "idf.REV.7" sample.w_rev in
  fst r = Ok tt
  /\ lookup.attr_or_empty (w_fs (snd r)) (sample.P ["s"; "a"; "f"]) prefixes.BlobIDAttr = "blob0"
  /\ lookup.attr_or_empty (w_fs (snd r)) (sample.P ["s"; "a"; "f.REV.12"]) prefixes.BlobIDAttr
     = "blob1"
  /\ w_fs (snd r) !! sample.P ["s"; "a"; "f.REV.7"] = None.
Proof. cbv zeta. repeat split; vm_compute; reflexivity. Qed.

(** * Further properties of the code *)

(** ** Strings: splitting, trimming, decimal numbers *)

Lemma string_app_cons c (a b : string) : String c a +:+ b = String c (a +:+ b).
Proof. reflexivity. Qed.

Lemma string_app_nil (b : string) : "" +:+ b = b.
Proof. reflexivity. Qed.

Lemma string_app_assoc (a b c : string) : (a +:+ b) +:+ c = a +:+ (b +:+ c).
Proof.
  induction a as [|x a IH]; [done|]. by rewrite !string_app_cons, IH.
Qed.

Lemma Split1_newline_free s : no_newline s = true -> strings.Split1 s (ascii_of_nat 10) = [s].
Proof.
  induction s as [|c s IH]; [done|]. simpl. intros [Hc Hs]%andb_prop.
  rewrite (negb_true_iff _) in Hc. rewrite Hc, (IH Hs). done.
Qed.

Lemma Split1_line a b :
  no_newline a = true ->
  strings.Split1 (a +:+ String (ascii_of_nat 10) b) (ascii_of_nat 10)
  = a :: strings.Split1 b (ascii_of_nat 10).
Proof.
  induction a as [|c a IH]; intros H.
  - rewrite string_app_nil. cbn [strings.Split1]. by rewrite Ascii.eqb_refl.
  - simpl in H. apply andb_prop in H as [Hc Ha]. rewrite (negb_true_iff _) in Hc.
    change (String c a +:+ String (ascii_of_nat 10) b)
      with (String c (a +:+ String (ascii_of_nat 10) b)).
    cbn [strings.Split1]. rewrite Hc, (IH Ha). done.
Qed.

Lemma substring_all s : substring 0 (String.length s) s = s.
Proof. induction s as [|c s IH]; simpl; [done | by rewrite IH]. Qed.

Lemma substring_skip pre s n : substring (String.length pre) n (pre +:+ s) = substring 0 n s.
Proof.
  induction pre as [|c pre IH]; [done|]. rewrite string_app_cons. simpl. exact IH.
Qed.

Lemma substring_head a b : substring 0 (String.length a) (a +:+ b) = a.
Proof.
  induction a as [|c a IH]; [rewrite string_app_nil; by destruct b|].
  rewrite string_app_cons. simpl. by rewrite IH.
Qed.

Lemma prefix_app pre s : String.prefix pre (pre +:+ s) = true.
Proof.
  induction pre as [|c pre IH]; [rewrite string_app_nil; by destruct s|].
  rewrite string_app_cons. simpl.
  destruct (ascii_dec c c); [done | congruence].
Qed.

Lemma HasPrefix_app pre s : strings.HasPrefix (pre +:+ s) pre = true.
Proof. apply prefix_app. Qed.

Lemma TrimPrefix_app pre s : strings.TrimPrefix (pre +:+ s) pre = s.
Proof.
  unfold strings.TrimPrefix. rewrite HasPrefix_app, app_length_string.
  replace (String.length pre + String.length s - String.length pre)%nat
    with (String.length s) by lia.
  by rewrite substring_skip, substring_all.
Qed.

Lemma rev_app_app s : forall a b,
  String.rev_app (String.rev_app s a) b = String.rev_app a (s +:+ b).
Proof.
  induction s as [|c s IH]; intros a b; [done|].
  rewrite string_app_cons. simpl. by rewrite IH.
Qed.

Lemma string_app_nil_r (s : string) : s +:+ "" = s.
Proof. induction s as [|c s IH]; [done|]. by rewrite string_app_cons, IH. Qed.

Lemma rev_involutive_string s : String.rev (String.rev s) = s.
Proof. unfold String.rev. rewrite rev_app_app. simpl. apply string_app_nil_r. Qed.

Lemma rev_app_string s : forall a, String.rev_app s a = String.rev s +:+ a.
Proof.
  unfold String.rev. induction s as [|c s IH]; intros a; simpl; [done|].
  rewrite (IH (String c a)), (IH (String c "")). by rewrite string_app_assoc.
Qed.

Lemma rev_append_string a b : String.rev (a +:+ b) = String.rev b +:+ String.rev a.
Proof.
  induction a as [|c a IH].
  - rewrite string_app_nil. symmetry. apply string_app_nil_r.
  - rewrite string_app_cons.
    change (String.rev (String c (a +:+ b))) with (String.rev_app (a +:+ b) (String c "")).
    change (String.rev (String c a)) with (String.rev_app a (String c "")).
    rewrite !rev_app_string, IH. by rewrite string_app_assoc.
Qed.

Lemma HasSuffix_app s suf : strings.HasSuffix (s +:+ suf) suf = true.
Proof. unfold strings.HasSuffix. rewrite rev_append_string. apply prefix_app. Qed.

Lemma TrimSuffix_app s suf : strings.TrimSuffix (s +:+ suf) suf = s.
Proof.
  unfold strings.TrimSuffix. rewrite HasSuffix_app, app_length_string.
  replace (String.length s + String.length suf - String.length suf)%nat
    with (String.length s) by lia.
  apply substring_head.
Qed.

Lemma uint_chars d : all_chars digit_or_sign (NilEmpty.string_of_uint d) = true.
Proof. induction d; simpl; try done. Qed.

Lemma FormatInt_chars z : all_chars digit_or_sign (FormatInt z) = true.
Proof.
  unfold FormatInt, NilZero.string_of_int, NilZero.string_of_uint.
  destruct (Z.to_int z) as [d|d]; destruct d; simpl; try done; apply uint_chars.
Qed.

Lemma all_chars_rev_app f s : forall a,
  all_chars f s = true -> all_chars f a = true -> all_chars f (String.rev_app s a) = true.
Proof.
  induction s as [|c s IH]; intros a Hs Ha; simpl in *; [done|].
  apply andb_prop in Hs as [Hc Hs]. apply IH; [done|]. simpl. by rewrite Hc.
Qed.

Lemma TrimLeft_id s : all_chars digit_or_sign s = true -> strings.TrimLeft s = s.
Proof.
  destruct s as [|c s]; [done|]. simpl. intros [Hc _]%andb_prop.
  unfold digit_or_sign in Hc. apply andb_prop in Hc as [Hc _].
  by rewrite (negb_true_iff _) in Hc; rewrite Hc.
Qed.

Lemma TrimSpace_id s : all_chars digit_or_sign s = true -> strings.TrimSpace s = s.
Proof.
  intros H. unfold strings.TrimSpace. rewrite (TrimLeft_id s H).
  rewrite TrimLeft_id; [apply rev_involutive_string|].
  unfold String.rev. by apply all_chars_rev_app.
Qed.

Lemma all_chars_no_newline s : all_chars digit_or_sign s = true -> no_newline s = true.
Proof.
  induction s as [|c s IH]; [done|]. simpl. intros [Hc Hs]%andb_prop.
  rewrite (IH Hs), andb_true_r. unfold digit_or_sign in Hc. by apply andb_prop in Hc as [_ Hc].
Qed.

Lemma ParseInt_FormatInt z : ParseInt (FormatInt z) = Ok z.
Proof.
  unfold ParseInt, FormatInt. rewrite NilZero.isi.
  - by rewrite DecimalZ.of_to.
  - destruct z; simpl; try discriminate.
    intros [= E]. by apply DecimalPos.Unsigned.to_uint_nonnil in E.
  - destruct z; simpl; try discriminate.
    intros [= E]. by apply DecimalPos.Unsigned.to_uint_nonnil in E.
Qed.

(** ** The layout of the deletion date *)

Lemma digit_cases (k : Z) :
  0 <= k <= 9 ->
  k = 0 \/ k = 1 \/ k = 2 \/ k = 3 \/ k = 4 \/ k = 5 \/ k = 6 \/ k = 7 \/ k = 8 \/ k = 9.
Proof. lia. Qed.

Lemma isDigit_digit k : 0 <= k <= 9 -> time.isDigit (time.digit k) = true.
Proof. intros H. destruct (digit_cases k H) as [->|[->|[->|[->|[->|[->|[->|[->|[->| ->]]]]]]]]]; reflexivity. Qed.

Lemma digit_val_digit k : 0 <= k <= 9 -> time.digit_val (time.digit k) = k.
Proof. intros H. destruct (digit_cases k H) as [->|[->|[->|[->|[->|[->|[->|[->|[->| ->]]]]]]]]]; reflexivity. Qed.

Lemma digit_or_sign_digit k : 0 <= k <= 9 -> digit_or_sign (time.digit k) = true.
Proof. intros H. destruct (digit_cases k H) as [->|[->|[->|[->|[->|[->|[->|[->|[->| ->]]]]]]]]]; reflexivity. Qed.

Lemma appendInt_2 n :
  0 <= n < 100 ->
  time.appendInt n 2 = String (time.digit (n / 10)) (String (time.digit (n mod 10)) "").
Proof.
  intros H. unfold time.appendInt.
  rewrite (proj2 (Z.ltb_ge n 0)) by lia. rewrite Z.abs_eq by lia.
  rewrite (proj2 (Z.ltb_lt n 100)) by lia. reflexivity.
Qed.

Lemma appendInt_4 n :
  0 <= n < 10000 ->
  time.appendInt n 4
  = String (time.digit (n / 1000))
      (String (time.digit (n / 100 mod 10))
         (String (time.digit (n / 10 mod 10)) (String (time.digit (n mod 10)) ""))).
Proof.
  intros H. unfold time.appendInt.
  rewrite (proj2 (Z.ltb_ge n 0)) by lia. rewrite Z.abs_eq by lia.
  rewrite (proj2 (Z.ltb_lt n 10000)) by lia. reflexivity.
Qed.

(** *** The calendar *)

Lemma all_from_spec f fuel : forall z x,
  all_from fuel z f = true -> z <= x < z + Z.of_nat fuel -> f x = true.
Proof.
  induction fuel as [|k IH]; intros z x H Hx; [lia|].
  simpl in H. apply andb_true_iff in H as [H0 H1].
  destruct (decide (x = z)) as [->|Hne]; [done|].
  apply (IH (z + 1)); [done | lia].
Qed.

(** one cycle of 400 years, day by day *)
Lemma civil_ok_cycle : all_from (Z.to_nat 146097) (-719468) civil_ok = true.
Proof. vm_compute. reflexivity. Qed.

Lemma civil_from_days_shift days k :
  time.civil_from_days (days + 146097 * k)
  = let '(y, m, d) := time.civil_from_days days in (y + 400 * k, m, d).
Proof.
  unfold time.civil_from_days.
  replace (days + 146097 * k + 719468) with (days + 719468 + k * 146097) by lia.
  rewrite Z.div_add by lia.
  set (era := (days + 719468) / 146097).
  replace (days + 719468 + k * 146097 - (era + k) * 146097)
    with (days + 719468 - era * 146097) by lia.
  set (doe := days + 719468 - era * 146097).
  cbv beta iota zeta. f_equal. f_equal.
  match goal with
  | |- ?a + (era + k) * 400 + ?c = _ => generalize a c; intros; lia
  end.
Qed.

Lemma days_from_civil_shift y m d k :
  time.days_from_civil (y + 400 * k) m d = time.days_from_civil y m d + 146097 * k.
Proof.
  unfold time.days_from_civil.
  assert (E : (if m <=? 2 then y + 400 * k - 1 else y + 400 * k)
              = (if m <=? 2 then y - 1 else y) + k * 400) by (destruct (m <=? 2); lia).
  rewrite E. set (y' := if m <=? 2 then y - 1 else y).
  rewrite Z.div_add by lia. cbv zeta.
  set (era := y' / 400).
  replace (y' + k * 400 - (era + k) * 400) with (y' - era * 400) by lia.
  set (yoe := y' - era * 400).
  generalize (yoe / 4) (yoe / 100) ((153 * (if 2 <? m then m - 3 else m + 9) + 2) / 5).
  intros; lia.
Qed.

Lemma isLeap_shift y k : time.isLeap (y + 400 * k) = time.isLeap y.
Proof.
  unfold time.isLeap.
  replace (y + 400 * k) with (y + (100 * k) * 4) at 1 by lia.
  replace (y + 400 * k) with (y + (4 * k) * 100) at 1 by lia.
  replace (y + 400 * k) with (y + k * 400) by lia.
  by rewrite !Z.mod_add by lia.
Qed.

Lemma daysIn_shift m y k : time.daysIn m (y + 400 * k) = time.daysIn m y.
Proof. unfold time.daysIn. by rewrite isLeap_shift. Qed.

(** the date of a day is a date of the calendar, and it is the date of that
    day only *)
Lemma civil_round_trip days :
  let '(y, m, d) := time.civil_from_days days in
  time.days_from_civil y m d = days /\ 1 <= m <= 12 /\ 1 <= d <= time.daysIn m y.
Proof.
  set (k := (days + 719468) / 146097).
  set (r := (days + 719468) mod 146097).
  assert (Hr : 0 <= r < 146097) by (apply Z.mod_pos_bound; lia).
  assert (Hd : days = (r - 719468) + 146097 * k).
  { pose proof (Z.div_mod (days + 719468) 146097 ltac:(lia)). fold k r in H. lia. }
  clearbody k r. subst days. rewrite civil_from_days_shift.
  pose proof (all_from_spec civil_ok _ _ (r - 719468) civil_ok_cycle) as Hok.
  rewrite Z2Nat.id in Hok by lia. specialize (Hok ltac:(lia)).
  unfold civil_ok in Hok.
  destruct (time.civil_from_days (r - 719468)) as [[y m] d].
  rewrite !andb_true_iff in Hok. destruct Hok as ((((H1 & H2) & H3) & H4) & H5).
  rewrite days_from_civil_shift, daysIn_shift. lia.
Qed.

Lemma daysIn_le m y : time.daysIn m y <= 31.
Proof.
  unfold time.daysIn.
  destruct (m =? 2); [by destruct (time.isLeap y)|].
  by destruct ((m =? 4) || (m =? 6) || (m =? 9) || (m =? 11)).
Qed.

(** the text of a date with a year of four digits *)
Lemma Format_timeFormat_digits loc t :
  0 <= time.Year loc t <= 9999 ->
  let unix := t / time.nanos in
  let abs := unix + time.offset (time.lookup loc unix) in
  exists y1 y2 y3 y4 m1 m2 d1 d2 h1 h2 i1 i2 s1 s2 year month day,
    time.Format_timeFormat loc t
    = String (time.digit y1) (String (time.digit y2) (String (time.digit y3)
        (String (time.digit y4) (String "-" (String (time.digit m1) (String (time.digit m2)
          (String "-" (String (time.digit d1) (String (time.digit d2)
            (String "T" (String (time.digit h1) (String (time.digit h2)
              (String ":" (String (time.digit i1) (String (time.digit i2)
                (String ":" (String (time.digit s1) (String (time.digit s2) ""))))))))))))))))))
    /\ (0 <= y1 <= 9 /\ 0 <= y2 <= 9 /\ 0 <= y3 <= 9 /\ 0 <= y4 <= 9)
    /\ (0 <= m1 <= 9 /\ 0 <= m2 <= 9 /\ 0 <= d1 <= 9 /\ 0 <= d2 <= 9)
    /\ (0 <= h1 <= 9 /\ 0 <= h2 <= 9 /\ 0 <= i1 <= 9 /\ 0 <= i2 <= 9)
    /\ (0 <= s1 <= 9 /\ 0 <= s2 <= 9)
    /\ year = y1 * 1000 + y2 * 100 + y3 * 10 + y4
    /\ month = m1 * 10 + m2 /\ day = d1 * 10 + d2
    /\ 1 <= month <= 12 /\ 1 <= day <= time.daysIn month year
    /\ h1 * 10 + h2 < 24 /\ i1 * 10 + i2 < 60 /\ s1 * 10 + s2 < 60
    /\ time.days_from_civil year month day * 86400
       + (h1 * 10 + h2) * 3600 + (i1 * 10 + i2) * 60 + (s1 * 10 + s2) = abs.
Proof.
  intros Hy unix abs. unfold time.Year in Hy. fold unix abs in Hy.
  unfold time.Format_timeFormat. fold unix abs.
  pose proof (civil_round_trip (abs / 86400)) as Hc.
  destruct (time.civil_from_days (abs / 86400)) as [[y m] d]. simpl in Hy.
  destruct Hc as (Hdays & Hm & Hd).
  pose proof (daysIn_le m y) as Hle.
  set (secs := abs mod 86400).
  assert (Hsecs : 0 <= secs < 86400) by (apply Z.mod_pos_bound; lia).
  assert (Habs : abs = 86400 * (abs / 86400) + secs) by (apply Z.div_mod; lia).
  rewrite (appendInt_4 y) by lia.
  rewrite (appendInt_2 m), (appendInt_2 d) by lia.
  rewrite (appendInt_2 (secs / 3600)) by (Z.to_euclidean_division_equations; lia).
  rewrite (appendInt_2 (secs mod 3600 / 60)) by (Z.to_euclidean_division_equations; lia).
  rewrite (appendInt_2 (secs mod 60)) by (Z.to_euclidean_division_equations; lia).
  rewrite ?string_app_cons, ?string_app_nil.
  exists (y / 1000), (y / 100 mod 10), (y / 10 mod 10), (y mod 10),
    (m / 10), (m mod 10), (d / 10), (d mod 10),
    (secs / 3600 / 10), (secs / 3600 mod 10),
    (secs mod 3600 / 60 / 10), (secs mod 3600 / 60 mod 10),
    (secs mod 60 / 10), (secs mod 60 mod 10), y, m, d.
  split; [reflexivity|].
  clearbody secs. repeat split; Z.to_euclidean_division_equations; lia.
Qed.

(** reading the written date gives the Unix time that [time.Date] finds for
    the wall-clock reading *)
Lemma Parse_Format_timeFormat loc t :
  0 <= time.Year loc t <= 9999 ->
  time.ParseInLocation_timeFormat (time.Format_timeFormat loc t) loc
  = Ok (time.unix_of_local loc (t / time.nanos + time.offset (time.lookup loc (t / time.nanos)))
        * time.nanos).
Proof.
  intros Hy.
  destruct (Format_timeFormat_digits loc t Hy)
    as (y1 & y2 & y3 & y4 & m1 & m2 & d1 & d2 & h1 & h2 & i1 & i2 & s1 & s2 & y & m & d
        & -> & Hyd & Hmd & Hhd & Hsd & Ey & Em & Ed & Hm & Hd & Hh & Hi & Hs & Habs).
  unfold time.ParseInLocation_timeFormat.
  cbn [time.getyear]. rewrite !isDigit_digit by lia. cbn [andb time.bind_opt].
  rewrite !digit_val_digit by lia.
  cbn [time.skip]. change (Ascii.eqb "-" "-") with true. cbn [time.bind_opt time.getnum].
  rewrite !isDigit_digit by lia. rewrite !digit_val_digit by lia. cbn [time.bind_opt].
  rewrite <- Em, <- Ey.
  destruct (Z.leb_spec m 0); [lia|]. destruct (Z.ltb_spec 12 m); [lia|]. cbn [orb].
  cbn [time.skip]. change (Ascii.eqb "-" "-") with true. cbn [time.bind_opt time.getnum].
  rewrite !isDigit_digit by lia. rewrite !digit_val_digit by lia. cbn [time.bind_opt].
  rewrite <- Ed.
  cbn [time.skip]. change (Ascii.eqb "T" "T") with true. cbn [time.bind_opt time.getnum].
  rewrite !isDigit_digit by lia. rewrite !digit_val_digit by lia. cbn [time.bind_opt].
  destruct (Z.leb_spec 24 (h1 * 10 + h2)); [lia|].
  cbn [time.skip]. change (Ascii.eqb ":" ":") with true. cbn [time.bind_opt time.getnum].
  rewrite !isDigit_digit by lia. rewrite !digit_val_digit by lia. cbn [time.bind_opt].
  destruct (Z.leb_spec 60 (i1 * 10 + i2)); [lia|].
  cbn [time.skip]. change (Ascii.eqb ":" ":") with true. cbn [time.bind_opt time.getnum].
  rewrite !isDigit_digit by lia. rewrite !digit_val_digit by lia. cbn [time.bind_opt].
  destruct (Z.leb_spec 60 (s1 * 10 + s2)); [lia|].
  cbn [time.fraction]. change (String.eqb "" "") with true. cbn [negb].
  destruct (Z.ltb_spec d 1); [lia|]. destruct (Z.ltb_spec (time.daysIn m y) d); [lia|].
  cbn [orb]. unfold time.Date. by rewrite Habs, Z.add_0_r.
Qed.

Lemma Format_timeFormat_chars loc t :
  0 <= time.Year loc t <= 9999 ->
  all_chars digit_or_sign (time.Format_timeFormat loc t) = true.
Proof.
  intros Hy.
  destruct (Format_timeFormat_digits loc t Hy)
    as (y1 & y2 & y3 & y4 & m1 & m2 & d1 & d2 & h1 & h2 & i1 & i2 & s1 & s2 & y & m & d
        & -> & Hyd & Hmd & Hhd & Hsd & _).
  cbn [all_chars]. rewrite !digit_or_sign_digit by lia. reflexivity.
Qed.

(** in a zone without transitions the reading names the instant *)
Lemma unix_of_local_fixed loc unix :
  time.tx loc = [] ->
  time.unix_of_local loc (unix + time.offset (time.lookup loc unix)) = unix.
Proof.
  intros Htx. unfold time.unix_of_local, time.lookup. rewrite Htx. cbn [time.lookup_tx time.offset].
  destruct (time.first_offset loc =? 0) eqn:E; [apply Z.eqb_eq in E; lia|].
  by destruct (_ || _); lia.
Qed.
(** ** Trash info sidecar *)

Lemma os_lookup_insert fs p x : os.lookup (<[p := x]> fs) p = Some x.
Proof. unfold os.lookup. case_bool_decide; by rewrite lookup_insert_eq. Qed.

Lemma WriteFile_data t fs p d fs' :
  os.WriteFile t fs p d = (Ok tt, fs') -> os.OpenRead fs' p = Ok d.
Proof.
  unfold os.WriteFile, os.OpenRead.
  destruct (os.lookup fs p) as [i|].
  - destruct (i_dir i); [discriminate|]. intros [= <-]. by rewrite os_lookup_insert.
  - destruct (os.parent_is_dir fs p); [|discriminate]. intros [= <-]. by rewrite os_lookup_insert.
Qed.

(** the text of a sidecar *)
Lemma trashinfo_lines_of tb path date t :
  no_newline path = true ->
  all_chars digit_or_sign date = true ->
  time.ParseInLocation_timeFormat date (trashbin.Local tb) = Ok t ->
  trashbin.readInfoLines tb
    (strings.Split1 (trashbin.trashHeader +:+ nl +:+ "Path=" +:+ path
                     +:+ nl +:+ "DeletionDate=" +:+ date)
                    (ascii_of_nat 10)) "" None
  = Ok (path, Some t).
Proof.
  intros Hp Hdate Hparse.
  set (c := trashbin.trashHeader +:+ _).
  assert (Hc : strings.Split1 c (ascii_of_nat 10)
               = [trashbin.trashHeader; "Path=" +:+ path; "DeletionDate=" +:+ date]).
  { change c with (trashbin.trashHeader
                     +:+ String (ascii_of_nat 10)
                           (("Path=" +:+ path)
                            +:+ String (ascii_of_nat 10) ("DeletionDate=" +:+ date))).
    rewrite Split1_line by done.
    rewrite Split1_line by (simpl; exact Hp).
    rewrite Split1_newline_free; [done|].
    apply all_chars_no_newline. simpl. exact Hdate. }
  rewrite Hc. cbn [trashbin.readInfoLines].
  change (strings.HasPrefix trashbin.trashHeader "DeletionDate=") with false.
  change (strings.HasPrefix trashbin.trashHeader "Path=") with false.
  change (strings.HasPrefix ("Path=" +:+ path) "DeletionDate=") with false.
  change (strings.HasPrefix ("DeletionDate=" +:+ date) "Path=") with false.
  rewrite !HasPrefix_app, !TrimPrefix_app. cbv iota.
  rewrite TrimSpace_id by exact Hdate.
  by rewrite Hparse.
Qed.

Lemma trashinfo_lines tb path t :
  no_newline path = true ->
  0 <= time.Year (trashbin.Local tb) t <= 9999 ->
  trashbin.readInfoLines tb
    (strings.Split1 (trashbin.trashHeader +:+ nl +:+ "Path=" +:+ path
                     +:+ nl +:+ "DeletionDate="
                     +:+ time.Format_timeFormat (trashbin.Local tb) t)
                    (ascii_of_nat 10)) "" None
  = Ok (path,
        Some (time.unix_of_local (trashbin.Local tb)
                (t / time.nanos
                 + time.offset (time.lookup (trashbin.Local tb) (t / time.nanos)))
              * time.nanos)).
Proof.
  intros Hp Hy. apply trashinfo_lines_of; [done | by apply Format_timeFormat_chars |].
  by apply Parse_Format_timeFormat.
Qed.

(** X1: what [writeInfoFile] wrote, [readInfoFile] reads back, in the same
    local time zone, when the path has no line break and the local year of
    the deletion has four digits (0 to 9999): the path as given, and as time
    of the deletion the Unix time that [time.Date] finds for the wall-clock
    reading that was written.  In a zone without transitions that is the
    instant of the deletion cut to whole seconds. *)
Theorem X1_trashinfo_round_trip tb trashPath id path w w' :
  let loc := trashbin.Local tb in
  let unix := w_now w / time.nanos in
  let wall := unix + time.offset (time.lookup loc unix) in
  no_newline path = true ->
  0 <= time.Year loc (w_now w) <= 9999 ->
  trashbin.writeInfoFile tb trashPath id path w = (Ok tt, w') ->
  trashbin.readInfoFile tb trashPath id w'
  = (Ok (path, Some (time.unix_of_local loc wall * time.nanos)), w')
  /\ (time.tx loc = [] ->
      trashbin.readInfoFile tb trashPath id w' = (Ok (path, Some (unix * time.nanos)), w')).
Proof.
  intros loc unix wall Hp Hy. unfold trashbin.writeInfoFile, bind, now, on_fs.
  destruct (os.WriteFile _ _ _ _) as [[[]|e] fs'] eqn:E; [|discriminate].
  intros [= <-]. apply WriteFile_data in E.
  assert (Hread : trashbin.readInfoFile tb trashPath id (set_fs fs' w)
                  = (Ok (path, Some (time.unix_of_local loc wall * time.nanos)), set_fs fs' w)).
  { unfold trashbin.readInfoFile, bind, read_fs, lift_res. cbn [w_fs set_fs]. rewrite E.
    by rewrite trashinfo_lines. }
  split; [exact Hread|].
  intros Htx. rewrite Hread. unfold wall. by rewrite unix_of_local_fixed.
Qed.

Lemma X1_trashinfo_round_trip_witness :
  let tb := trashbin.MkTrashbin (fun _ => Ok sample.all_perms) (time.FixedZone 3600) in
  let trashPath := sample.P ["s"; ".Trash"] in
  let w := snd (on_fs (fun fs => os.MkdirAll 100 fs (sample.P ["s"; ".Trash"; "info"])) sample.w0) in
  let w' := snd (trashbin.writeInfoFile tb trashPath "k1" "a/f" w) in
  let loc := trashbin.Local tb in
  let unix := w_now w / time.nanos in
  let wall := unix + time.offset (time.lookup loc unix) in
  no_newline "a/f" = true /\
  0 <= time.Year loc (w_now w) <= 9999 /\
  trashbin.writeInfoFile tb trashPath "k1" "a/f" w = (Ok tt, w') /\
  trashbin.readInfoFile tb trashPath "k1" w'
  = (Ok ("a/f", Some (time.unix_of_local loc wall * time.nanos)), w')
  /\ (time.tx loc = [] ->
      trashbin.readInfoFile tb trashPath "k1" w' = (Ok ("a/f", Some (unix * time.nanos)), w')).
Proof.
  intros tb trashPath w w' loc unix wall.
  assert (H1 : no_newline "a/f" = true) by reflexivity.
  assert (H2 : 0 <= time.Year loc (w_now w) <= 9999) by (vm_compute; split; discriminate).
  assert (H3 : trashbin.writeInfoFile tb trashPath "k1" "a/f" w = (Ok tt, w'))
    by (vm_compute; reflexivity).
  split; [exact H1 | split; [exact H2 | split; [exact H3 |]]].
  exact (X1_trashinfo_round_trip tb trashPath "k1" "a/f" w w' H1 H2 H3).
Defined.

(** the layout on some dates, and a reading in a repeated hour: in a zone
    that went from +2h to +1h at 01:00 UTC on 2023-10-29, the wall-clock
    reading 02:30 written at 00:30 UTC is read back as 01:30 UTC *)
Example timeFormat_samples :
  let berlin := time.MkLocation 3600 [(1679792400, 7200); (1698541200, 3600)] in
  time.Format_timeFormat time.UTC 0 = "1970-01-01T00:00:00"
  /\ time.Format_timeFormat time.UTC 1700000000123456789 = "2023-11-14T22:13:20"
  /\ time.Format_timeFormat time.UTC (951782400 * time.nanos) = "2000-02-29T00:00:00"
  /\ time.Format_timeFormat berlin (1698539400 * time.nanos) = "2023-10-29T02:30:00"
  /\ time.ParseInLocation_timeFormat "2023-10-29T02:30:00" berlin
     = Ok (1698543000 * time.nanos)
  /\ time.ParseInLocation_timeFormat "2023-02-29T02:30:00" time.UTC
     = Err (ParseError "2023-02-29T02:30:00").
Proof. cbv zeta. repeat split; vm_compute; reflexivity. Qed.

(** ** Emptying and purging the trash *)

Lemma Join_plain_comps base c :
  plain c -> exists b cs, filepath.Join base [c] = FPath b (cs ++ [c]).
Proof.
  intros Hc. unfold filepath.Join. case_bool_decide; eexists _, _; by rewrite pushes_plain.
Qed.

Lemma not_root_snoc b cs (c : string) : FPath b (cs ++ [c]) <> filepath.root.
Proof. intros [= _ E]. by destruct cs. Qed.

Lemma os_lookup_snoc fs b cs (c : string) :
  os.lookup fs (FPath b (cs ++ [c])) = fs !! FPath b (cs ++ [c]).
Proof. apply os_lookup_nonroot. simpl. by destruct cs. Qed.

Lemma RemoveAll_gone fs p q :
  filepath.at_or_under p q -> snd (os.RemoveAll fs p) !! q = None.
Proof.
  intros H. unfold os.RemoveAll. simpl. apply map_lookup_filter_None. right.
  intros x _ Hn. by apply Hn.
Qed.

Lemma RemoveAll_other fs p q :
  ~ filepath.at_or_under p q -> snd (os.RemoveAll fs p) !! q = fs !! q.
Proof.
  intros H. unfold os.RemoveAll. simpl. destruct (fs !! q) as [x|] eqn:E.
  - by apply map_lookup_filter_Some.
  - apply map_lookup_filter_None. by left.
Qed.

Lemma RemoveAll_None fs p q : fs !! q = None -> snd (os.RemoveAll fs p) !! q = None.
Proof.
  intros H. unfold os.RemoveAll. simpl. apply map_lookup_filter_None. by left.
Qed.

Lemma NodeFromResource_SpaceRoot r w n :
  fst (lookup_nodes.NodeFromResource r w) = Ok n ->
  SpaceRoot n = (ref_SpaceId r, ref_SpaceId r).
Proof.
  unfold lookup_nodes.NodeFromResource, lookup_nodes.NodeFromID, bind.
  case_bool_decide; [discriminate|]. unfold node.ReadNode at 1.
  case_bool_decide; [by intros [= <-]|]. unfold get_world.
  destruct (lookup.IDsForPath _ _) as [[? ?]|?]; by intros [= <-].
Qed.

Lemma NodeFromResource_run r w n :
  fst (lookup_nodes.NodeFromResource r w) = Ok n ->
  lookup_nodes.NodeFromResource r w = (Ok n, w).
Proof.
  intros H. pose proof (NodeFromResource_pure r w) as Hp.
  destruct (lookup_nodes.NodeFromResource r w). simpl in *. congruence.
Qed.

(** X2: a caller that holds ListRecycle or PurgeRecycle empties the trash
    of the space without error: afterwards nothing is left at or below the
    [files] and [info] directories of the trash, every other entry of the
    tree and the id cache are what they were, and listing the trash gives no
    item. *)
Theorem X2_EmptyRecycle_then_ListRecycle tb r w n rp rel :
  let trashRoot := filepath.Join (lookup.InternalPath w (ref_SpaceId r) (ref_SpaceId r))
                                 [".Trash"] in
  let files := filepath.Join trashRoot ["files"] in
  let info := filepath.Join trashRoot ["info"] in
  fst (lookup_nodes.NodeFromResource r w) = Ok n ->
  trashbin.AssembleTrashPermissions tb n = Ok rp ->
  provider.ListRecycle rp = true \/ provider.PurgeRecycle rp = true ->
  exists w',
    trashbin.EmptyRecycle tb r w = (Ok tt, w')
    /\ (forall q, filepath.at_or_under files q \/ filepath.at_or_under info q ->
                  w_fs w' !! q = None)
    /\ (forall q, ~ filepath.at_or_under files q -> ~ filepath.at_or_under info q ->
                  w_fs w' !! q = w_fs w !! q)
    /\ w_ids w' = w_ids w /\ w_paths w' = w_paths w
    /\ trashbin.ListRecycle tb (ref_SpaceId r) "" rel w' = (Ok [], w').
Proof.
  intros trashRoot files info Hn Hrp Hperm.
  pose proof (NodeFromResource_SpaceRoot _ _ _ Hn) as Hroot.
  apply NodeFromResource_run in Hn.
  unfold trashbin.EmptyRecycle. rewrite (bind_ok _ _ _ _ _ Hn), Hrp.
  replace (negb (provider.ListRecycle rp) && negb (provider.PurgeRecycle rp)) with false
    by (destruct Hperm as [-> | ->]; simpl; by rewrite ?andb_false_r).
  unfold bind, get_world, on_fs. cbn [w_fs set_fs].
  unfold trashbin.trashRootForNode, SpaceRoot_InternalPath. rewrite Hroot. cbn [fst snd].
  fold trashRoot. fold files. fold info.
  change (os.RemoveAll ?fs ?p) with (Ok tt, snd (os.RemoveAll fs p)).
  cbv iota. eexists. split; [reflexivity|]. cbn [w_fs set_fs w_ids w_paths].
  split; [|split; [|split; [done | split; [done|]]]].
  - intros q [Hq | Hq].
    + apply RemoveAll_None. by apply RemoveAll_gone.
    + by apply RemoveAll_gone.
  - intros q Hf Hi. by rewrite !RemoveAll_other.
  - unfold trashbin.ListRecycle, bind, get_world. rewrite bool_decide_eq_false_2 by (by intros []).
    unfold ret at 1. cbv iota beta.
    change (lookup.InternalPath (set_fs ?f (set_fs ?g w)) ?a ?b) with (lookup.InternalPath w a b).
    fold trashRoot. fold files. cbn [w_fs set_fs].
    destruct (Join_plain_comps trashRoot "files" plain_files) as (b & cs & Hfiles).
    fold files in Hfiles.
    unfold os.ReadDir. rewrite Hfiles, os_lookup_snoc, <- Hfiles.
    rewrite RemoveAll_None; [done|]. apply RemoveAll_gone, at_or_under_refl.
Qed.

Lemma X2_EmptyRecycle_then_ListRecycle_witness :
  let tb := sample.tb sample.all_perms in
  let r := sample.ref_space in
  let w := sample.w_trashed in
  let n := MkNode "space1" "space1" "" "" 0 "" true ("space1", "space1") in
  let trashRoot := filepath.Join (lookup.InternalPath w (ref_SpaceId r) (ref_SpaceId r))
                                 [".Trash"] in
  let files := filepath.Join trashRoot ["files"] in
  let info := filepath.Join trashRoot ["info"] in
  fst (lookup_nodes.NodeFromResource r w) = Ok n /\
  trashbin.AssembleTrashPermissions tb n = Ok sample.all_perms /\
  (provider.ListRecycle sample.all_perms = true \/ provider.PurgeRecycle sample.all_perms = true) /\
  exists w',
    trashbin.EmptyRecycle tb r w = (Ok tt, w')
    /\ (forall q, filepath.at_or_under files q \/ filepath.at_or_under info q ->
                  w_fs w' !! q = None)
    /\ (forall q, ~ filepath.at_or_under files q -> ~ filepath.at_or_under info q ->
                  w_fs w' !! q = w_fs w !! q)
    /\ w_ids w' = w_ids w /\ w_paths w' = w_paths w
    /\ trashbin.ListRecycle tb (ref_SpaceId r) "" "" w' = (Ok [], w').
Proof.
  intros tb r w n trashRoot files info.
  assert (H1 : fst (lookup_nodes.NodeFromResource r w) = Ok n) by (vm_compute; reflexivity).
  assert (H2 : trashbin.AssembleTrashPermissions tb n = Ok sample.all_perms) by reflexivity.
  assert (H3 : provider.ListRecycle sample.all_perms = true
               \/ provider.PurgeRecycle sample.all_perms = true) by (by left).
  split; [exact H1 | split; [exact H2 | split; [exact H3 |]]].
  exact (X2_EmptyRecycle_then_ListRecycle tb r w n sample.all_perms "" H1 H2 H3).
Defined.

(** X3: with the PurgeRecycle permission, [PurgeRecycleItem] removes the
    entry the key and the relative path name below the trash together with
    everything under it; when the relative path names the item as a whole it
    then removes the sidecar of the key.  No other entry of the tree changes,
    nor does the id cache.  Purging below an item always succeeds. *)
Theorem X3_PurgeRecycleItem_effect tb r key rel w n rp res w' :
  let trashRoot := filepath.Join (lookup.InternalPath w (ref_SpaceId r) (ref_SpaceId r))
                                 [".Trash"] in
  let target := filepath.Join trashRoot ["files"; key +:+ ".trashitem"; rel] in
  let info := filepath.Join trashRoot ["info"; key +:+ ".trashinfo"] in
  fst (lookup_nodes.NodeFromResource r w) = Ok n ->
  trashbin.AssembleTrashPermissions tb n = Ok rp ->
  provider.PurgeRecycle rp = true ->
  trashbin.PurgeRecycleItem tb r key rel w = (res, w') ->
  (forall q, filepath.at_or_under target q -> w_fs w' !! q = None)
  /\ (forall q, ~ filepath.at_or_under target q -> q <> info -> w_fs w' !! q = w_fs w !! q)
  /\ (comps (filepath.of_string rel) <> [] ->
      res = Ok tt /\ (~ filepath.at_or_under target info -> w_fs w' !! info = w_fs w !! info))
  /\ (comps (filepath.of_string rel) = [] -> res = Ok tt -> w_fs w' !! info = None)
  /\ w_ids w' = w_ids w /\ w_paths w' = w_paths w.
Proof.
  intros trashRoot target info Hn Hrp Hperm.
  pose proof (NodeFromResource_SpaceRoot _ _ _ Hn) as Hroot.
  apply NodeFromResource_run in Hn.
  unfold trashbin.PurgeRecycleItem. rewrite (bind_ok _ _ _ _ _ Hn), Hrp, Hperm. cbn [negb].
  unfold bind at 1, get_world at 1.
  unfold trashbin.trashRootForNode, SpaceRoot_InternalPath. rewrite Hroot. cbn [fst snd].
  fold trashRoot. fold target. fold info.
  unfold bind, on_fs. cbn [w_fs set_fs].
  change (os.RemoveAll ?fs ?p) with (Ok tt, snd (os.RemoveAll fs p)). cbv iota.
  set (fs1 := snd (os.RemoveAll (w_fs w) target)).
  case_bool_decide as Hrel.
  - unfold os.Remove. cbn [w_fs set_fs].
    destruct (fs1 !! info) as [x|] eqn:Ex.
    + destruct (i_dir x && os.has_children fs1 info); intros [= <- <-]; cbn [w_fs set_fs w_ids w_paths].
      * split; [intros q Hq; by apply RemoveAll_gone|].
        split; [intros q Hq _; by apply RemoveAll_other|].
        split; [done|]. split; [intros _ [=]|]. done.
      * split.
        { intros q Hq. apply lookup_delete_None. right. by apply RemoveAll_gone. }
        split.
        { intros q Hq Hi. rewrite lookup_delete_ne by done. by apply RemoveAll_other. }
        split; [done|]. split; [intros _ _; apply lookup_delete_eq|]. done.
    + intros [= <- <-]. cbn [w_fs set_fs w_ids w_paths].
      split; [intros q Hq; by apply RemoveAll_gone|].
      split; [intros q Hq _; by apply RemoveAll_other|].
      split; [done|]. split; [intros _ [=]|]. done.
  - unfold ret. intros [= <- <-]. cbn [w_fs set_fs w_ids w_paths].
    split; [intros q Hq; by apply RemoveAll_gone|].
    split; [intros q Hq _; by apply RemoveAll_other|].
    split; [intros _; split; [done | intros Hi; by apply RemoveAll_other]|].
    split; [done|]. done.
Qed.

Lemma X3_PurgeRecycleItem_effect_witness :
  let tb := sample.tb sample.all_perms in
  let r := sample.ref_space in
  let w := sample.w_trashed in
  let n := MkNode "space1" "space1" "" "" 0 "" true ("space1", "space1") in
  let res := fst (trashbin.PurgeRecycleItem tb r "6f1c0a" "/" w) in
  let w' := snd (trashbin.PurgeRecycleItem tb r "6f1c0a" "/" w) in
  let trashRoot := filepath.Join (lookup.InternalPath w (ref_SpaceId r) (ref_SpaceId r))
                                 [".Trash"] in
  let target := filepath.Join trashRoot ["files"; "6f1c0a" +:+ ".trashitem"; "/"] in
  let info := filepath.Join trashRoot ["info"; "6f1c0a" +:+ ".trashinfo"] in
  fst (lookup_nodes.NodeFromResource r w) = Ok n /\
  trashbin.AssembleTrashPermissions tb n = Ok sample.all_perms /\
  provider.PurgeRecycle sample.all_perms = true /\
  trashbin.PurgeRecycleItem tb r "6f1c0a" "/" w = (res, w') /\
  (forall q, filepath.at_or_under target q -> w_fs w' !! q = None)
  /\ (forall q, ~ filepath.at_or_under target q -> q <> info -> w_fs w' !! q = w_fs w !! q)
  /\ (comps (filepath.of_string "/") <> [] ->
      res = Ok tt /\ (~ filepath.at_or_under target info -> w_fs w' !! info = w_fs w !! info))
  /\ (comps (filepath.of_string "/") = [] -> res = Ok tt -> w_fs w' !! info = None)
  /\ w_ids w' = w_ids w /\ w_paths w' = w_paths w.
Proof.
  intros tb r w n res w' trashRoot target info.
  assert (H1 : fst (lookup_nodes.NodeFromResource r w) = Ok n) by (vm_compute; reflexivity).
  assert (H2 : trashbin.AssembleTrashPermissions tb n = Ok sample.all_perms) by reflexivity.
  assert (H3 : provider.PurgeRecycle sample.all_perms = true) by reflexivity.
  assert (H4 : trashbin.PurgeRecycleItem tb r "6f1c0a" "/" w = (res, w'))
    by (unfold res, w'; by destruct (trashbin.PurgeRecycleItem tb r "6f1c0a" "/" w)).
  split; [exact H1 | split; [exact H2 | split; [exact H3 | split; [exact H4 |]]]].
  exact (X3_PurgeRecycleItem_effect tb r "6f1c0a" "/" w n sample.all_perms res w' H1 H2 H3 H4).
Defined.

(** the purge of the sample item succeeds and removes item and sidecar *)
Example PurgeRecycleItem_sample :
  let r := trashbin.PurgeRecycleItem (sample.tb sample.all_perms) sample.ref_space "6f1c0a" "/"
             sample.w_trashed in
  fst r = Ok tt
  /\ w_fs (snd r) !! sample.P ["s"; ".Trash"; "files"; "6f1c0a.trashitem"] = None
  /\ w_fs (snd r) !! sample.P ["s"; ".Trash"; "info"; "6f1c0a.trashinfo"] = None.
Proof. cbv zeta. repeat split; vm_compute; reflexivity. Qed.

(** X4: without the PurgeRecycle permission [PurgeRecycleItem] changes
    nothing, and its error is PermissionDenied for a caller that holds
    [Stat] and NotFound for one that does not. *)
Theorem X4_PurgeRecycleItem_denied tb r key rel w n rp :
  fst (lookup_nodes.NodeFromResource r w) = Ok n ->
  trashbin.AssembleTrashPermissions tb n = Ok rp ->
  provider.PurgeRecycle rp = false ->
  trashbin.PurgeRecycleItem tb r key rel w
  = (Err (if provider.Stat rp then PermissionDenied key else NotFound key), w).
Proof.
  intros Hn Hrp Hp. apply NodeFromResource_run in Hn.
  by apply PurgeRecycleItem_denied with (n := n).
Qed.

Lemma X4_PurgeRecycleItem_denied_witness :
  let tb := sample.tb sample.lister in
  let n := MkNode "space1" "space1" "" "" 0 "" true ("space1", "space1") in
  fst (lookup_nodes.NodeFromResource sample.ref_space sample.w_trashed) = Ok n /\
  trashbin.AssembleTrashPermissions tb n = Ok sample.lister /\
  provider.PurgeRecycle sample.lister = false /\
  trashbin.PurgeRecycleItem tb sample.ref_space "6f1c0a" "/" sample.w_trashed
  = (Err (if provider.Stat sample.lister then PermissionDenied "6f1c0a" else NotFound "6f1c0a"),
     sample.w_trashed).
Proof.
  intros tb n.
  assert (H1 : fst (lookup_nodes.NodeFromResource sample.ref_space sample.w_trashed) = Ok n)
    by (vm_compute; reflexivity).
  assert (H2 : trashbin.AssembleTrashPermissions tb n = Ok sample.lister) by reflexivity.
  assert (H3 : provider.PurgeRecycle sample.lister = false) by reflexivity.
  split; [exact H1 | split; [exact H2 | split; [exact H3 |]]].
  exact (X4_PurgeRecycleItem_denied tb sample.ref_space "6f1c0a" "/" sample.w_trashed n
           sample.lister H1 H2 H3).
Defined.

(** ** Restoring from the trash *)

(** X5: [RestoreRecycleItem] does not lose the item.  Whatever the outcome,
    an entry of the kind and with the content of the trashed entry is found
    at its place in the trash or at the place it was to be restored to
    (sidecar path apart). *)
Theorem X5_RestoreRecycleItem_keeps_item tb spaceID key rel ref w res w' i :
  let trashRoot := filepath.Join (lookup.InternalPath w spaceID spaceID) [".Trash"] in
  let trashPath := filepath.Join trashRoot ["files"; key +:+ ".trashitem"; rel] in
  let restorePath :=
    filepath.Join (lookup.InternalPath w (ref_SpaceId ref) (ref_OpaqueId ref)) [ref_Path ref] in
  let info := filepath.Join trashRoot ["info"; key +:+ ".trashinfo"] in
  w_fs w !! trashPath = Some i ->
  trashPath <> info ->
  restorePath <> info ->
  trashbin.RestoreRecycleItem tb spaceID key rel ref w = (res, w') ->
  exists j,
    (w_fs w' !! trashPath = Some j \/ w_fs w' !! restorePath = Some j)
    /\ i_dir j = i_dir i /\ i_data j = i_data i.
Proof.
  intros trashRoot trashPath restorePath info Hi Hti Hri.
  unfold trashbin.RestoreRecycleItem.
  unfold bind at 1, get_world at 1. fold trashRoot. fold trashPath. fold info.
  unfold bind at 1. unfold lookup_nodes.NodeFromID.
  case_bool_decide as Hop; [intros [= <- <-]; eauto|].
  unfold node.ReadNode at 1. unfold node_InternalPath. cbn [SpaceID ID]. fold restorePath.
  unfold bind at 1, MetadataBackend.IdentifyPath at 1. cbn [fst snd].
  unfold bind at 1, MetadataBackend.IdentifyPath at 1. cbn [fst snd].
  case_bool_decide as Hpe; [intros [= <- <-]; eauto|].
  unfold bind at 1, MetadataBackend.Set_, MetadataBackend.SetMultiple, on_fs,
    MetadataBackend.set_attrs. cbn [mn_InternalPath].
  rewrite (os_lookup_Some _ _ _ Hi).
  set (i' := with_xattrs _ i).
  set (fs1 := <[trashPath := i']> (w_fs w)).
  assert (H1 : fs1 !! trashPath = Some i') by apply lookup_insert_eq.
  unfold bind at 1.
  match goal with |- context [bind (try ?a) ?b] => set (K := bind (try a) b) end.
  assert (Hfin : forall (fs2 : filetree) (k : fpath) r0 w0,
            fs2 !! k = Some i' -> k = trashPath \/ k = restorePath ->
            K (set_fs fs2 (set_fs fs1 w)) = (r0, w0) ->
            exists j, (w_fs w0 !! trashPath = Some j \/ w_fs w0 !! restorePath = Some j)
                      /\ i_dir j = i_dir i /\ i_data j = i_data i).
  { intros fs2 k r0 w0 Hk Hkk. unfold K.
    unfold bind, try, lookup.CacheID, IDCache.Set_, modify. cbn [w_fs set_fs set_cache].
    assert (Hki : k <> info) by (destruct Hkk; congruence).
    case_bool_decide.
    - unfold on_fs, os.Remove. cbn [w_fs set_fs set_cache].
      destruct (fs2 !! info) as [x|].
      + destruct (i_dir x && os.has_children fs2 info); intros [= <- <-];
          exists i'; cbn [w_fs set_fs]; rewrite ?lookup_delete_ne by done;
          (split; [destruct Hkk; subst; eauto | done]).
      + intros [= <- <-]. exists i'. cbn [w_fs set_fs]. split; [destruct Hkk; subst; eauto | done].
    - unfold ret. intros [= <- <-]. exists i'. cbn [w_fs set_fs set_cache].
      split; [destruct Hkk; subst; eauto | done]. }
  clearbody K.
  unfold on_fs, os.Rename. cbn [w_fs set_fs]. rewrite H1.
  destruct (negb (os.parent_is_dir fs1 restorePath));
    [intros [= <- <-]; exists i'; cbn [w_fs set_fs]; eauto|].
  destruct (decide (filepath.under trashPath restorePath)) as [Hu|Hu];
    [rewrite bool_decide_eq_true_2 by done; intros [= <- <-]; exists i'; cbn [w_fs set_fs]; eauto|].
  rewrite bool_decide_eq_false_2 by done.
  destruct (decide (trashPath = restorePath)) as [Heq|Heq].
  - rewrite bool_decide_eq_true_2 by done.
    intros H. by eapply (Hfin fs1 trashPath); [exact H1 | left | exact H].
  - rewrite bool_decide_eq_false_2 by done.
    destruct (fs1 !! restorePath) as [j|] eqn:Ej.
    + destruct (i_dir i' && negb (i_dir j));
        [intros [= <- <-]; exists i'; cbn [w_fs set_fs]; eauto|].
      destruct (negb (i_dir i') && i_dir j);
        [intros [= <- <-]; exists i'; cbn [w_fs set_fs]; eauto|].
      destruct (i_dir j && os.has_children fs1 restorePath);
        [intros [= <- <-]; exists i'; cbn [w_fs set_fs]; eauto|].
      intros H. by eapply (Hfin _ restorePath); [apply rename_tree_dst | right | exact H].
    + intros H. by eapply (Hfin _ restorePath); [apply rename_tree_dst | right | exact H].
Qed.

Lemma X5_RestoreRecycleItem_keeps_item_witness :
  let tb := sample.tb sample.all_perms in
  let w := sample.w_trashed in
  let ref := Ref "space1" "ida" "f" in
  let i := Inode false "abcdefgh" 12 0 sample.f_attrs in
  let res := fst (trashbin.RestoreRecycleItem tb "space1" "6f1c0a" "/" ref w) in
  let w' := snd (trashbin.RestoreRecycleItem tb "space1" "6f1c0a" "/" ref w) in
  let trashRoot := filepath.Join (lookup.InternalPath w "space1" "space1") [".Trash"] in
  let trashPath := filepath.Join trashRoot ["files"; "6f1c0a" +:+ ".trashitem"; "/"] in
  let restorePath :=
    filepath.Join (lookup.InternalPath w (ref_SpaceId ref) (ref_OpaqueId ref)) [ref_Path ref] in
  let info := filepath.Join trashRoot ["info"; "6f1c0a" +:+ ".trashinfo"] in
  w_fs w !! trashPath = Some i /\
  trashPath <> info /\
  restorePath <> info /\
  trashbin.RestoreRecycleItem tb "space1" "6f1c0a" "/" ref w = (res, w') /\
  exists j,
    (w_fs w' !! trashPath = Some j \/ w_fs w' !! restorePath = Some j)
    /\ i_dir j = i_dir i /\ i_data j = i_data i.
Proof.
  intros tb w ref i res w' trashRoot trashPath restorePath info.
  assert (H1 : w_fs w !! trashPath = Some i) by (vm_compute; reflexivity).
  assert (H2 : trashPath <> info) by (vm_compute; discriminate).
  assert (H3 : restorePath <> info) by (vm_compute; discriminate).
  assert (H4 : trashbin.RestoreRecycleItem tb "space1" "6f1c0a" "/" ref w = (res, w'))
    by (unfold res, w'; by destruct (trashbin.RestoreRecycleItem tb "space1" "6f1c0a" "/" ref w)).
  split; [exact H1 | split; [exact H2 | split; [exact H3 | split; [exact H4 |]]]].
  exact (X5_RestoreRecycleItem_keeps_item tb "space1" "6f1c0a" "/" ref w res w' i H1 H2 H3 H4).
Defined.

(** ** The debouncer: quiet period and mutual exclusion *)

(** X6: a request restarts the timer of its path.  A timer that expires
    before the delay has passed since the latest request does nothing; once
    the delay has passed, and no scan of the path is in progress, exactly one
    scan of the path is started, with at least the flags of that request, and
    the path moves from pending to in progress. *)
Theorem X6_Debounce_quiet_period t1 t it d :
  after d <> 0 ->
  Path it ∉ inProgress d ->
  (t < t1 + after d ->
   tree.fire t (Path it) (tree.Debounce t1 it d) = tree.Debounce t1 it d)
  /\ (t1 + after d <= t ->
      exists force recurse,
        tree.fire t (Path it) (tree.Debounce t1 it d)
        = Debouncer (after d) (delete (Path it) (pending d)) ({[Path it]} ∪ inProgress d)
                    (ran d ++ [ScanItem (Path it) force recurse])
        /\ (ForceRescan it = true -> force = true)
        /\ (Recurse it = true -> recurse = true)).
Proof.
  intros Ha Hi.
  pose proof (Debounce_pending t1 it d Ha) as Hp.
  assert (Hd : tree.Debounce t1 it d
               = Debouncer (after d)
                   (<[Path it := QueueItem it
                        (ForceRescan it || from_option (fun q => ForceRescan (item q)) false
                                             (pending d !! Path it))
                        (Recurse it || from_option (fun q => Recurse (item q)) false
                                             (pending d !! Path it))
                        (t1 + after d)]> (pending d))
                   (inProgress d) (ran d)).
  { unfold tree.Debounce. rewrite bool_decide_eq_false_2 by done.
    destruct (pending d !! Path it); simpl; by rewrite ?orb_false_r. }
  split.
  - intros Ht. unfold tree.fire. rewrite Hp. cbn [deadline].
    by rewrite bool_decide_eq_true_2.
  - intros Ht. unfold tree.fire. rewrite Hp. cbn [deadline timer_force timer_recurse].
    rewrite bool_decide_eq_false_2 by lia. rewrite Hd. cbn [inProgress pending ran after].
    rewrite bool_decide_eq_false_2 by done.
    eexists _, _. split; [by rewrite delete_insert_eq|].
    split; intros ->; done.
Qed.

Lemma X6_Debounce_quiet_period_witness :
  let d := tree.NewScanDebouncer 5 in
  let it := ScanItem (sample.P ["s"; "a"]) true false in
  after d <> 0 /\
  (Path it ∉ inProgress d) /\
  (7 < 3 + after d ->
   tree.fire 7 (Path it) (tree.Debounce 3 it d) = tree.Debounce 3 it d)
  /\ (3 + after d <= 7 ->
      exists force recurse,
        tree.fire 7 (Path it) (tree.Debounce 3 it d)
        = Debouncer (after d) (delete (Path it) (pending d)) ({[Path it]} ∪ inProgress d)
                    (ran d ++ [ScanItem (Path it) force recurse])
        /\ (ForceRescan it = true -> force = true)
        /\ (Recurse it = true -> recurse = true)).
Proof.
  intros d it.
  assert (H1 : after d <> 0) by discriminate.
  assert (H2 : Path it ∉ inProgress d) by (simpl; apply not_elem_of_empty).
  split; [exact H1 | split; [exact H2 |]].
  exact (X6_Debounce_quiet_period 3 7 it d H1 H2).
Defined.

Lemma started_snoc p d it :
  length (filter (fun x => Path x = p) (ran d ++ [it]))
  = (started p d + if decide (Path it = p) then 1 else 0)%nat.
Proof.
  unfold started. rewrite filter_app, length_app. f_equal.
  rewrite filter_cons, filter_nil. by case_decide.
Qed.

Lemma deb_step_after st e :
  after (snd st) <> 0 -> after (snd (tree.deb_step st e)) = after (snd st).
Proof.
  destruct st as [t d]. intros Ha. destruct e as [it|q|q|dt]; simpl in *; try done.
  - unfold tree.Debounce. by rewrite bool_decide_eq_false_2.
  - unfold tree.fire. destruct (pending d !! q); [|done].
    repeat case_bool_decide; done.
Qed.

Lemma running_started_here (p : fpath) (X : gset fpath) :
  p ∉ X ->
  (if decide (p ∈ {[p]} ∪ X) then 1%nat else 0%nat) = 1%nat
  /\ (if decide (p ∈ X) then 1%nat else 0%nat) = 0%nat.
Proof.
  intros H. split.
  - apply decide_True. apply elem_of_union. left. by apply elem_of_singleton.
  - by apply decide_False.
Qed.

Lemma running_started_other (p q : fpath) (X : gset fpath) :
  q <> p ->
  (if decide (p ∈ {[q]} ∪ X) then 1%nat else 0%nat) = (if decide (p ∈ X) then 1%nat else 0%nat).
Proof.
  intros H. destruct (decide (p ∈ X)) as [Hp|Hp].
  - apply decide_True. apply elem_of_union. by right.
  - apply decide_False. intros [Hq%elem_of_singleton | Hq]%elem_of_union; [congruence | done].
Qed.

Lemma running_finished_here (p : fpath) (X : gset fpath) :
  p ∈ X ->
  (if decide (p ∈ X ∖ {[p]}) then 1%nat else 0%nat) = 0%nat
  /\ (if decide (p ∈ X) then 1%nat else 0%nat) = 1%nat.
Proof.
  intros H. split.
  - apply decide_False. intros [_ Hn]%elem_of_difference. apply Hn. by apply elem_of_singleton.
  - by apply decide_True.
Qed.

Lemma running_finished_other (p q : fpath) (X : gset fpath) :
  q <> p ->
  (if decide (p ∈ X ∖ {[q]}) then 1%nat else 0%nat) = (if decide (p ∈ X) then 1%nat else 0%nat).
Proof.
  intros H. destruct (decide (p ∈ X)) as [Hp|Hp].
  - apply decide_True. apply elem_of_difference. split; [done|].
    intros Hq%elem_of_singleton. congruence.
  - apply decide_False. by intros [Hq _]%elem_of_difference.
Qed.

(** one step keeps the balance between scans started, scans finished and
    the scan in progress *)
Lemma deb_step_balance p st e :
  after (snd st) <> 0 ->
  match e with tree.EvDone q => q ∈ inProgress (snd st) | _ => True end ->
  (started p (snd (tree.deb_step st e)) + running p (snd st) + finished p [e]
   = started p (snd st) + running p (snd (tree.deb_step st e)) + 2 * finished p [e])%nat.
Proof.
  destruct st as [t d]. cbn [snd]. intros Ha He.
  unfold finished. rewrite filter_cons, filter_nil.
  destruct e as [it|q|q|dt]; cbn [tree.deb_step snd].
  - rewrite decide_False by discriminate. simpl.
    unfold tree.Debounce. rewrite bool_decide_eq_false_2 by done.
    unfold started, running. simpl. lia.
  - rewrite decide_False by discriminate. simpl.
    unfold tree.fire. destruct (pending d !! q) as [x|]; [|lia].
    case_bool_decide; [lia|]. case_bool_decide as Hin; [unfold started, running; simpl; lia|].
    unfold started at 1. cbn [ran]. rewrite started_snoc. cbn [Path].
    unfold running. cbn [inProgress].
    destruct (decide (q = p)) as [Heq|Hne].
    + subst q. cbv iota.
      destruct (running_started_here p (inProgress d) Hin) as [E1 E2]. rewrite E1, E2. lia.
    + cbv iota. rewrite (running_started_other p q _ Hne). lia.
  - unfold tree.fire_done, started, running. cbn [ran inProgress].
    destruct (decide (q = p)) as [Heq|Hne].
    + subst q. rewrite (decide_True (P := tree.EvDone p = tree.EvDone p)) by done.
      destruct (running_finished_here p (inProgress d) He) as [E1 E2]. rewrite E1, E2.
      simpl. lia.
    + rewrite (decide_False (P := tree.EvDone q = tree.EvDone p)) by congruence.
      rewrite (running_finished_other p q _ Hne). simpl. lia.
  - rewrite decide_False by discriminate. simpl. lia.
Qed.

Lemma finished_cons p e es : finished p (e :: es) = (finished p [e] + finished p es)%nat.
Proof.
  unfold finished. rewrite !filter_cons, filter_nil. case_decide; simpl; lia.
Qed.

Lemma deb_run_balance p es : forall st,
  after (snd st) <> 0 ->
  deb_trace_ok st es ->
  (started p (snd (tree.deb_run st es)) + running p (snd st)
   = started p (snd st) + finished p es + running p (snd (tree.deb_run st es)))%nat.
Proof.
  induction es as [|e es IH]; intros st Ha Hok.
  - simpl. unfold finished. simpl. lia.
  - destruct Hok as [He Hok]. cbn [tree.deb_run fold_left].
    change (fold_left tree.deb_step es (tree.deb_step st e))
      with (tree.deb_run (tree.deb_step st e) es).
    pose proof (deb_step_balance p st e Ha He) as H1.
    assert (Ha' : after (snd (tree.deb_step st e)) <> 0) by (by rewrite deb_step_after).
    pose proof (IH _ Ha' Hok) as H2.
    rewrite finished_cons. lia.
Qed.

(** X7: the debouncer never runs two scans of one path at a time.  In every
    run of a debouncer with a delay, started with nothing in progress, in
    which a scan reports its end only while it is in progress, the scans
    started for a path are the scans of it that have finished, plus one
    exactly when the path is in progress. *)
Theorem X7_debouncer_one_scan_per_path p t0 d0 es :
  after d0 <> 0 ->
  ran d0 = [] ->
  (inProgress d0 = ∅) ->
  deb_trace_ok (t0, d0) es ->
  let d := snd (tree.deb_run (t0, d0) es) in
  started p d = (finished p es + running p d)%nat
  /\ (running p d <= 1)%nat.
Proof.
  intros Ha Hr Hi Hok d.
  pose proof (deb_run_balance p es (t0, d0) Ha Hok) as H. cbn [snd] in H. fold d in H.
  assert (H0 : started p d0 = 0%nat) by (unfold started; by rewrite Hr).
  assert (H1 : running p d0 = 0%nat).
  { unfold running. rewrite Hi. apply decide_False, not_elem_of_empty. }
  split; [lia|]. unfold running. case_decide; lia.
Qed.

Lemma X7_debouncer_one_scan_per_path_witness :
  let p := sample.P ["s"; "a"] in
  let d0 := tree.NewScanDebouncer 5 in
  let es := [tree.EvDebounce (ScanItem p true true); tree.EvSleep 5; tree.EvTimer p;
             tree.EvDebounce (ScanItem p false false); tree.EvSleep 5; tree.EvTimer p;
             tree.EvDone p; tree.EvSleep 5; tree.EvTimer p] in
  after d0 <> 0 /\
  ran d0 = [] /\
  (inProgress d0 = ∅) /\
  deb_trace_ok (0, d0) es /\
  let d := snd (tree.deb_run (0, d0) es) in
  started p d = (finished p es + running p d)%nat
  /\ (running p d <= 1)%nat.
Proof.
  intros p d0 es.
  assert (H1 : after d0 <> 0) by discriminate.
  assert (H2 : ran d0 = []) by reflexivity.
  assert (H3 : inProgress d0 = ∅) by reflexivity.
  assert (H4 : deb_trace_ok (0, d0) es).
  { repeat split. }
  split; [exact H1 | split; [exact H2 | split; [exact H3 | split; [exact H4 |]]]].
  exact (X7_debouncer_one_scan_per_path p 0 d0 es H1 H2 H3 H4).
Defined.

(** in the run of the witness the second scan waits for the first to end *)
Example debouncer_waits_for_running_scan :
  let p := sample.P ["s"; "a"] in
  let es := [tree.EvDebounce (ScanItem p true true); tree.EvSleep 5; tree.EvTimer p;
             tree.EvDebounce (ScanItem p false false); tree.EvSleep 5; tree.EvTimer p] in
  ran (snd (tree.deb_run (0, tree.NewScanDebouncer 5) es)) = [ScanItem p true true]
  /\ ran (snd (tree.deb_run (0, tree.NewScanDebouncer 5)
                 (es ++ [tree.EvDone p; tree.EvSleep 5; tree.EvTimer p])))
     = [ScanItem p true true; ScanItem p false false].
Proof. cbv zeta. split; vm_compute; reflexivity. Qed.

(** ** The dirty flag *)

(** X8: the dirty flag that [setDirty] wrote is the one [isDirty] reads. *)
Theorem X8_setDirty_isDirty path b w w' :
  tree.setDirty path b w = (Ok tt, w') -> tree.isDirty path w' = (Ok b, w').
Proof.
  unfold tree.setDirty, on_fs, xattr.Set_.
  destruct (os.lookup (w_fs w) path) as [i|]; [|discriminate].
  intros [= <-]. unfold tree.isDirty, xattr.Get. cbn [w_fs set_fs].
  rewrite os_lookup_insert. cbn [i_xattrs with_xattrs]. rewrite lookup_insert_eq.
  by destruct b.
Qed.

Lemma X8_setDirty_isDirty_witness :
  let path := sample.P ["s"; "a"] in
  let w' := snd (tree.setDirty path false sample.w0) in
  tree.setDirty path false sample.w0 = (Ok tt, w') /\
  tree.isDirty path w' = (Ok false, w').
Proof.
  intros path w'.
  assert (H : tree.setDirty path false sample.w0 = (Ok tt, w')) by (vm_compute; reflexivity).
  split; [exact H|].
  exact (X8_setDirty_isDirty path false sample.w0 w' H).
Defined.

(** ** A deleted file *)

Lemma Dir_neq p : comps p <> [] -> filepath.Dir p <> p.
Proof.
  intros Hne E. apply (f_equal comps) in E. unfold filepath.Dir in E. simpl in E.
  destruct (comps p) as [|c l _] using rev_ind; [done|].
  rewrite removelast_last in E. apply (f_equal length) in E. rewrite length_app in E.
  simpl in E. lia.
Qed.

(** X9: [Scan] of a deletion.  For a path the id cache knows, below a parent
    the id cache knows, the cache entry of the path is dropped in both
    directions, one ItemTrashed event names the deleted id and the reference
    (parent id, base name), and the rescan of the parent directory is
    scheduled with ForceRescan and Recurse.  For a path that neither the id
    cache nor an id attribute identifies the call fails with NotFound and
    nothing happens. *)
Theorem X9_Scan_delete t path isDir w :
  comps path <> [] ->
  (forall spaceID id psp pid,
     w_paths w !! path = Some (spaceID, id) ->
     w_paths w !! filepath.Dir path = Some (psp, pid) ->
     exists w',
       tree.Scan t path tree.ActionDelete isDir w = (Ok tt, w')
       /\ w_paths w' = delete path (w_paths w)
       /\ w_ids w' = delete (spaceID, id) (w_ids w)
       /\ w_events w'
          = w_events w ++ [ItemTrashed (Ref spaceID pid (filepath.Base path)) id]
       /\ w_tasks w' = w_tasks w
       /\ scheduled_rescan (filepath.Dir path) w')
  /\ (w_paths w !! path = None ->
      lookup.attr_or_empty (w_fs w) path prefixes.IDAttr = "" ->
      tree.Scan t path tree.ActionDelete isDir w
      = (Err (NotFound (filepath.to_string path)), w)).
Proof.
  intros Hne. split.
  - intros spaceID id psp pid Hp Hd.
    unfold tree.Scan, tree.HandleFileDelete.
    unfold bind at 1. unfold bind at 1, get_world at 1.
    unfold bind at 1, lift_res at 1, lookup.IDsForPath at 1. rewrite Hp.
    unfold bind at 1, try at 1, IDCache.DeleteByPath, modify. rewrite Hp.
    set (w1 := set_cache _ _ w).
    unfold bind at 1, try at 1.
    destruct (MetadataBackend.Purge (node.NewBaseNode spaceID id) w1) as [rp w2] eqn:Ep.
    assert (Hw2 : exists fs2, w2 = set_fs fs2 w1).
    { unfold MetadataBackend.Purge in Ep. destruct (w_fs w1 !! _); injection Ep as <- <-.
      - by eexists.
      - exists (w_fs w1). by destruct w1. }
    destruct Hw2 as [fs2 ->].
    unfold bind at 1, tree.getNodeForPath at 1. unfold bind at 1, get_world at 1.
    unfold bind at 1, lift_res at 1, lookup.IDsForPath at 1.
    cbn [w_paths set_fs set_cache w1].
    rewrite lookup_delete_ne by (intros E; symmetry in E; by apply Dir_neq in E).
    rewrite Hd. unfold node.ReadNode at 1. cbn [fst snd ID].
    unfold PublishEvent, tree.scanDebouncer_Debounce, modify.
    eexists. split; [reflexivity|].
    cbn [w_paths w_ids w_events w_tasks set_deb set_events set_fs set_cache w1].
    repeat (split; [reflexivity|]).
    eapply Debounce_rescan. reflexivity.
  - intros Hp Hid. unfold tree.Scan, tree.HandleFileDelete.
    unfold bind, get_world, lift_res, lookup.IDsForPath. rewrite Hp, Hid.
    by rewrite bool_decide_eq_true_2.
Qed.

Lemma X9_Scan_delete_witness :
  let t := sample.tp sample.all_perms in
  let path := sample.P ["s"; "a"; "f"] in
  let w := sample.w0 in
  comps path <> [] /\
  (forall spaceID id psp pid,
     w_paths w !! path = Some (spaceID, id) ->
     w_paths w !! filepath.Dir path = Some (psp, pid) ->
     exists w',
       tree.Scan t path tree.ActionDelete false w = (Ok tt, w')
       /\ w_paths w' = delete path (w_paths w)
       /\ w_ids w' = delete (spaceID, id) (w_ids w)
       /\ w_events w'
          = w_events w ++ [ItemTrashed (Ref spaceID pid (filepath.Base path)) id]
       /\ w_tasks w' = w_tasks w
       /\ scheduled_rescan (filepath.Dir path) w')
  /\ (w_paths w !! path = None ->
      lookup.attr_or_empty (w_fs w) path prefixes.IDAttr = "" ->
      tree.Scan t path tree.ActionDelete false w
      = (Err (NotFound (filepath.to_string path)), w)).
Proof.
  intros t path w.
  assert (H : comps path <> []) by discriminate.
  split; [exact H|].
  exact (X9_Scan_delete t path false w H).
Defined.

(** the deletion of the sample file, run *)
Example Scan_delete_sample :
  let r := tree.Scan (sample.tp sample.all_perms) (sample.P ["s"; "a"; "f"])
             tree.ActionDelete false sample.w0 in
  fst r = Ok tt
  /\ w_events (snd r) = [ItemTrashed (Ref "space1" "ida" "f") "idf"]
  /\ IDCache.Get (snd r) "space1" "idf" = None.
Proof. cbv zeta. repeat split; vm_compute; reflexivity. Qed.

(** ** Finding the space of a path *)

Lemma Dir_at_or_under c : filepath.at_or_under (filepath.Dir c) c.
Proof.
  split; [done|]. unfold filepath.Dir. simpl.
  destruct (comps c) as [|x l _] using rev_ind; [done|].
  rewrite removelast_last. by apply prefix_app_r.
Qed.

Lemma at_or_under_trans a b c :
  filepath.at_or_under a b -> filepath.at_or_under b c -> filepath.at_or_under a c.
Proof. intros [H1 H2] [H3 H4]. split; [congruence | by etrans]. Qed.

Lemma findSpaceId_loop_sound t path fuel : forall cand w sp w',
  filepath.at_or_under cand path ->
  tree.findSpaceId_loop t fuel path cand w = (Ok sp, w') ->
  sp <> ""
  /\ exists c id,
       filepath.at_or_under c path
       /\ strings.HasPrefix (filepath.to_string c) (tree.Root (tree.options t)) = true
       /\ lookup.IDsForPath w c = Ok (sp, id).
Proof.
  induction fuel as [|fuel IH]; intros cand w sp w' Hc; simpl;
    (destruct (strings.HasPrefix _ _) eqn:Hpre; [|discriminate]);
    unfold bind at 1, get_world at 1;
    (destruct (lookup.IDsForPath w cand) as [[sp1 id1]|e] eqn:Eid;
     [case_bool_decide as Hsp|]); try discriminate.
  - unfold bind. destruct (tree.scopeSpace t cand w) as [[[]|e] w1]; [|discriminate].
    intros [= <- <-]. split; [done|]. by exists cand, id1.
  - unfold bind. destruct (tree.scopeSpace t cand w) as [[[]|e] w1]; [|discriminate].
    intros [= <- <-]. split; [done|]. by exists cand, id1.
  - apply IH. eapply at_or_under_trans; [apply Dir_at_or_under | done].
  - apply IH. eapply at_or_under_trans; [apply Dir_at_or_under | done].
Qed.

(** X10: the space id [findSpaceId] returns is not empty and is the one the
    lookup gives for the path itself or for a directory above it whose name
    starts with the root of the storage; on the way only the group the thread
    is scoped to may have changed. *)
Theorem X10_findSpaceId_sound t path w sp w' :
  tree.findSpaceId t path w = (Ok sp, w') ->
  sp <> ""
  /\ only_scope w w'
  /\ exists cand id,
       filepath.at_or_under cand path
       /\ strings.HasPrefix (filepath.to_string cand) (tree.Root (tree.options t)) = true
       /\ lookup.IDsForPath w cand = Ok (sp, id).
Proof.
  intros H. unfold tree.findSpaceId in H.
  destruct (findSpaceId_loop_sound _ _ _ _ _ _ _ (at_or_under_refl path) H) as [H1 H2].
  split; [done|]. split; [|done]. by eapply findSpaceId_loop_only_scope.
Qed.

Lemma X10_findSpaceId_sound_witness :
  let t := sample.tp sample.all_perms in
  let path := sample.P ["s"; "a"; "new"] in
  let w := sample.w0 in
  tree.findSpaceId t path w = (Ok "space1", w) /\
  "space1" <> ""
  /\ only_scope w w
  /\ exists cand id,
       filepath.at_or_under cand path
       /\ strings.HasPrefix (filepath.to_string cand) (tree.Root (tree.options t)) = true
       /\ lookup.IDsForPath w cand = Ok ("space1", id).
Proof.
  intros t path w.
  assert (H : tree.findSpaceId t path w = (Ok "space1", w)) by (vm_compute; reflexivity).
  split; [exact H|].
  exact (X10_findSpaceId_sound t path w "space1" w H).
Defined.

Lemma findSpaceId_loop_none t path w fuel : forall cand,
  is_abs cand = true ->
  strings.HasPrefix "/" (tree.Root (tree.options t)) = false ->
  (length (comps cand) <= fuel)%nat ->
  filepath.at_or_under cand path ->
  (forall c sp id, filepath.at_or_under c path ->
                   lookup.IDsForPath w c = Ok (sp, id) -> sp = "") ->
  tree.findSpaceId_loop t fuel path cand w
  = (Err (Errorf ("could not find space for path " +:+ filepath.to_string path)), w).
Proof.
  induction fuel as [|fuel IH]; intros cand Ha Hroot Hlen Hc Hnone; simpl.
  - assert (cand = filepath.root) as ->.
    { destruct cand as [a l]. simpl in *. subst a. by destruct l; [|simpl in Hlen; lia]. }
    change (filepath.to_string filepath.root) with "/". rewrite Hroot. reflexivity.
  - destruct (strings.HasPrefix (filepath.to_string cand) _); [|reflexivity].
    unfold bind at 1, get_world at 1.
    assert (Hup : tree.findSpaceId_loop t fuel path (filepath.Dir cand) w
                  = (Err (Errorf ("could not find space for path " +:+ filepath.to_string path)),
                     w)).
    { apply IH; try done.
      - unfold filepath.Dir. simpl. destruct (comps cand) as [|x l _] using rev_ind; [simpl; lia|].
        rewrite removelast_last. rewrite length_app in Hlen. simpl in Hlen. lia.
      - eapply at_or_under_trans; [apply Dir_at_or_under | done]. }
    destruct (lookup.IDsForPath w cand) as [[sp1 id1]|e] eqn:Eid; [|exact Hup].
    rewrite (Hnone _ _ _ Hc Eid). rewrite bool_decide_eq_false_2 by (by intros []).
    exact Hup.
Qed.

(** X11: for an absolute path, under a storage root other than [/],
    [findSpaceId] fails with "could not find space for path" and changes
    nothing when neither the path nor any directory above it has a space
    id. *)
Theorem X11_findSpaceId_no_space t path w :
  is_abs path = true ->
  strings.HasPrefix "/" (tree.Root (tree.options t)) = false ->
  (forall c sp id, filepath.at_or_under c path ->
                   lookup.IDsForPath w c = Ok (sp, id) -> sp = "") ->
  tree.findSpaceId t path w
  = (Err (Errorf ("could not find space for path " +:+ filepath.to_string path)), w).
Proof.
  intros Ha Hroot Hnone. unfold tree.findSpaceId.
  apply findSpaceId_loop_none; auto using at_or_under_refl.
Qed.

Lemma X11_findSpaceId_no_space_witness :
  let t := sample.tp sample.all_perms in
  let path := sample.P ["s"; "x"] in
  let w := set_cache ∅ ∅ (set_fs ∅ sample.w0) in
  is_abs path = true /\
  strings.HasPrefix "/" (tree.Root (tree.options t)) = false /\
  (forall c sp id, filepath.at_or_under c path ->
                   lookup.IDsForPath w c = Ok (sp, id) -> sp = "") /\
  tree.findSpaceId t path w
  = (Err (Errorf ("could not find space for path " +:+ filepath.to_string path)), w).
Proof.
  intros t path w.
  assert (H1 : is_abs path = true) by reflexivity.
  assert (H2 : strings.HasPrefix "/" (tree.Root (tree.options t)) = false) by reflexivity.
  assert (H3 : forall c sp id, filepath.at_or_under c path ->
                               lookup.IDsForPath w c = Ok (sp, id) -> sp = "").
  { intros c sp id _. unfold lookup.IDsForPath, lookup.attr_or_empty, xattr.Get, os.lookup.
    cbn [w_paths w_fs w set_cache set_fs]. rewrite !lookup_empty.
    destruct (bool_decide (c = filepath.root)); cbn [os.root_inode i_xattrs];
      rewrite ?lookup_empty; rewrite bool_decide_eq_true_2 by done; discriminate. }
  split; [exact H1 | split; [exact H2 | split; [exact H3 |]]].
  exact (X11_findSpaceId_no_space t path w H1 H2 H3).
Defined.

(** ** Assimilation: a copy with a clashing id *)

Lemma set_scope_fs s w : w_fs (set_scope s w) = w_fs w.
Proof. by destruct w. Qed.

Lemma assimilate_id_clash_run t it w spaceID w1 i id prev ppid :
  tree.findSpaceId t (Path it) w = (Ok spaceID, w1) ->
  w_fs w !! Path it = Some i ->
  i_xattrs i !! prefixes.IDAttr = Some id ->
  id <> "" ->
  IDCache.Get w spaceID id = Some prev ->
  prev <> Path it ->
  is_Some (os.lookup (w_fs w) prev) ->
  xattr.Get (w_fs w) (lookup.InternalPath w spaceID id) prefixes.ParentidAttr = Ok ppid ->
  ppid <> "" ->
  tree.assimilate t it w
  = (Ok tt,
     set_tasks (w_tasks w ++ [GoAssimilate (ScanItem (Path it) true false)])
       (set_fs (<[Path it := with_xattrs (filter (fun kv => MetadataBackend.is_oc (fst kv) = false)
                                                 (i_xattrs i)) i]> (w_fs w)) w1)).
Proof.
  intros Hs Hi Hid Hne Hc Hprev [j Hj] Hpp Hppne.
  destruct (findSpaceId_loop_only_scope _ _ _ _ _ _ _ Hs) as [s ->].
  pose proof (os_lookup_Some _ _ _ Hi) as Hi'.
  unfold tree.assimilate. cbn [tree.assimilate_fuel].
  rewrite (bind_ok _ _ _ _ _ Hs).
  unfold tree.wrap, MetadataBackend.Lock, tree.defer_, MetadataBackend.unlock.
  unfold bind at 1. unfold ret at 1. unfold bind at 1. unfold try at 1.
  set (w1 := set_scope s w).
  assert (Hfs : w_fs w1 = w_fs w) by apply set_scope_fs.
  assert (Hids : w_ids w1 = w_ids w) by (by destruct w).
  assert (Hattr : lookup.attr_or_empty (w_fs w) (Path it) prefixes.IDAttr = id).
  { unfold lookup.attr_or_empty. by rewrite (xattr_Get_Some _ _ _ _ _ Hi' Hid). }
  unfold bind at 1. unfold MetadataBackend.IdentifyPath at 1.
  cbn [fst snd]. rewrite Hfs, Hattr. rewrite bool_decide_eq_true_2 by done.
  unfold bind at 1, get_world at 1. unfold lookup.GetCachedID, IDCache.Get. rewrite Hids.
  unfold IDCache.Get in Hc. rewrite Hc.
  unfold bind at 1. unfold try at 1.
  unfold MetadataBackend.Get at 1, node.NewBaseNode, mn_InternalPath.
  assert (Hip : lookup.InternalPath w1 spaceID id = lookup.InternalPath w spaceID id).
  { unfold lookup.InternalPath, lookup.cached, IDCache.Get. by rewrite Hids. }
  rewrite Hip, ?Hfs, Hpp.
  unfold os.Stat at 1. rewrite ?Hfs, Hi'.
  rewrite (bool_decide_eq_false_2 (prev = Path it)) by done. cbn [andb negb].
  replace (String.eqb ppid "") with false
    by (symmetry; by apply String.eqb_neq).
  cbn [andb negb].
  unfold bind at 1, get_world at 1. unfold os.Stat. rewrite ?Hfs, Hj.
  unfold bind at 1, try at 1, MetadataBackend.Purge at 1. cbn [mn_InternalPath].
  rewrite ?Hfs, Hi.
  unfold go, modify, lift_res. subst w1. by destruct w.
Qed.

(** X12: a file that carries the id of another item.  When the id cache
    knows the id of the file at another path, that path still exists and the
    item the id resolves to has a parent id, [assimilate] takes the file for
    a copy: it purges the metadata of the file, so that no id is left on it,
    and starts a goroutine that assimilates the path again with ForceRescan.
    The id cache, and with it the original item, the events and every other
    entry of the tree are untouched. *)
Theorem X12_assimilate_id_clash t it w spaceID w1 i id prev ppid :
  tree.findSpaceId t (Path it) w = (Ok spaceID, w1) ->
  w_fs w !! Path it = Some i ->
  i_xattrs i !! prefixes.IDAttr = Some id ->
  id <> "" ->
  IDCache.Get w spaceID id = Some prev ->
  prev <> Path it ->
  is_Some (os.lookup (w_fs w) prev) ->
  xattr.Get (w_fs w) (lookup.InternalPath w spaceID id) prefixes.ParentidAttr = Ok ppid ->
  ppid <> "" ->
  exists w2,
    tree.assimilate t it w = (Ok tt, w2)
    /\ w_fs w2
       = <[Path it := with_xattrs (filter (fun kv => MetadataBackend.is_oc (fst kv) = false)
                                          (i_xattrs i)) i]> (w_fs w)
    /\ w_tasks w2 = w_tasks w ++ [GoAssimilate (ScanItem (Path it) true false)]
    /\ w_ids w2 = w_ids w /\ w_paths w2 = w_paths w
    /\ w_events w2 = w_events w /\ w_uuid_next w2 = w_uuid_next w.
Proof.
  intros Hs Hi Hid Hne Hc Hprev Hj Hpp Hppne.
  eexists. split; [by eapply assimilate_id_clash_run|].
  destruct (findSpaceId_loop_only_scope _ _ _ _ _ _ _ Hs) as [s ->].
  by destruct w.
Qed.

Lemma X12_assimilate_id_clash_witness :
  let t := sample.tp sample.all_perms in
  let i := Inode false "abcdefgh" 30 0 sample.f_attrs in
  let it := ScanItem (sample.P ["s"; "a"; "g"]) false false in
  let w := set_fs (<[sample.P ["s"; "a"; "g"] := i]> sample.fs0) sample.w0 in
  let prev := sample.P ["s"; "a"; "f"] in
  tree.findSpaceId t (Path it) w = (Ok "space1", w) /\
  w_fs w !! Path it = Some i /\
  i_xattrs i !! prefixes.IDAttr = Some "idf" /\
  "idf" <> "" /\
  IDCache.Get w "space1" "idf" = Some prev /\
  prev <> Path it /\
  is_Some (os.lookup (w_fs w) prev) /\
  xattr.Get (w_fs w) (lookup.InternalPath w "space1" "idf") prefixes.ParentidAttr = Ok "ida" /\
  "ida" <> "" /\
  exists w2,
    tree.assimilate t it w = (Ok tt, w2)
    /\ w_fs w2
       = <[Path it := with_xattrs (filter (fun kv => MetadataBackend.is_oc (fst kv) = false)
                                          (i_xattrs i)) i]> (w_fs w)
    /\ w_tasks w2 = w_tasks w ++ [GoAssimilate (ScanItem (Path it) true false)]
    /\ w_ids w2 = w_ids w /\ w_paths w2 = w_paths w
    /\ w_events w2 = w_events w /\ w_uuid_next w2 = w_uuid_next w.
Proof.
  intros t i it w prev.
  assert (H1 : tree.findSpaceId t (Path it) w = (Ok "space1", w)) by (vm_compute; reflexivity).
  assert (H2 : w_fs w !! Path it = Some i) by (vm_compute; reflexivity).
  assert (H3 : i_xattrs i !! prefixes.IDAttr = Some "idf") by (vm_compute; reflexivity).
  assert (H4 : "idf" <> "") by discriminate.
  assert (H5 : IDCache.Get w "space1" "idf" = Some prev) by (vm_compute; reflexivity).
  assert (H6 : prev <> Path it) by discriminate.
  assert (H7 : is_Some (os.lookup (w_fs w) prev)) by (vm_compute; eauto).
  assert (H8 : xattr.Get (w_fs w) (lookup.InternalPath w "space1" "idf") prefixes.ParentidAttr
               = Ok "ida") by (vm_compute; reflexivity).
  assert (H9 : "ida" <> "") by discriminate.
  repeat (split; [assumption|]).
  exact (X12_assimilate_id_clash t it w "space1" w i "idf" prev "ida"
           H1 H2 H3 H4 H5 H6 H7 H8 H9).
Defined.

(** ** Assimilation: a new file *)

Lemma filter_oc_lookup (a : gmap string string) k v :
  a !! k = Some v -> MetadataBackend.is_oc k = true ->
  filter (fun kv => MetadataBackend.is_oc (fst kv) = true) a !! k = Some v.
Proof. intros Ha Hk. by apply map_lookup_filter_Some. Qed.

Lemma readParent_ok assim path id spaceID w psp pid0 d pid :
  id <> spaceID ->
  lookup.IDsForPath w (filepath.Dir path) = Ok (psp, pid0) ->
  os.lookup (w_fs w) (lookup.InternalPath w spaceID pid0) = Some d ->
  i_xattrs d !! prefixes.IDAttr = Some pid ->
  pid <> "" ->
  tree.readParent assim 1 path id spaceID w = (Ok pid, w).
Proof.
  intros Hne Hids Hd Hpid Hp. cbn [tree.readParent].
  rewrite bool_decide_eq_true_2 by done.
  unfold bind at 1, get_world at 1.
  unfold bind at 1, tree.or_fail at 1, lift_res at 1. rewrite Hids. cbn [snd].
  unfold bind at 1, tree.or_fail at 1, MetadataBackend.All at 1.
  unfold node.NewBaseNode, mn_InternalPath. rewrite Hd.
  set (pa := filter _ (i_xattrs d)).
  assert (Hpa : pa !! prefixes.IDAttr = Some pid) by (by apply filter_oc_lookup).
  assert (Hsz : bool_decide (size pa = 0%nat) = false).
  { apply bool_decide_eq_false_2. intros E%map_size_empty_iff.
    rewrite E in Hpa. by rewrite lookup_empty in Hpa. }
  rewrite Hsz. unfold tree.attr_len. rewrite Hpa. cbn [orb].
  destruct pid as [|c pid]; [done|]. reflexivity.
Qed.

Lemma updateFile_file t assim path id spaceID w i pid :
  (forall n w, tree.Propagate t n 0 w = (Ok tt, w)) ->
  tree.readParent assim 1 path id spaceID w = (Ok pid, w) ->
  pid <> "" ->
  w_fs w !! path = Some i ->
  i_dir i = false ->
  exists attrs,
    tree.updateFile t assim path id spaceID w
    = (Ok (i, attrs),
       set_cache (<[(spaceID, id) := path]> (w_ids w)) (<[path := (spaceID, id)]> (w_paths w))
         (set_fs (<[path := with_xattrs (attrs ∪ i_xattrs i) i]> (w_fs w))
            (set_tasks (w_tasks w ++ [GoReplicateCurrent spaceID id path])
               (set_uuid_next (S (w_uuid_next w)) w))))
    /\ attrs !! prefixes.IDAttr = Some id
    /\ attrs !! prefixes.NameAttr = Some (filepath.Base path)
    /\ attrs !! prefixes.ParentidAttr = Some pid
    /\ attrs !! prefixes.BlobIDAttr = Some (w_uuid w (w_uuid_next w))
    /\ attrs !! prefixes.BlobsizeAttr = Some (FormatInt (Z.of_nat (String.length (i_data i))))
    /\ attrs !! prefixes.TypeAttr = Some (FormatInt tree.RESOURCE_TYPE_FILE)
    /\ attrs !! prefixes.MTimeAttr = Some (time.Format (i_mtime i))
    /\ attrs !! (prefixes.ChecksumPrefix +:+ "sha1") = Some (tree.sha1sum t (i_data i))
    /\ attrs !! (prefixes.ChecksumPrefix +:+ "md5") = Some (tree.md5sum t (i_data i))
    /\ attrs !! (prefixes.ChecksumPrefix +:+ "adler32") = Some (tree.adler32sum t (i_data i)).
Proof.
  intros Hprop Hrp Hpid Hi Hfile.
  pose proof (os_lookup_Some _ _ _ Hi) as Hi'.
  unfold tree.updateFile. rewrite (bind_ok _ _ _ _ _ Hrp).
  unfold bind at 1, tree.wrap at 1, read_fs at 1, os.Stat at 1. rewrite Hi'.
  unfold bind at 1, try at 1, MetadataBackend.All at 1. cbn [mn_InternalPath]. rewrite Hi'.
  unfold bind at 1, ret at 1.
  rewrite (bool_decide_eq_true_2 (pid <> "")) by done.
  unfold bind at 1, get_world at 1.
  unfold tree.CalculateChecksums. rewrite Hi', Hfile.
  unfold bind at 1. unfold bind at 1, uuid_New at 1. unfold ret at 1.
  cbn [fst snd SpaceID ID].
  unfold bind at 1, go at 1, modify at 1.
  unfold bind at 1, tree.wrap at 1. rewrite Hprop.
  unfold bind at 1, tree.wrap at 1, MetadataBackend.SetMultiple at 1, on_fs at 1,
    MetadataBackend.set_attrs at 1.
  cbn [mn_InternalPath w_fs set_tasks set_uuid_next]. rewrite Hi'.
  unfold bind at 1, try at 1, lookup.CacheID, IDCache.Set_, modify, ret.
  eexists. split; [reflexivity|].
  repeat split; vm_compute; reflexivity.
Qed.

Lemma assimilate_new_file_run t it w spaceID w1 i psp pid0 d pid :
  let path := Path it in
  let newId := w_uuid w (w_uuid_next w) in
  let blobID := w_uuid w (S (w_uuid_next w)) in
  (forall n w, tree.Propagate t n 0 w = (Ok tt, w)) ->
  tree.findSpaceId t path w = (Ok spaceID, w1) ->
  w_fs w !! path = Some i ->
  i_dir i = false ->
  lookup.attr_or_empty (w_fs w) path prefixes.IDAttr = "" ->
  newId <> spaceID ->
  lookup.IDsForPath w (filepath.Dir path) = Ok (psp, pid0) ->
  os.lookup (w_fs w) (lookup.InternalPath w spaceID pid0) = Some d ->
  i_xattrs d !! prefixes.IDAttr = Some pid ->
  pid <> "" ->
  exists w2 j,
    tree.assimilate t it w = (Ok tt, w2)
    /\ w_fs w2 = <[path := j]> (w_fs w)
    /\ i_dir j = false /\ i_data j = i_data i /\ i_mtime j = i_mtime i
    /\ i_xattrs j !! prefixes.IDAttr = Some newId
    /\ i_xattrs j !! prefixes.NameAttr = Some (filepath.Base path)
    /\ i_xattrs j !! prefixes.ParentidAttr = Some pid
    /\ i_xattrs j !! prefixes.BlobIDAttr = Some blobID
    /\ i_xattrs j !! prefixes.BlobsizeAttr
       = Some (FormatInt (Z.of_nat (String.length (i_data i))))
    /\ i_xattrs j !! prefixes.MTimeAttr = Some (time.Format (i_mtime i))
    /\ i_xattrs j !! (prefixes.ChecksumPrefix +:+ "sha1") = Some (tree.sha1sum t (i_data i))
    /\ i_xattrs j !! (prefixes.ChecksumPrefix +:+ "md5") = Some (tree.md5sum t (i_data i))
    /\ i_xattrs j !! (prefixes.ChecksumPrefix +:+ "adler32")
       = Some (tree.adler32sum t (i_data i))
    /\ w_ids w2 = <[(spaceID, newId) := path]> (w_ids w)
    /\ w_paths w2 = <[path := (spaceID, newId)]> (w_paths w)
    /\ w_tasks w2 = w_tasks w ++ [GoReplicateCurrent spaceID newId path]
    /\ w_events w2
       = w_events w ++ [if bool_decide (String.length (i_data i) = 0%nat)
                        then FileTouched (Ref spaceID newId "")
                        else UploadReady (Ref spaceID newId "")]
    /\ w_uuid_next w2 = S (S (w_uuid_next w)).
Proof.
  intros path newId blobID Hprop Hs Hi Hfile Hnoid Hnew Hpar Hd Hpid Hpne.
  destruct (findSpaceId_loop_only_scope _ _ _ _ _ _ _ Hs) as [s ->].
  unfold tree.assimilate. cbn [tree.assimilate_fuel]. fold path.
  rewrite (bind_ok _ _ _ _ _ Hs).
  unfold tree.wrap at 1, MetadataBackend.Lock, tree.defer_, MetadataBackend.unlock.
  unfold bind at 1. unfold ret at 1. unfold bind at 1. unfold try at 1.
  set (w1 := set_scope s w).
  assert (Hfs : w_fs w1 = w_fs w) by apply set_scope_fs.
  unfold bind at 1. unfold MetadataBackend.IdentifyPath at 1.
  cbn [fst snd]. rewrite Hfs, Hnoid. rewrite bool_decide_eq_false_2 by (by intros []).
  unfold bind at 1, uuid_New at 1.
  replace (w_uuid w1 (w_uuid_next w1)) with newId by (by destruct w).
  set (w1' := set_uuid_next _ w1).
  assert (Hrp : tree.readParent
                  (tree.assimilate_fuel t (S (length (comps path)))) 1 path newId spaceID w1'
                = (Ok pid, w1')).
  { eapply readParent_ok; [done | | | exact Hpid | done].
    - rewrite <- Hpar. unfold lookup.IDsForPath. by destruct w.
    - rewrite <- Hd. unfold lookup.InternalPath, lookup.cached, IDCache.Get. by destruct w. }
  assert (Hi1 : w_fs w1' !! path = Some i) by (rewrite <- Hi; by destruct w).
  destruct (updateFile_file t _ path newId spaceID w1' i pid Hprop Hrp Hpne Hi1 Hfile)
    as (attrs & Hup & A1 & A2 & A3 & A4 & A5 & A6 & A7 & A8 & A9 & A10).
  rewrite (bind_ok _ _ _ _ _ Hup). cbn [fst snd]. rewrite Hfile.
  exists (set_events
            (w_events w ++ [if bool_decide (String.length (i_data i) = 0%nat)
                            then FileTouched (Ref spaceID newId "")
                            else UploadReady (Ref spaceID newId "")])
            (set_cache (<[(spaceID, newId) := path]> (w_ids w))
               (<[path := (spaceID, newId)]> (w_paths w))
               (set_fs (<[path := with_xattrs (attrs ∪ i_xattrs i) i]> (w_fs w))
                  (set_tasks (w_tasks w ++ [GoReplicateCurrent spaceID newId path])
                     (set_uuid_next (S (S (w_uuid_next w))) w1))))),
         (with_xattrs (attrs ∪ i_xattrs i) i).
  split.
  { unfold PublishEvent, modify, lift_res, bind, try. subst w1' w1.
    destruct w. cbn. by case_bool_decide. }
  cbn [w_fs w_ids w_paths w_tasks w_events w_uuid_next set_events set_cache set_fs set_tasks
       set_uuid_next i_dir i_data i_mtime i_xattrs with_xattrs].
  rewrite ?Hfs.
  assert (Hl : forall k v, attrs !! k = Some v -> (attrs ∪ i_xattrs i) !! k = Some v)
    by (intros k v H; by apply lookup_union_Some_l).
  replace (w_uuid w1' (w_uuid_next w1')) with blobID in A4 by (by destruct w).
  repeat (split; [first [done | by apply Hl | by destruct w]|]).
  by destruct w.
Qed.

(** X13: assimilation of a new file.  Let the path be a file without id
    attribute, in a space that is found, below a directory whose id the
    lookup gives and whose node carries an id attribute; and let propagating
    a size difference of zero change nothing.  Then [assimilate] succeeds:
    the file gets a fresh UUID as id and another as blob id, its name, the id
    of the parent directory, size, type, mtime and the three checksums of its
    content as attributes; the content is untouched; the id cache maps the new
    id to the path; the copy of the current version is started as a
    goroutine; and exactly one event is published, FileTouched for an empty
    file and UploadReady otherwise. *)
Theorem X13_assimilate_new_file t it w spaceID w1 i psp pid0 d pid :
  let path := Path it in
  let newId := w_uuid w (w_uuid_next w) in
  let blobID := w_uuid w (S (w_uuid_next w)) in
  (forall n w, tree.Propagate t n 0 w = (Ok tt, w)) ->
  tree.findSpaceId t path w = (Ok spaceID, w1) ->
  w_fs w !! path = Some i ->
  i_dir i = false ->
  lookup.attr_or_empty (w_fs w) path prefixes.IDAttr = "" ->
  newId <> spaceID ->
  lookup.IDsForPath w (filepath.Dir path) = Ok (psp, pid0) ->
  os.lookup (w_fs w) (lookup.InternalPath w spaceID pid0) = Some d ->
  i_xattrs d !! prefixes.IDAttr = Some pid ->
  pid <> "" ->
  exists w2 j,
    tree.assimilate t it w = (Ok tt, w2)
    /\ w_fs w2 = <[path := j]> (w_fs w)
    /\ i_dir j = false /\ i_data j = i_data i /\ i_mtime j = i_mtime i
    /\ i_xattrs j !! prefixes.IDAttr = Some newId
    /\ i_xattrs j !! prefixes.NameAttr = Some (filepath.Base path)
    /\ i_xattrs j !! prefixes.ParentidAttr = Some pid
    /\ i_xattrs j !! prefixes.BlobIDAttr = Some blobID
    /\ i_xattrs j !! prefixes.BlobsizeAttr
       = Some (FormatInt (Z.of_nat (String.length (i_data i))))
    /\ i_xattrs j !! prefixes.MTimeAttr = Some (time.Format (i_mtime i))
    /\ i_xattrs j !! (prefixes.ChecksumPrefix +:+ "sha1") = Some (tree.sha1sum t (i_data i))
    /\ i_xattrs j !! (prefixes.ChecksumPrefix +:+ "md5") = Some (tree.md5sum t (i_data i))
    /\ i_xattrs j !! (prefixes.ChecksumPrefix +:+ "adler32")
       = Some (tree.adler32sum t (i_data i))
    /\ w_ids w2 = <[(spaceID, newId) := path]> (w_ids w)
    /\ w_paths w2 = <[path := (spaceID, newId)]> (w_paths w)
    /\ w_tasks w2 = w_tasks w ++ [GoReplicateCurrent spaceID newId path]
    /\ w_events w2
       = w_events w ++ [if bool_decide (String.length (i_data i) = 0%nat)
                        then FileTouched (Ref spaceID newId "")
                        else UploadReady (Ref spaceID newId "")]
    /\ w_uuid_next w2 = S (S (w_uuid_next w)).
Proof.
  intros path newId blobID Hprop Hs Hi Hfile Hnoid Hnew Hpar Hd Hpid Hpne.
  by eapply assimilate_new_file_run.
Qed.

Lemma X13_assimilate_new_file_witness :
  let t := sample.tp sample.all_perms in
  let i := Inode false "xyz" 50 0 ∅ in
  let it := ScanItem (sample.P ["s"; "a"; "h"]) false false in
  let w := set_fs (<[sample.P ["s"; "a"; "h"] := i]> sample.fs0) sample.w0 in
  let d := Inode true "" 11 0 sample.a_attrs in
  let path := Path it in
  let newId := w_uuid w (w_uuid_next w) in
  let blobID := w_uuid w (S (w_uuid_next w)) in
  (forall n w, tree.Propagate t n 0 w = (Ok tt, w)) /\
  tree.findSpaceId t path w = (Ok "space1", w) /\
  w_fs w !! path = Some i /\
  i_dir i = false /\
  lookup.attr_or_empty (w_fs w) path prefixes.IDAttr = "" /\
  newId <> "space1" /\
  lookup.IDsForPath w (filepath.Dir path) = Ok ("space1", "ida") /\
  os.lookup (w_fs w) (lookup.InternalPath w "space1" "ida") = Some d /\
  i_xattrs d !! prefixes.IDAttr = Some "ida" /\
  "ida" <> "" /\
  exists w2 j,
    tree.assimilate t it w = (Ok tt, w2)
    /\ w_fs w2 = <[path := j]> (w_fs w)
    /\ i_dir j = false /\ i_data j = i_data i /\ i_mtime j = i_mtime i
    /\ i_xattrs j !! prefixes.IDAttr = Some newId
    /\ i_xattrs j !! prefixes.NameAttr = Some (filepath.Base path)
    /\ i_xattrs j !! prefixes.ParentidAttr = Some "ida"
    /\ i_xattrs j !! prefixes.BlobIDAttr = Some blobID
    /\ i_xattrs j !! prefixes.BlobsizeAttr
       = Some (FormatInt (Z.of_nat (String.length (i_data i))))
    /\ i_xattrs j !! prefixes.MTimeAttr = Some (time.Format (i_mtime i))
    /\ i_xattrs j !! (prefixes.ChecksumPrefix +:+ "sha1") = Some (tree.sha1sum t (i_data i))
    /\ i_xattrs j !! (prefixes.ChecksumPrefix +:+ "md5") = Some (tree.md5sum t (i_data i))
    /\ i_xattrs j !! (prefixes.ChecksumPrefix +:+ "adler32")
       = Some (tree.adler32sum t (i_data i))
    /\ w_ids w2 = <[("space1", newId) := path]> (w_ids w)
    /\ w_paths w2 = <[path := ("space1", newId)]> (w_paths w)
    /\ w_tasks w2 = w_tasks w ++ [GoReplicateCurrent "space1" newId path]
    /\ w_events w2
       = w_events w ++ [if bool_decide (String.length (i_data i) = 0%nat)
                        then FileTouched (Ref "space1" newId "")
                        else UploadReady (Ref "space1" newId "")]
    /\ w_uuid_next w2 = S (S (w_uuid_next w)).
Proof.
  intros t i it w d path newId blobID.
  assert (H0 : forall n w, tree.Propagate t n 0 w = (Ok tt, w)) by reflexivity.
  assert (H1 : tree.findSpaceId t path w = (Ok "space1", w)) by (vm_compute; reflexivity).
  assert (H2 : w_fs w !! path = Some i) by (vm_compute; reflexivity).
  assert (H3 : i_dir i = false) by reflexivity.
  assert (H4 : lookup.attr_or_empty (w_fs w) path prefixes.IDAttr = "")
    by (vm_compute; reflexivity).
  assert (H5 : newId <> "space1") by (vm_compute; discriminate).
  assert (H6 : lookup.IDsForPath w (filepath.Dir path) = Ok ("space1", "ida"))
    by (vm_compute; reflexivity).
  assert (H7 : os.lookup (w_fs w) (lookup.InternalPath w "space1" "ida") = Some d)
    by (vm_compute; reflexivity).
  assert (H8 : i_xattrs d !! prefixes.IDAttr = Some "ida") by (vm_compute; reflexivity).
  assert (H9 : "ida" <> "") by discriminate.
  repeat (split; [assumption|]).
  exact (X13_assimilate_new_file t it w "space1" w i "space1" "ida" d "ida"
           H0 H1 H2 H3 H4 H5 H6 H7 H8 H9).
Defined.

(** ** Warmup: tree sizes *)

Lemma fpath_eq p q : is_abs p = is_abs q -> comps p = comps q -> p = q.
Proof. destruct p, q. simpl. by intros -> ->. Qed.

Lemma prefix_snoc_inv {A} (l k : list A) x :
  l `prefix_of` k ++ [x] -> l = k ++ [x] \/ l `prefix_of` k.
Proof.
  intros [r Hr]. destruct r as [|y r _] using rev_ind.
  - left. by rewrite app_nil_r in Hr.
  - right. rewrite app_assoc in Hr. apply app_inj_tail in Hr as [-> _]. by eexists.
Qed.

(** the directories strictly above [dir] are [Dir dir] and those above it *)
Lemma under_Dir d dir :
  comps dir <> [] -> (filepath.under d dir <-> filepath.at_or_under d (filepath.Dir dir)).
Proof.
  intros Hne. unfold filepath.under, filepath.at_or_under, filepath.Dir. simpl.
  destruct (comps dir) as [|x l _] using rev_ind; [done|]. rewrite removelast_last.
  split.
  - intros (Ha & Hp & Hd). split; [done|].
    by destruct (prefix_snoc_inv _ _ _ Hp).
  - intros (Ha & Hp). split; [done|]. split; [by apply prefix_app_r|].
    intros E. rewrite E in Hp. apply prefix_length in Hp. rewrite length_app in Hp.
    simpl in Hp. lia.
Qed.

Lemma at_or_under_cases d e :
  filepath.at_or_under d e <-> d = e \/ filepath.under d e.
Proof.
  unfold filepath.at_or_under, filepath.under. split.
  - intros [Ha Hp]. destruct (decide (comps d = comps e)) as [E|E].
    + left. by apply fpath_eq.
    + by right.
  - intros [-> | (Ha & Hp & _)]; [|done]. done.
Qed.

Lemma under_irrefl_chain root d :
  filepath.at_or_under root d -> ~ filepath.under d root.
Proof.
  intros [_ Hp] (_ & Hq & Hne). apply Hne. by apply (anti_symm prefix).
Qed.

Lemma add_size_lookup d' sz (m : gmap fpath Z) d :
  default 0 (tree.add_size d' sz m !! d)
  = default 0 (m !! d) + (if decide (d = d') then sz else 0).
Proof.
  unfold tree.add_size. destruct (decide (d = d')) as [->|Hne].
  - rewrite lookup_insert_eq. done.
  - rewrite lookup_insert_ne by done. lia.
Qed.

Lemma add_sizes_lookup root sz d fuel : forall dir m,
  filepath.at_or_under root dir ->
  (length (comps dir) <= length (comps root) + fuel)%nat ->
  default 0 (tree.add_sizes fuel root dir sz m !! d)
  = default 0 (m !! d)
    + (if decide (filepath.at_or_under root d /\ filepath.under d dir) then sz else 0).
Proof.
  induction fuel as [|fuel IH]; intros dir m Hr Hlen.
  - assert (dir = root) as ->.
    { symmetry. destruct Hr as [Ha Hp]. apply fpath_eq; [done|].
      apply prefix_length_eq; [done | lia]. }
    cbn [tree.add_sizes]. rewrite bool_decide_eq_true_2 by done.
    rewrite decide_False; [lia|]. intros [H1 H2]. by apply (under_irrefl_chain root d).
  - cbn [tree.add_sizes]. case_bool_decide as Hd.
    + subst dir. rewrite decide_False; [lia|]. intros [H1 H2].
      by apply (under_irrefl_chain root d).
    + assert (Hu : filepath.under root dir).
      { apply at_or_under_cases in Hr as [E|Hu]; [congruence | done]. }
      assert (Hne : comps dir <> []).
      { destruct Hu as (_ & Hp & Hn). intros E. rewrite E in Hp.
        apply prefix_nil_inv in Hp. congruence. }
      assert (Hr' : filepath.at_or_under root (filepath.Dir dir)) by (by apply under_Dir).
      rewrite IH; [|done|].
      2:{ unfold filepath.Dir. simpl. destruct (comps dir) as [|x l _] using rev_ind; [done|].
          rewrite removelast_last. rewrite length_app in Hlen. simpl in Hlen. lia. }
      rewrite add_size_lookup.
      destruct (decide (d = filepath.Dir dir)) as [->|Hdd].
      * rewrite decide_False.
        2:{ intros [_ (_ & _ & H)]. done. }
        rewrite decide_True; [lia|]. split; [done|]. apply under_Dir; [done|].
        apply at_or_under_refl.
      * destruct (decide (filepath.at_or_under root d /\ filepath.under d (filepath.Dir dir)))
          as [[H1 H2]|Hn].
        -- rewrite decide_True; [lia|]. split; [done|]. apply under_Dir; [done|].
           apply at_or_under_cases. by right.
        -- rewrite decide_False; [lia|]. intros [H1 H2]. apply Hn. split; [done|].
           apply under_Dir in H2; [|done]. apply at_or_under_cases in H2 as [E|H2]; [done|done].
Qed.

(** X14: the size of a file found by the warmup walk is added once to the
    size of every directory from the one that holds the file up to the root
    of the walk, and to nothing else. *)
Theorem X14_add_sizes root path sz m d :
  filepath.at_or_under root path ->
  default 0 (tree.add_sizes (length (comps path)) root path sz m !! d)
  = default 0 (m !! d)
    + (if decide (filepath.at_or_under root d /\ filepath.under d path) then sz else 0).
Proof. intros H. apply add_sizes_lookup; [done | lia]. Qed.

Lemma X14_add_sizes_witness :
  let root := sample.P ["s"] in
  let path := sample.P ["s"; "a"; "f"] in
  let d := sample.P ["s"; "a"] in
  filepath.at_or_under root path /\
  default 0 (tree.add_sizes (length (comps path)) root path 8 ∅ !! d)
  = default 0 ((∅ : gmap fpath Z) !! d)
    + (if decide (filepath.at_or_under root d /\ filepath.under d path) then 8 else 0).
Proof.
  intros root path d.
  assert (H : filepath.at_or_under root path).
  { split; [done|]. by exists ["a"; "f"]. }
  split; [exact H|].
  exact (X14_add_sizes root path 8 ∅ d H).
Defined.

(** the sizes the walk of the sample space collects *)
Example add_sizes_sample :
  let m := tree.add_sizes 3 (sample.P ["s"]) (sample.P ["s"; "a"; "f"]) 8 ∅ in
  m !! sample.P ["s"; "a"] = Some 8 /\ m !! sample.P ["s"] = Some 8
  /\ m !! sample.P ["s"; "a"; "f"] = None /\ m !! filepath.root = None.
Proof. cbv zeta. repeat split; vm_compute; reflexivity. Qed.

(** ** Warmup: the id cache *)

(** X15: the warmup fills the id cache from the attributes.  For an entry
    the walk hands over (not an index, trash, upload, internal or lock path;
    a file, or a directory in a walk that is not [onlyDirty]) that carries an
    id and a space id, and whose id the cache does not know at another path
    that still exists, and, when space groups are in use, provided the user
    mapper scopes the thread to the group of the entry without error: the
    walk function caches the id at the path in both directions, clears the
    dirty flag of the entry, remembers the space id and lets the walk go on;
    it publishes nothing and starts no goroutine; with space groups in use
    the thread is left scoped to the group of the entry. *)
Theorem X15_warmup_visit_caches_id t root assimilate_ onlyDirty st path info w id sp :
  tree.isIndex t path || tree.isTrash t path || tree.isUpload t path = false ->
  tree.isInternal t path || tree.isLockFile t path = false ->
  (tree.UseSpaceGroups (tree.options t) = true ->
   tree.ScopeUserByIds t (-1) (i_gid info) = Ok tt) ->
  os.lookup (w_fs w) path = Some info ->
  i_dir info && onlyDirty = false ->
  i_xattrs info !! prefixes.IDAttr = Some id ->
  id <> "" ->
  i_xattrs info !! prefixes.SpaceIDAttr = Some sp ->
  sp <> "" ->
  (forall prev, IDCache.Get w sp id = Some prev ->
                prev = path \/ os.lookup (w_fs w) prev = None) ->
  exists st' w',
    tree.warmup_visit t root assimilate_ onlyDirty st path (Some info) None w
    = (Ok (tree.CbNil, st'), w')
    /\ IDCache.Get w' sp id = Some path
    /\ w_paths w' !! path = Some (sp, id)
    /\ xattr.Get (w_fs w') path dirtyFlag = Ok "false"
    /\ tree.ws_spaceID st' = sp
    /\ w_events w' = w_events w /\ w_tasks w' = w_tasks w
    /\ w_scope w' = (if tree.UseSpaceGroups (tree.options t) then Some (i_gid info)
                     else w_scope w).
Proof.
  intros Hf Hg Hgrp Hi Hkind Hid Hidne Hsp Hspne Hprev.
  unfold tree.warmup_visit. rewrite Hf, Hg.
  assert (Hpre : exists st1,
             tree.warmup_sizes root onlyDirty st path info w = (Ok (inr st1), w)
             /\ tree.ws_spaceID st1 = tree.ws_spaceID st).
  { unfold tree.warmup_sizes. destruct (i_dir info); simpl in *.
    - subst onlyDirty. by eexists.
    - by eexists. }
  destruct Hpre as (st1 & Hpre & _). rewrite (bind_ok _ _ _ _ _ Hpre).
  unfold tree.warmup_ids.
  assert (A1 : lookup.attr_or_empty (w_fs w) path prefixes.IDAttr = id).
  { unfold lookup.attr_or_empty. by rewrite (xattr_Get_Some _ _ _ _ _ Hi Hid). }
  assert (A2 : lookup.attr_or_empty (w_fs w) path prefixes.SpaceIDAttr = sp).
  { unfold lookup.attr_or_empty. by rewrite (xattr_Get_Some _ _ _ _ _ Hi Hsp). }
  unfold bind at 1, try at 1, MetadataBackend.IdentifyPath at 1. rewrite A1, A2.
  replace (String.eqb id "") with false by (symmetry; by apply String.eqb_neq).
  replace (String.eqb sp "") with false by (symmetry; by apply String.eqb_neq).
  cbn [negb].
  (* the thread is scoped to the group of the entry, or left as it is *)
  set (ws := if tree.UseSpaceGroups (tree.options t) then set_scope (Some (i_gid info)) w
             else w).
  assert (Hscope : tree.scopeSpace t path w = (Ok tt, ws)).
  { unfold tree.scopeSpace, ws. destruct (tree.UseSpaceGroups (tree.options t)); [|reflexivity].
    cbn [negb]. unfold bind, read_fs, os.Stat, lift_res, modify. rewrite Hi.
    by rewrite (Hgrp eq_refl). }
  assert (Hfs : w_fs ws = w_fs w) by (unfold ws; by destruct (tree.UseSpaceGroups _), w).
  assert (Hids : w_ids ws = w_ids w) by (unfold ws; by destruct (tree.UseSpaceGroups _), w).
  assert (Hps : w_paths ws = w_paths w) by (unfold ws; by destruct (tree.UseSpaceGroups _), w).
  assert (Hev : w_events ws = w_events w) by (unfold ws; by destruct (tree.UseSpaceGroups _), w).
  assert (Htk : w_tasks ws = w_tasks w) by (unfold ws; by destruct (tree.UseSpaceGroups _), w).
  assert (Hsc : w_scope ws = (if tree.UseSpaceGroups (tree.options t) then Some (i_gid info)
                              else w_scope w))
    by (unfold ws; by destruct (tree.UseSpaceGroups _), w).
  clearbody ws.
  unfold bind at 1. unfold bind at 1, try at 1. rewrite Hscope.
  unfold ret at 1. unfold ret at 1.
  replace (String.eqb sp "") with false by (symmetry; by apply String.eqb_neq).
  unfold bind at 1, get_world at 1.
  assert (Hclash : forall B (k : M B),
            (let '(previousPath, ok) := lookup.GetCachedID ws sp id in
             bind (if ok && negb (bool_decide (previousPath = path))
                   then match os.Stat (w_fs ws) previousPath with
                        | Ok _ => bind (try (tree.assimilate t (ScanItem path true false)))
                                       (fun _ => ret tt)
                        | Err _ => ret tt
                        end
                   else ret tt) (fun _ => k)) ws = k ws).
  { intros B k. unfold lookup.GetCachedID, IDCache.Get. rewrite Hids, Hfs.
    destruct (w_ids w !! (sp, id)) as [prev|] eqn:Ec; [|reflexivity].
    destruct (Hprev prev Ec) as [-> | Hgone].
    - by rewrite bool_decide_eq_true_2.
    - cbn [andb]. destruct (negb _); [|reflexivity].
      unfold os.Stat. by rewrite Hgone. }
  eexists _, _. rewrite Hclash.
  unfold bind at 1, try at 1, lookup.CacheID, IDCache.Set_, modify.
  unfold tree.warmup_finish, bind, try, tree.setDirty, on_fs, xattr.Set_.
  cbn [w_fs set_cache]. rewrite Hfs, Hi. unfold ret.
  split; [reflexivity|].
  cbn [w_fs w_ids w_paths w_events w_tasks w_scope set_fs set_cache tree.ws_spaceID].
  split; [apply lookup_insert_eq|]. split; [apply lookup_insert_eq|].
  split; [|done].
  unfold xattr.Get. rewrite os_lookup_insert. cbn [i_xattrs with_xattrs].
  by rewrite lookup_insert_eq.
Qed.

Lemma X15_warmup_visit_caches_id_witness :
  let t0 := sample.tp sample.all_perms in
  let t := tree.MkTree (tree.MkOptions "/s" true "mount1")
             (tree.AssemblePermissions t0) (tree.ScopeUserByIds t0)
             (tree.Propagate t0) (tree.DeleteBlob t0) (tree.ReadBlob t0) (tree.CheckLock t0)
             (tree.AsResourceInfo t0) (tree.CalculateEtag t0)
             (tree.sha1sum t0) (tree.md5sum t0) (tree.adler32sum t0)
             (tree.isIndex t0) (tree.isUpload t0) (tree.isInternal t0) (tree.isTrash t0)
             (tree.isLockFile t0) in
  let info := Inode false "abcdefgh" 12 7
                (<[prefixes.SpaceIDAttr := "space1"]> sample.f_attrs) in
  let path := sample.P ["s"; "a"; "f"] in
  let w := set_cache ∅ ∅ (set_fs (<[path := info]> sample.fs0) sample.w0) in
  let st := tree.WalkState ∅ "" in
  tree.isIndex t path || tree.isTrash t path || tree.isUpload t path = false /\
  tree.isInternal t path || tree.isLockFile t path = false /\
  (tree.UseSpaceGroups (tree.options t) = true ->
   tree.ScopeUserByIds t (-1) (i_gid info) = Ok tt) /\
  os.lookup (w_fs w) path = Some info /\
  i_dir info && false = false /\
  i_xattrs info !! prefixes.IDAttr = Some "idf" /\
  "idf" <> "" /\
  i_xattrs info !! prefixes.SpaceIDAttr = Some "space1" /\
  "space1" <> "" /\
  (forall prev, IDCache.Get w "space1" "idf" = Some prev ->
                prev = path \/ os.lookup (w_fs w) prev = None) /\
  exists st' w',
    tree.warmup_visit t (sample.P ["s"]) false false st path (Some info) None w
    = (Ok (tree.CbNil, st'), w')
    /\ IDCache.Get w' "space1" "idf" = Some path
    /\ w_paths w' !! path = Some ("space1", "idf")
    /\ xattr.Get (w_fs w') path dirtyFlag = Ok "false"
    /\ tree.ws_spaceID st' = "space1"
    /\ w_events w' = w_events w /\ w_tasks w' = w_tasks w
    /\ w_scope w' = (if tree.UseSpaceGroups (tree.options t) then Some (i_gid info)
                     else w_scope w).
Proof.
  intros t0 t info path w st.
  assert (H1 : tree.isIndex t path || tree.isTrash t path || tree.isUpload t path = false)
    by (vm_compute; reflexivity).
  assert (H2 : tree.isInternal t path || tree.isLockFile t path = false)
    by (vm_compute; reflexivity).
  assert (H3 : tree.UseSpaceGroups (tree.options t) = true ->
               tree.ScopeUserByIds t (-1) (i_gid info) = Ok tt) by reflexivity.
  assert (H4 : os.lookup (w_fs w) path = Some info) by (vm_compute; reflexivity).
  assert (H5 : i_dir info && false = false) by reflexivity.
  assert (H6 : i_xattrs info !! prefixes.IDAttr = Some "idf") by (vm_compute; reflexivity).
  assert (H7 : "idf" <> "") by discriminate.
  assert (H8 : i_xattrs info !! prefixes.SpaceIDAttr = Some "space1")
    by (vm_compute; reflexivity).
  assert (H9 : "space1" <> "") by discriminate.
  assert (H10 : forall prev, IDCache.Get w "space1" "idf" = Some prev ->
                             prev = path \/ os.lookup (w_fs w) prev = None).
  { intros prev H. unfold IDCache.Get in H. cbn [w_ids w set_cache] in H.
    by rewrite lookup_empty in H. }
  split; [exact H1 | split; [exact H2 | split; [exact H3 |]]].
  repeat (split; [assumption|]).
  exact (X15_warmup_visit_caches_id t (sample.P ["s"]) false false st path info w "idf" "space1"
           H1 H2 H3 H4 H5 H6 H7 H8 H9 H10).
Defined.

(** with space groups in use and a user mapper that refuses the group, the
    walk function returns the error of the mapper and nothing is cached *)
Example warmup_visit_scope_refused :
  let t0 := sample.tp sample.all_perms in
  let t := tree.MkTree (tree.MkOptions "/s" true "mount1")
             (tree.AssemblePermissions t0) (fun _ _ => Err (Collaborator "no such group"))
             (tree.Propagate t0) (tree.DeleteBlob t0) (tree.ReadBlob t0) (tree.CheckLock t0)
             (tree.AsResourceInfo t0) (tree.CalculateEtag t0)
             (tree.sha1sum t0) (tree.md5sum t0) (tree.adler32sum t0)
             (tree.isIndex t0) (tree.isUpload t0) (tree.isInternal t0) (tree.isTrash t0)
             (tree.isLockFile t0) in
  let info := Inode false "abcdefgh" 12 7
                (<[prefixes.SpaceIDAttr := "space1"]> sample.f_attrs) in
  let path := sample.P ["s"; "a"; "f"] in
  let w := set_cache ∅ ∅ (set_fs (<[path := info]> sample.fs0) sample.w0) in
  exists st',
    tree.warmup_visit t (sample.P ["s"]) false false (tree.WalkState ∅ "") path (Some info)
                      None w
    = (Ok (tree.CbErr (Collaborator "no such group"), st'), w).
Proof. eexists. vm_compute. reflexivity. Qed.

(** X16: a warmup of a root that does not exist (and is not an index, trash,
    upload, internal or lock path) returns the error of the stat and changes
    nothing. *)
Theorem X16_WarmupIDCache_missing_root t root assimilate_ onlyDirty w :
  tree.isIndex t root || tree.isTrash t root || tree.isUpload t root = false ->
  tree.isInternal t root || tree.isLockFile t root = false ->
  os.lookup (w_fs w) root = None ->
  tree.WarmupIDCache t root assimilate_ onlyDirty w
  = (Err (PathError "stat" root ENOENT), w).
Proof.
  intros Hf Hg Hr.
  unfold tree.WarmupIDCache, tree.Walk.
  unfold bind at 1. unfold bind at 1, get_world at 1. unfold os.Stat. rewrite Hr.
  unfold bind at 1, tree.warmup_visit at 1. rewrite Hf, Hg.
  unfold ret at 1. unfold ret at 1. cbn [tree.sizes].
  rewrite map_to_list_empty. reflexivity.
Qed.

Lemma X16_WarmupIDCache_missing_root_witness :
  let t := sample.tp sample.all_perms in
  let root := sample.P ["s"; "gone"] in
  tree.isIndex t root || tree.isTrash t root || tree.isUpload t root = false /\
  tree.isInternal t root || tree.isLockFile t root = false /\
  os.lookup (w_fs sample.w0) root = None /\
  tree.WarmupIDCache t root false true sample.w0
  = (Err (PathError "stat" root ENOENT), sample.w0).
Proof.
  intros t root.
  assert (H1 : tree.isIndex t root || tree.isTrash t root || tree.isUpload t root = false)
    by (vm_compute; reflexivity).
  assert (H2 : tree.isInternal t root || tree.isLockFile t root = false)
    by (vm_compute; reflexivity).
  assert (H3 : os.lookup (w_fs sample.w0) root = None) by (vm_compute; reflexivity).
  split; [exact H1 | split; [exact H2 | split; [exact H3 |]]].
  exact (X16_WarmupIDCache_missing_root t root false true sample.w0 H1 H2 H3).
Defined.

(** ** Revisions: keys and permissions *)

Lemma SplitN2_no_delimiter s sep :
  strings.Contains s sep = false -> strings.SplitN2 s sep = [s].
Proof.
  unfold strings.Contains, strings.SplitN2. by destruct (index 0 sep s).
Qed.

(** X17: a revision key without the [.REV.] delimiter is answered with
    NotFound of the key by [DownloadRevision], [RestoreRevision] and
    [DeleteRevision] alike, before any node is read and whatever the
    permissions; nothing changes. *)
Theorem X17_revision_key_format tp io ref key open w :
  strings.Contains key RevisionIDDelimiter = false ->
  tree.DownloadRevision tp ref key open w = (Err (NotFound key), w)
  /\ tree.RestoreRevision tp io ref key w = (Err (NotFound key), w)
  /\ tree.DeleteRevision tp ref key w = (Err (NotFound key), w).
Proof.
  intros H%SplitN2_no_delimiter.
  unfold tree.DownloadRevision, tree.RestoreRevision, tree.DeleteRevision, tree.getRevisionNode,
    bind. by rewrite H.
Qed.

Lemma X17_revision_key_format_witness :
  let tp := sample.tp sample.all_perms in
  strings.Contains "idf" RevisionIDDelimiter = false /\
  tree.DownloadRevision tp sample.ref_f "idf" (fun _ => true) sample.w_rev
  = (Err (NotFound "idf"), sample.w_rev)
  /\ tree.RestoreRevision tp tree.no_faults sample.ref_f "idf" sample.w_rev
     = (Err (NotFound "idf"), sample.w_rev)
  /\ tree.DeleteRevision tp sample.ref_f "idf" sample.w_rev
     = (Err (NotFound "idf"), sample.w_rev).
Proof.
  intros tp.
  assert (H : strings.Contains "idf" RevisionIDDelimiter = false) by reflexivity.
  split; [exact H|].
  exact (X17_revision_key_format tp tree.no_faults sample.ref_f "idf" (fun _ => true)
           sample.w_rev H).
Defined.

Lemma ReadNode_run spaceID id w n :
  fst (node.ReadNode spaceID id w) = Ok n -> node.ReadNode spaceID id w = (Ok n, w).
Proof. unfold node.ReadNode. simpl. by intros [= <-]. Qed.

(** X18: [DownloadRevision] and [RestoreRevision] do not tell a caller
    without [Stat] that the node exists.  For an existing node, a caller that
    lacks the permission the operation asks for (ListFileVersions and
    InitiateFileDownload to download, RestoreFileVersion to restore) gets
    PermissionDenied when it holds [Stat] and NotFound when it does not, and
    nothing changes. *)
Theorem X18_revisions_hide_existence tp io ref key open w k0 k1 n rp :
  strings.SplitN2 key RevisionIDDelimiter = [k0; k1] ->
  fst (node.ReadNode (ref_SpaceId ref) k0 w) = Ok n ->
  Exists n = true ->
  tree.AssemblePermissions tp n = Ok rp ->
  (provider.ListFileVersions rp = false \/ provider.InitiateFileDownload rp = false ->
   tree.DownloadRevision tp ref key open w
   = (Err (if provider.Stat rp then PermissionDenied (FormatReference ref)
           else NotFound (FormatReference ref)), w))
  /\ (provider.RestoreFileVersion rp = false ->
      tree.RestoreRevision tp io ref key w
      = (Err (if provider.Stat rp then PermissionDenied (FormatReference ref)
              else NotFound (FormatReference ref)), w)).
Proof.
  intros Hk Hn%ReadNode_run Hex Hrp. split; intros Hp.
  - by eapply DownloadRevision_denied.
  - by eapply RestoreRevision_denied.
Qed.

Lemma X18_revisions_hide_existence_witness :
  let tp := sample.tp sample.no_perms in
  let rp := sample.no_perms in
  let ref := sample.ref_f in
  let w := sample.w_rev in
  strings.SplitN2 "idf.REV.7" RevisionIDDelimiter = ["idf"; "7"] /\
  fst (node.ReadNode (ref_SpaceId ref) "idf" w) = Ok sample.nf /\
  Exists sample.nf = true /\
  tree.AssemblePermissions tp sample.nf = Ok rp /\
  (provider.ListFileVersions rp = false \/ provider.InitiateFileDownload rp = false ->
   tree.DownloadRevision tp ref "idf.REV.7" (fun _ => true) w
   = (Err (if provider.Stat rp then PermissionDenied (FormatReference ref)
           else NotFound (FormatReference ref)), w))
  /\ (provider.RestoreFileVersion rp = false ->
      tree.RestoreRevision tp tree.no_faults ref "idf.REV.7" w
      = (Err (if provider.Stat rp then PermissionDenied (FormatReference ref)
              else NotFound (FormatReference ref)), w)).
Proof.
  intros tp rp ref w.
  assert (H1 : strings.SplitN2 "idf.REV.7" RevisionIDDelimiter = ["idf"; "7"])
    by (vm_compute; reflexivity).
  assert (H2 : fst (node.ReadNode (ref_SpaceId ref) "idf" w) = Ok sample.nf)
    by (vm_compute; reflexivity).
  assert (H3 : Exists sample.nf = true) by reflexivity.
  assert (H4 : tree.AssemblePermissions tp sample.nf = Ok rp) by reflexivity.
  split; [exact H1 | split; [exact H2 | split; [exact H3 | split; [exact H4 |]]]].
  exact (X18_revisions_hide_existence tp tree.no_faults ref "idf.REV.7" (fun _ => true) w
           "idf" "7" sample.nf rp H1 H2 H3 H4).
Defined.

(** X19: [ListRevisions] answers NotFound for a node that does not exist,
    and for an existing node a caller without ListFileVersions gets
    PermissionDenied when it holds [Stat] and NotFound when it does not; in
    both cases nothing changes. *)
Theorem X19_ListRevisions_refusals tp ref w n :
  fst (lookup_nodes.NodeFromResource ref w) = Ok n ->
  (Exists n = false ->
   tree.ListRevisions tp ref w = (Err (NotFound (ParentID n +:+ "/" +:+ Name n)), w))
  /\ (forall rp,
        Exists n = true ->
        tree.AssemblePermissions tp n = Ok rp ->
        provider.ListFileVersions rp = false ->
        tree.ListRevisions tp ref w
        = (Err (if provider.Stat rp then PermissionDenied (FormatReference ref)
                else NotFound (FormatReference ref)), w)).
Proof.
  intros Hn%NodeFromResource_run. split.
  - intros Hex. unfold tree.ListRevisions. by rewrite (bind_ok _ _ _ _ _ Hn), Hex.
  - intros rp Hex Hrp Hp. by eapply ListRevisions_denied.
Qed.

Lemma X19_ListRevisions_refusals_witness :
  let tp := sample.tp sample.no_perms in
  let ref := sample.ref_f in
  let w := sample.w_rev in
  fst (lookup_nodes.NodeFromResource ref w) = Ok sample.nf /\
  (Exists sample.nf = false ->
   tree.ListRevisions tp ref w
   = (Err (NotFound (ParentID sample.nf +:+ "/" +:+ Name sample.nf)), w))
  /\ (forall rp,
        Exists sample.nf = true ->
        tree.AssemblePermissions tp sample.nf = Ok rp ->
        provider.ListFileVersions rp = false ->
        tree.ListRevisions tp ref w
        = (Err (if provider.Stat rp then PermissionDenied (FormatReference ref)
                else NotFound (FormatReference ref)), w)).
Proof.
  intros tp ref w.
  assert (H : fst (lookup_nodes.NodeFromResource ref w) = Ok sample.nf)
    by (vm_compute; reflexivity).
  split; [exact H|].
  exact (X19_ListRevisions_refusals tp ref w sample.nf H).
Defined.

(** ** Revisions: creating one *)

Lemma add_suffix_Dir p s : comps p <> [] -> filepath.Dir (filepath.add_suffix p s) = filepath.Dir p.
Proof.
  intros Hne. unfold filepath.add_suffix, filepath.Dir.
  destruct (comps p) as [|c l _] using rev_ind; [done|].
  rewrite last_snoc. simpl. by rewrite !removelast_last.
Qed.

Lemma add_suffix_abs p s : is_abs (filepath.add_suffix p s) = is_abs p.
Proof. unfold filepath.add_suffix. by destruct (last (comps p)). Qed.

Lemma wf_file_nonroot fs p i : fs_wf fs -> fs !! p = Some i -> i_dir i = false -> comps p <> [].
Proof. intros Hwf Hi Hf E. destruct (Hwf _ _ Hi) as (_ & Hr & _). rewrite Hr in Hf; done. Qed.

(** X20: a revision is a snapshot of the node.  In a well-formed tree, for
    a node whose file exists and a timestamp whose revision file does not,
    [CreateRevision] succeeds with the path of the revision, and the revision
    it created is a file with the content of the node and, of the attributes
    of the node, exactly the blob attributes and the mtime (checksums, type,
    blob id, blob size, mtime); the node and every other entry of the tree are
    untouched. *)
Theorem X20_CreateRevision_snapshot tp n version w i :
  let p := node_InternalPath w n in
  let vp := lookup.VersionPath w (SpaceID n) (ID n) version in
  fs_wf (w_fs w) ->
  w_fs w !! p = Some i ->
  i_dir i = false ->
  w_fs w !! vp = None ->
  tree.CreateRevision tp n version w
  = (Ok vp,
     set_fs (<[vp := Inode false (i_data i) (w_now w) 0
                       (filter (fun kv => tree.revisionAttr (fst kv) = true)
                          (filter (fun kv => MetadataBackend.is_oc (fst kv) = true)
                                  (i_xattrs i)))]> (w_fs w)) w).
Proof.
  intros p vp Hwf Hi Hfile Hv.
  pose proof (wf_file_nonroot _ _ _ Hwf Hi Hfile) as Hne.
  destruct (wf_parent _ _ _ Hwf Hi) as [Ha Hd].
  assert (Hdir : filepath.Dir vp = filepath.Dir p) by (by apply add_suffix_Dir).
  assert (Hpv : p <> vp) by congruence.
  unfold tree.CreateRevision, bind, get_world, now, on_fs, read_fs.
  fold p. fold vp. rewrite Hdir.
  rewrite (MkdirAll_existing _ _ _ Hwf Ha Hd). cbn [w_fs set_fs].
  unfold os.OpenRead. rewrite (os_lookup_Some _ _ _ Hi).
  unfold os.OpenExcl.
  assert (Hvl : os.lookup (w_fs w) vp = None).
  { rewrite os_lookup_nonroot; [done|]. unfold vp, lookup.VersionPath.
    fold (node_InternalPath w n). fold p. unfold filepath.add_suffix.
    destruct (last (comps p)); simpl; [by destruct (removelast (comps p)) | done]. }
  rewrite Hvl.
  assert (Hpd : os.parent_is_dir (w_fs w) vp = true).
  { apply parent_is_dir_spec. by rewrite Hdir. }
  rewrite Hpd. cbn [w_fs set_fs].
  unfold os.Copy. rewrite lookup_insert_eq.
  assert (Hp1 : forall x (fs : filetree), fs !! p = Some i -> os.lookup (<[vp := x]> fs) p = Some i).
  { intros x fs H. apply os_lookup_Some. by rewrite lookup_insert_ne. }
  rewrite (Hp1 _ _ Hi), Hfile. cbn [w_fs set_fs].
  unfold CopyMetadata, bind, MetadataBackend.All, MetadataBackend.SetMultiple, on_fs,
    MetadataBackend.set_attrs. cbn [mn_InternalPath w_fs set_fs].
  rewrite (Hp1 _ _ ltac:(by rewrite lookup_insert_ne)).
  cbn [w_fs set_fs]. rewrite os_lookup_insert.
  unfold ret.
  assert (Hset : forall f g (w : World), set_fs f (set_fs g w) = set_fs f w) by (by intros ? ? []).
  rewrite !Hset, !insert_insert_eq.
  unfold with_xattrs, with_data, os.new_file. cbn [i_dir i_data i_mtime i_gid i_xattrs].
  by rewrite (right_id_L ∅ (∪)).
Qed.

Lemma X20_CreateRevision_snapshot_witness :
  let tp := sample.tp sample.all_perms in
  let n := sample.nf in
  let w := sample.w0 in
  let i := Inode false "abcdefgh" 12 0 sample.f_attrs in
  let p := node_InternalPath w n in
  let vp := lookup.VersionPath w (SpaceID n) (ID n) "12" in
  fs_wf (w_fs w) /\
  w_fs w !! p = Some i /\
  i_dir i = false /\
  w_fs w !! vp = None /\
  tree.CreateRevision tp n "12" w
  = (Ok vp,
     set_fs (<[vp := Inode false (i_data i) (w_now w) 0
                       (filter (fun kv => tree.revisionAttr (fst kv) = true)
                          (filter (fun kv => MetadataBackend.is_oc (fst kv) = true)
                                  (i_xattrs i)))]> (w_fs w)) w).
Proof.
  intros tp n w i p vp.
  assert (H1 : fs_wf (w_fs w)) by (apply (bool_decide_unpack _); vm_compute; exact I).
  assert (H2 : w_fs w !! p = Some i) by (vm_compute; reflexivity).
  assert (H3 : i_dir i = false) by reflexivity.
  assert (H4 : w_fs w !! vp = None) by (vm_compute; reflexivity).
  split; [exact H1 | split; [exact H2 | split; [exact H3 | split; [exact H4 |]]]].
  exact (X20_CreateRevision_snapshot tp n "12" w i H1 H2 H3 H4).
Defined.

(** the snapshot of the sample file keeps blob id, size, mtime and checksum
    and drops id, name and parent id *)
Example CreateRevision_sample :
  let r := tree.CreateRevision (sample.tp sample.all_perms) sample.nf "12" sample.w0 in
  let a := lookup.attr_or_empty (w_fs (snd r)) (sample.P ["s"; "a"; "f.REV.12"]) in
  fst r = Ok (sample.P ["s"; "a"; "f.REV.12"])
  /\ a prefixes.BlobIDAttr = "blob1" /\ a prefixes.BlobsizeAttr = "8"
  /\ a prefixes.MTimeAttr = "12" /\ a (prefixes.ChecksumPrefix +:+ "md5") = "md5-of-abcdefgh"
  /\ a prefixes.IDAttr = "" /\ a prefixes.NameAttr = "" /\ a prefixes.ParentidAttr = "".
Proof. cbv zeta. repeat split; vm_compute; reflexivity. Qed.

(** ** The copy of the current version *)

Lemma wf_file_no_children fs p i q x :
  fs_wf fs -> fs !! p = Some i -> i_dir i = false -> fs !! q = Some x -> ~ filepath.under p q.
Proof.
  intros Hwf Hi Hf Hq Hu. destruct (wf_under fs p q x Hwf Hq Hu) as (j & Hj & Hd).
  rewrite (os_lookup_Some _ _ _ Hi) in Hj. congruence.
Qed.

Lemma wf_file_not_above fs p i q x :
  fs_wf fs -> fs !! p = Some i -> i_dir i = false -> fs !! q = Some x -> p <> q ->
  ~ filepath.at_or_under p q.
Proof.
  intros Hwf Hi Hf Hq Hne [E|Hu]%at_or_under_cases; [done|].
  exact (wf_file_no_children _ _ _ _ _ Hwf Hi Hf Hq Hu).
Qed.

(** X21: the goroutine that keeps the current version.  In a well-formed
    tree where the node and its [.CURRENT] copy are files and no revision
    bears the mtime of the copy, the goroutine renames the copy to the
    revision named by that mtime, attributes included, and makes a new
    [.CURRENT] file with the content of the node and, of the attributes of the
    node, the blob attributes (checksums, type, blob id, blob size).  The node
    and every entry that lies neither at nor below the two paths are
    untouched.  Without a [.CURRENT] copy the goroutine ends at once and
    changes nothing. *)
Theorem X21_replicateCurrent t spaceID id w :
  let cur := lookup.InternalPath w spaceID (id +:+ CurrentIDDelimiter) in
  let nodep := lookup.InternalPath w spaceID id in
  (os.lookup (w_fs w) cur = None ->
   tree.replicateCurrent t spaceID id w = (Err (PathError "stat" cur ENOENT), w))
  /\ (forall c i,
        let rev := lookup.VersionPath w spaceID id (time.Format (i_mtime c)) in
        fs_wf (w_fs w) ->
        w_fs w !! cur = Some c -> i_dir c = false ->
        w_fs w !! nodep = Some i -> i_dir i = false ->
        nodep <> cur ->
        w_fs w !! rev = None ->
        exists w',
          tree.replicateCurrent t spaceID id w = (Ok tt, w')
          /\ w_fs w' !! rev = Some c
          /\ w_fs w' !! cur
             = Some (Inode false (i_data i) (w_now w) 0
                       (filter (fun kv => tree.blobAttr (fst kv) = true)
                          (filter (fun kv => MetadataBackend.is_oc (fst kv) = true)
                                  (i_xattrs i))))
          /\ w_fs w' !! nodep = Some i
          /\ (forall q, ~ filepath.at_or_under cur q -> ~ filepath.at_or_under rev q ->
                        w_fs w' !! q = w_fs w !! q)
          /\ w_ids w' = w_ids w /\ w_paths w' = w_paths w).
Proof.
  intros cur nodep. split.
  - intros Hc. unfold tree.replicateCurrent, bind, get_world, read_fs, os.Stat.
    cbn [mn_InternalPath node.NewBaseNode]. fold cur. by rewrite Hc.
  - intros c i rev Hwf Hc Hcf Hi Hif Hnc Hr.
    pose proof (wf_file_nonroot _ _ _ Hwf Hi Hif) as Hnne.
    pose proof (wf_file_nonroot _ _ _ Hwf Hc Hcf) as Hcne.
    assert (Hrne : comps rev <> []).
    { unfold rev, lookup.VersionPath. fold nodep. unfold filepath.add_suffix.
      destruct (last (comps nodep)); simpl; [by destruct (removelast (comps nodep)) | done]. }
    assert (Hrd : filepath.Dir rev = filepath.Dir nodep) by (by apply add_suffix_Dir).
    destruct (wf_parent _ _ _ Hwf Hi) as [_ Hnd].
    destruct (wf_parent _ _ _ Hwf Hc) as [_ Hcd].
    assert (Hcr : cur <> rev) by congruence.
    assert (Hnr : nodep <> rev) by congruence.
    (* the revision does not lie below the copy *)
    assert (Hu : ~ filepath.under cur rev).
    { intros Hu. apply under_Dir in Hu; [|done]. rewrite Hrd in Hu.
      destruct Hnd as (x & Hx & Hxd).
      destruct (decide (comps (filepath.Dir nodep) = [])) as [E|E].
      - destruct Hu as [_ Hp]. rewrite E in Hp. apply prefix_nil_inv in Hp. done.
      - rewrite os_lookup_nonroot in Hx by done.
        apply at_or_under_cases in Hu as [Eq|Hu].
        + rewrite <- Eq in Hx. congruence.
        + exact (wf_file_no_children _ _ _ _ _ Hwf Hc Hcf Hx Hu). }
    assert (Hfresh : forall q x, w_fs w !! q = Some x -> ~ filepath.at_or_under rev q).
    { intros q x Hq. by eapply wf_fresh. }
    unfold tree.replicateCurrent.
    unfold bind at 1, get_world at 1. cbn [mn_InternalPath node.NewBaseNode]. fold cur.
    unfold bind at 1, read_fs at 1, os.Stat at 1. rewrite (os_lookup_Some _ _ _ Hc).
    fold rev.
    unfold bind at 1, on_fs at 1, os.Rename. rewrite Hc.
    assert (Hpr : os.parent_is_dir (w_fs w) rev = true).
    { apply parent_is_dir_spec. by rewrite Hrd. }
    rewrite Hpr. cbn [negb].
    rewrite (bool_decide_eq_false_2 (filepath.under cur rev)) by done.
    rewrite (bool_decide_eq_false_2 (cur = rev)) by done.
    rewrite Hr.
    set (fs1 := os.rename_tree cur rev c (w_fs w)).
    assert (F1 : forall q, ~ filepath.at_or_under cur q -> ~ filepath.at_or_under rev q ->
                           fs1 !! q = w_fs w !! q).
    { intros q H1 H2. by apply rename_tree_other. }
    assert (Hc1 : fs1 !! cur = None).
    { apply rename_tree_src. by eapply Hfresh. }
    assert (Hr1 : fs1 !! rev = Some c) by apply rename_tree_dst.
    assert (Hn1 : fs1 !! nodep = Some i).
    { rewrite F1; [done | | by eapply Hfresh].
      eapply wf_file_not_above; [exact Hwf | exact Hc | done | exact Hi | congruence]. }
    assert (Hd1 : os.parent_is_dir fs1 cur = true).
    { apply parent_is_dir_spec. destruct Hcd as (x & Hx & Hxd).
      exists x. split; [|done].
      destruct (decide (comps (filepath.Dir cur) = [])) as [E|E].
      - assert (Hroot : filepath.Dir cur = filepath.root).
        { apply fpath_eq; [|done]. simpl. by destruct (Hwf _ _ Hc). }
        rewrite Hroot in *. unfold os.lookup in *.
        rewrite bool_decide_eq_true_2 in * by done.
        rewrite F1; [done | |].
        + intros Ha%at_or_under_length. simpl in Ha. destruct (comps cur); [done | simpl in Ha; lia].
        + intros Ha%at_or_under_length. simpl in Ha. destruct (comps rev); [done | simpl in Ha; lia].
      - rewrite os_lookup_nonroot in * by done.
        rewrite F1; [done | |].
        + intros Ha%at_or_under_length. unfold filepath.Dir in Ha. simpl in Ha.
          destruct (comps cur) as [|y l _] using rev_ind; [done|].
          rewrite removelast_last, length_app in Ha. simpl in Ha. lia.
        + by eapply Hfresh. }
    unfold bind at 1, now at 1. unfold bind at 1, on_fs at 1, os.Create, os.WriteFile.
    cbn [w_fs set_fs w_now].
    rewrite (os_lookup_nonroot _ cur) by done. rewrite Hc1, Hd1.
    unfold bind at 1, get_world at 1.
    assert (Hip : forall (f g : filetree) s k,
              lookup.InternalPath (set_fs f (set_fs g w)) s k = lookup.InternalPath w s k).
    { intros. unfold lookup.InternalPath, lookup.cached, IDCache.Get. by destruct w. }
    rewrite !Hip. fold nodep. fold cur.
    unfold bind at 1, read_fs at 1, os.OpenRead at 1. cbn [w_fs set_fs].
    assert (Hn2 : forall x, os.lookup (<[cur := x]> fs1) nodep = Some i).
    { intros x. apply os_lookup_Some. by rewrite lookup_insert_ne. }
    rewrite Hn2.
    unfold bind at 1, on_fs at 1, os.Copy. cbn [w_fs set_fs].
    rewrite Hn2, lookup_insert_eq, Hif.
    unfold CopyMetadata, bind, MetadataBackend.All, MetadataBackend.SetMultiple, on_fs,
      MetadataBackend.set_attrs. cbn [mn_InternalPath w_fs set_fs].
    eexists. split.
    { rewrite insert_insert_eq, Hn2. cbn [w_fs set_fs]. rewrite os_lookup_insert,
        insert_insert_eq. reflexivity. }
    cbn [w_fs w_ids w_paths set_fs].
    split; [rewrite lookup_insert_ne by done; exact Hr1|].
    split.
    { rewrite lookup_insert_eq. unfold with_xattrs, with_data, os.new_file.
      cbn [i_dir i_data i_mtime i_gid i_xattrs]. by rewrite (right_id_L ∅ (∪)). }
    split; [rewrite lookup_insert_ne by congruence; exact Hn1|].
    split; [|done].
    intros q H1 H2. rewrite lookup_insert_ne; [by apply F1|].
    intros <-. apply H1, at_or_under_refl.
Qed.

Lemma X21_replicateCurrent_witness :
  let t := sample.tp sample.all_perms in
  let c := Inode false "old" 9 0 (list_to_map [(prefixes.BlobIDAttr, "blob0")]) in
  let i := Inode false "abcdefgh" 12 0 sample.f_attrs in
  let w := set_fs (<[sample.P ["s"; "a"; "f.CURRENT"] := c]> sample.fs0) sample.w0 in
  let cur := lookup.InternalPath w "space1" ("idf" +:+ CurrentIDDelimiter) in
  let nodep := lookup.InternalPath w "space1" "idf" in
  let rev := lookup.VersionPath w "space1" "idf" (time.Format (i_mtime c)) in
  fs_wf (w_fs w) /\
  w_fs w !! cur = Some c /\ i_dir c = false /\
  w_fs w !! nodep = Some i /\ i_dir i = false /\
  nodep <> cur /\
  w_fs w !! rev = None /\
  exists w',
    tree.replicateCurrent t "space1" "idf" w = (Ok tt, w')
    /\ w_fs w' !! rev = Some c
    /\ w_fs w' !! cur
       = Some (Inode false (i_data i) (w_now w) 0
                 (filter (fun kv => tree.blobAttr (fst kv) = true)
                    (filter (fun kv => MetadataBackend.is_oc (fst kv) = true)
                            (i_xattrs i))))
    /\ w_fs w' !! nodep = Some i
    /\ (forall q, ~ filepath.at_or_under cur q -> ~ filepath.at_or_under rev q ->
                  w_fs w' !! q = w_fs w !! q)
    /\ w_ids w' = w_ids w /\ w_paths w' = w_paths w.
Proof.
  intros t c i w cur nodep rev.
  assert (H1 : fs_wf (w_fs w)) by (apply (bool_decide_unpack _); vm_compute; exact I).
  assert (H2 : w_fs w !! cur = Some c) by (vm_compute; reflexivity).
  assert (H3 : i_dir c = false) by reflexivity.
  assert (H4 : w_fs w !! nodep = Some i) by (vm_compute; reflexivity).
  assert (H5 : i_dir i = false) by reflexivity.
  assert (H6 : nodep <> cur) by (vm_compute; discriminate).
  assert (H7 : w_fs w !! rev = None) by (vm_compute; reflexivity).
  repeat (split; [assumption|]).
  exact (proj2 (X21_replicateCurrent t "space1" "idf" w) c i H1 H2 H3 H4 H5 H6 H7).
Defined.

(** ** Restoring a revision *)

Lemma restore_access_node tp ref key kp0 w n w' :
  tree.restore_access tp ref key kp0 w = (Ok n, w') ->
  fst (node.ReadNode (ref_SpaceId ref) kp0 w) = Ok n.
Proof.
  unfold tree.restore_access, bind. unfold node.ReadNode at 1. cbn [fst].
  set (n0 := MkNode _ _ _ _ _ _ _ _).
  destruct (negb (Exists n0)); [discriminate|].
  destruct (tree.AssemblePermissions tp n0) as [rp|e]; [|discriminate].
  destruct (negb _); [by destruct (provider.Stat rp)|].
  destruct (tree.CheckLock tp n0 w) as [[[]|e] w1]; [|discriminate].
  by intros [= <- <-].
Qed.

Lemma os_lookup_insert_ne fs q x p : q <> p -> os.lookup (<[q := x]> fs) p = os.lookup fs p.
Proof. intros H. unfold os.lookup. by rewrite lookup_insert_ne. Qed.

Lemma LockfilePath_Dir p :
  comps p <> [] -> filepath.Dir (MetadataBackend.LockfilePath p) = filepath.Dir p.
Proof. apply add_suffix_Dir. Qed.

Lemma add_suffix_nonroot p s : s <> "" -> comps (filepath.add_suffix p s) <> [].
Proof.
  intros Hs. unfold filepath.add_suffix.
  destruct (last (comps p)); simpl; [by destruct (removelast (comps p)) | done].
Qed.

(** X22: a successful [RestoreRevision].  In a well-formed tree, for a
    caller that may restore, with the node and the revision being files, the
    revision path for the mtime of the node free and next to the node, no lock
    files in the way and a propagation that changes nothing, the call
    succeeds and
    - the node gets the blob attributes of the restored revision (checksums,
      type, blob id, blob size) and the current time as mtime attribute, and
      keeps its other attributes and its content;
    - a new revision, named by the former mtime of the node and with that
      modification time, carries the former blob attributes and mtime of the
      node, and no content;
    - the restored revision and the lock file are gone;
    - every other entry of the tree is untouched. *)
Theorem X22_RestoreRevision_swaps tp ref key kp0 kp1 w n i r v mt bsv bs :
  let sid := ref_SpaceId ref in
  let p := lookup.InternalPath w sid kp0 in
  let rev := lookup.InternalPath w sid key in
  let newRev := lookup.InternalPath w sid (kp0 +:+ RevisionIDDelimiter +:+ time.Format mt) in
  let lock := MetadataBackend.LockfilePath p in
  let rlock := MetadataBackend.LockfilePath rev in
  strings.SplitN2 key RevisionIDDelimiter = [kp0; kp1] ->
  tree.restore_access tp ref key kp0 w = (Ok n, w) ->
  (forall n z w, tree.Propagate tp n z w = (Ok tt, w)) ->
  fs_wf (w_fs w) ->
  w_fs w !! p = Some i -> i_dir i = false ->
  i_xattrs i !! prefixes.MTimeAttr = Some v -> time.Parse v = Ok mt ->
  w_fs w !! rev = Some r -> i_dir r = false ->
  i_xattrs r !! prefixes.BlobsizeAttr = Some bsv -> ParseInt bsv = Ok bs ->
  w_fs w !! newRev = None -> filepath.Dir newRev = filepath.Dir p -> comps newRev <> [] ->
  w_fs w !! lock = None -> w_fs w !! rlock = None ->
  p <> rev -> lock <> newRev -> rlock <> lock -> rlock <> newRev ->
  exists w',
    tree.RestoreRevision tp tree.no_faults ref key w = (Ok tt, w')
    /\ w_fs w' !! p
       = Some (with_xattrs
                 ({[prefixes.MTimeAttr := time.Format (w_now w)]}
                  ∪ (filter (fun kv => tree.blobAttr (fst kv) = true)
                       (filter (fun kv => MetadataBackend.is_oc (fst kv) = true)
                               (i_xattrs r))
                     ∪ i_xattrs i)) i)
    /\ w_fs w' !! newRev
       = Some (Inode false "" mt 0
                 (filter (fun kv => tree.revisionAttr (fst kv) = true)
                    (filter (fun kv => MetadataBackend.is_oc (fst kv) = true)
                            (i_xattrs i))))
    /\ w_fs w' !! rev = None
    /\ w_fs w' !! lock = None
    /\ (forall q, q <> p -> q <> newRev -> q <> rev -> q <> lock ->
                  w_fs w' !! q = w_fs w !! q)
    /\ w_ids w' = w_ids w /\ w_paths w' = w_paths w.
Proof.
  intros sid p rev newRev lock rlock Hk Ha Hprop Hwf Hi Hif Hv Hmt Hr Hrf Hbs Hbsp
         Hnr Hnrd Hnrne Hl Hrl Hpr Hln Hrll Hrln.
  pose proof (restore_access_node _ _ _ _ _ _ _ Ha) as Hn.
  assert (Hnid : SpaceID n = sid /\ ID n = kp0).
  { unfold node.ReadNode in Hn. cbn [fst] in Hn. by inversion Hn. }
  destruct Hnid as [Hns Hni].
  assert (Hnp : forall w0, node_InternalPath w0 n = lookup.InternalPath w0 sid kp0).
  { intros w0. unfold node_InternalPath. by rewrite Hns, Hni. }
  pose proof (wf_file_nonroot _ _ _ Hwf Hi Hif) as Hpne.
  destruct (wf_parent _ _ _ Hwf Hi) as [_ Hpd].
  assert (Hlne : comps lock <> []) by (by apply add_suffix_nonroot).
  assert (Hpl : p <> lock) by congruence.
  assert (Hpn : p <> newRev) by congruence.
  assert (Hrvl : rev <> lock) by congruence.
  assert (Hrvn : rev <> newRev) by congruence.
  assert (Hrlp : rlock <> p) by congruence.
  assert (Hrlr : rlock <> rev) by congruence.
  assert (Hip : forall (w0 : World) s k,
            w_ids w0 = w_ids w -> lookup.InternalPath w0 s k = lookup.InternalPath w s k).
  { intros w0 s k E. unfold lookup.InternalPath, lookup.cached, IDCache.Get. by rewrite E. }
  assert (Hset : forall f g (w : World), set_fs f (set_fs g w) = set_fs f w) by (by intros ? ? []).
  unfold tree.RestoreRevision. rewrite Hk. fold sid.
  rewrite (bind_ok _ _ _ _ _ Ha).
  unfold bind at 1, get_world at 1. rewrite Hnp. fold p. fold lock.
  unfold bind at 1, now at 1.
  (* the lock file *)
  unfold bind at 1, on_fs at 1, os.OpenCreate.
  rewrite (os_lookup_nonroot _ lock) by done. rewrite Hl.
  assert (Hld : os.parent_is_dir (w_fs w) lock = true).
  { apply parent_is_dir_spec. unfold lock. by rewrite LockfilePath_Dir. }
  rewrite Hld.
  set (fs1 := <[lock := os.new_file (w_now w) ""]> (w_fs w)).
  set (w1 := set_fs fs1 w).
  unfold tree.defer_. unfold bind at 1, try at 1.
  (* the new revision is touched *)
  assert (Ht : tree.restore_touch n sid kp0 w1
               = (Ok (mt, newRev),
                  set_fs (<[newRev := os.new_file (w_now w) ""]> fs1) w1)).
  { unfold tree.restore_touch, node.GetMTime, MetadataBackend.Get, as_mn.
    cbn [mn_InternalPath]. rewrite Hns, Hni.
    unfold bind at 1. unfold bind at 1.
    rewrite (Hip w1) by done. fold p.
    assert (E : xattr.Get (w_fs w1) p prefixes.MTimeAttr = Ok v).
    { eapply xattr_Get_Some; [|exact Hv]. apply os_lookup_Some.
      cbn. unfold fs1. by rewrite lookup_insert_ne. }
    rewrite E. unfold lift_res. rewrite Hmt.
    unfold bind at 1, get_world at 1. rewrite (Hip w1) by done. fold newRev.
    unfold bind at 1, now at 1. unfold bind at 1, on_fs at 1, os.Create, os.WriteFile.
    rewrite (os_lookup_nonroot _ newRev) by done.
    cbn [w_fs w1 set_fs]. unfold fs1 at 1. rewrite lookup_insert_ne by done. rewrite Hnr.
    assert (Hd : os.parent_is_dir fs1 newRev = true).
    { apply parent_is_dir_spec. rewrite Hnrd. destruct Hpd as (x & Hx & Hxd).
      exists x. split; [|done]. unfold fs1. rewrite os_lookup_insert_ne; [done|].
      intros E'. rewrite <- E', os_lookup_nonroot, Hl in Hx; done. }
    rewrite Hd. reflexivity. }
  rewrite (bind_ok _ _ _ _ _ Ht).
  set (fs2 := <[newRev := os.new_file (w_now w) ""]> fs1).
  set (w2 := set_fs fs2 w1).
  unfold tree.defer_on_error. unfold bind at 1, try at 1.
  (* the steps *)
  set (A := filter (fun kv => tree.revisionAttr (fst kv) = true)
              (filter (fun kv => MetadataBackend.is_oc (fst kv) = true) (i_xattrs i))).
  set (B := filter (fun kv => tree.blobAttr (fst kv) = true)
              (filter (fun kv => MetadataBackend.is_oc (fst kv) = true) (i_xattrs r))).
  set (nr := Inode false "" mt 0 A).
  set (i' := with_xattrs ({[prefixes.MTimeAttr := time.Format (w_now w)]} ∪ (B ∪ i_xattrs i)) i).
  set (fs6 := <[p := i']> (<[newRev := nr]> fs2)).
  assert (Hsteps : tree.restore_steps tree.no_faults sid kp0 key mt newRev w2
                   = (Ok (rev, bs), set_fs fs6 w2)).
  { unfold tree.restore_steps, tree.step, tree.no_faults.
    unfold bind at 1, get_world at 1. rewrite !(Hip w2) by done. fold p. fold rev.
    assert (Hp2 : fs2 !! p = Some i).
    { unfold fs2, fs1. by rewrite !lookup_insert_ne. }
    assert (Hr2 : fs2 !! rev = Some r).
    { unfold fs2, fs1. by rewrite !lookup_insert_ne. }
    (* copy to the new revision *)
    unfold bind at 1, tree.or_fail at 1, CopyMetadata at 1.
    unfold bind at 1, MetadataBackend.All at 1. cbn [mn_InternalPath w_fs w2 set_fs].
    rewrite (os_lookup_Some _ _ _ Hp2).
    unfold MetadataBackend.SetMultiple at 1, on_fs at 1, MetadataBackend.set_attrs at 1.
    cbn [mn_InternalPath w_fs w2 set_fs]. unfold fs2 at 1. rewrite os_lookup_insert.
    fold fs2. fold A.
    (* chtimes *)
    unfold bind at 1, tree.or_fail at 1, on_fs at 1, os.Chtimes at 1.
    cbn [w_fs set_fs]. rewrite lookup_insert_eq.
    (* copy to the node *)
    unfold bind at 1, tree.or_fail at 1, CopyMetadata at 1.
    unfold bind at 1, MetadataBackend.All at 1. cbn [mn_InternalPath w_fs set_fs].
    rewrite insert_insert_eq.
    assert (Hr3 : forall x, os.lookup (<[newRev := x]> fs2) rev = Some r).
    { intros x. apply os_lookup_Some. by rewrite lookup_insert_ne. }
    assert (Hp3 : forall x, os.lookup (<[newRev := x]> fs2) p = Some i).
    { intros x. apply os_lookup_Some. by rewrite lookup_insert_ne. }
    rewrite Hr3.
    unfold MetadataBackend.SetMultiple at 1, on_fs at 1, MetadataBackend.set_attrs at 1.
    cbn [mn_InternalPath w_fs set_fs]. rewrite Hp3. fold B.
    (* mtime *)
    unfold bind at 1, now at 1.
    unfold bind at 1, tree.or_fail at 1, MetadataBackend.SetMultiple at 1, on_fs at 1,
      MetadataBackend.set_attrs at 1.
    cbn [mn_InternalPath w_fs set_fs w_now]. rewrite os_lookup_insert, insert_insert_eq.
    (* blob size *)
    unfold bind at 1, tree.or_fail at 1, MetadataBackend.GetInt64 at 1.
    unfold bind at 1, MetadataBackend.Get at 1. cbn [mn_InternalPath w_fs set_fs].
    assert (E : forall x y, xattr.Get (<[p := x]> (<[newRev := y]> fs2)) rev
                              prefixes.BlobsizeAttr = Ok bsv).
    { intros x y. eapply xattr_Get_Some; [|exact Hbs]. apply os_lookup_Some.
      by rewrite !lookup_insert_ne. }
    rewrite E. unfold lift_res. rewrite Hbsp. unfold ret.
    unfold w2, w1. rewrite !Hset.
    unfold fs6, i', nr, with_xattrs, with_mtime, os.new_file.
    cbn [i_dir i_data i_mtime i_gid i_xattrs]. by rewrite (right_id_L ∅ (∪)). }
  rewrite (bind_ok _ _ _ _ _ Hsteps). cbn [fst snd].
  (* the old revision is dropped *)
  set (fs7 := delete rev fs6).
  assert (Hfin : tree.restore_finish tp n rev bs (set_fs fs6 w2)
                 = (Ok tt, set_fs fs7 (set_fs fs6 w2))).
  { unfold tree.restore_finish, MetadataBackend.MetadataPath.
    fold rlock.
    assert (Hr6 : fs6 !! rev = Some r).
    { unfold fs6, fs2, fs1. by rewrite !lookup_insert_ne. }
    unfold bind at 1, try at 1, on_fs at 1, os.Remove at 1. cbn [w_fs set_fs].
    rewrite Hr6, Hrf. cbn [andb]. fold fs7.
    unfold bind at 1, try at 1, on_fs at 1, os.Remove at 1. cbn [w_fs set_fs].
    unfold fs7 at 1. rewrite lookup_delete_eq.
    unfold bind at 1, try at 1, on_fs at 1, os.Remove at 1. cbn [w_fs set_fs].
    assert (Hrl7 : fs7 !! rlock = None).
    { unfold fs7, fs6, fs2, fs1. rewrite lookup_delete_ne by done.
      by rewrite !lookup_insert_ne. }
    rewrite Hrl7.
    unfold bind at 1, try at 1, MetadataBackend.Purge at 1. cbn [mn_InternalPath w_fs set_fs].
    unfold fs7 at 1. rewrite lookup_delete_eq.
    rewrite Hprop. unfold w2, w1. by rewrite !Hset. }
  rewrite Hfin. unfold ret at 1.
  unfold bind at 1, try at 1, on_fs at 1, os.Remove at 1. cbn [w_fs set_fs].
  assert (Hl7 : fs7 !! lock = Some (os.new_file (w_now w) "")).
  { unfold fs7, fs6, fs2, fs1. rewrite lookup_delete_ne by done.
    rewrite !lookup_insert_ne by done. apply lookup_insert_eq. }
  rewrite Hl7. cbn [os.new_file i_dir andb]. unfold lift_res.
  eexists. split; [reflexivity|]. cbn [w_fs w_ids w_paths set_fs w2 w1].
  split.
  { rewrite lookup_delete_ne by done. unfold fs7. rewrite lookup_delete_ne by done.
    unfold fs6. apply lookup_insert_eq. }
  split.
  { rewrite lookup_delete_ne by done. unfold fs7. rewrite lookup_delete_ne by done.
    unfold fs6. rewrite lookup_insert_ne by done. apply lookup_insert_eq. }
  split.
  { rewrite lookup_delete_ne by done. unfold fs7. apply lookup_delete_eq. }
  split; [apply lookup_delete_eq|].
  split; [|done].
  intros q H1 H2 H3 H4. rewrite lookup_delete_ne by done. unfold fs7.
  rewrite lookup_delete_ne by done. unfold fs6, fs2, fs1. by rewrite !lookup_insert_ne.
Qed.

Lemma X22_RestoreRevision_swaps_witness :
  let tp := sample.tp sample.all_perms in
  let ref := sample.ref_f in
  let key := "idf.REV.7" in
  let w := sample.w_rev in
  let n := sample.nf in
  let i := Inode false "abcdefgh" 12 0 sample.f_attrs in
  let r := Inode false "old" 7 0
             (list_to_map [(prefixes.BlobsizeAttr, "3"); (prefixes.BlobIDAttr, "blob0");
                           (prefixes.MTimeAttr, "7")]) in
  let sid := ref_SpaceId ref in
  let p := lookup.InternalPath w sid "idf" in
  let rev := lookup.InternalPath w sid key in
  let newRev := lookup.InternalPath w sid ("idf" +:+ RevisionIDDelimiter +:+ time.Format 12) in
  let lock := MetadataBackend.LockfilePath p in
  let rlock := MetadataBackend.LockfilePath rev in
  strings.SplitN2 key RevisionIDDelimiter = ["idf"; "7"] /\
  tree.restore_access tp ref key "idf" w = (Ok n, w) /\
  (forall n z w, tree.Propagate tp n z w = (Ok tt, w)) /\
  fs_wf (w_fs w) /\
  w_fs w !! p = Some i /\ i_dir i = false /\
  i_xattrs i !! prefixes.MTimeAttr = Some "12" /\ time.Parse "12" = Ok 12 /\
  w_fs w !! rev = Some r /\ i_dir r = false /\
  i_xattrs r !! prefixes.BlobsizeAttr = Some "3" /\ ParseInt "3" = Ok 3 /\
  w_fs w !! newRev = None /\ filepath.Dir newRev = filepath.Dir p /\ comps newRev <> [] /\
  w_fs w !! lock = None /\ w_fs w !! rlock = None /\
  p <> rev /\ lock <> newRev /\ rlock <> lock /\ rlock <> newRev /\
  exists w',
    tree.RestoreRevision tp tree.no_faults ref key w = (Ok tt, w')
    /\ w_fs w' !! p
       = Some (with_xattrs
                 ({[prefixes.MTimeAttr := time.Format (w_now w)]}
                  ∪ (filter (fun kv => tree.blobAttr (fst kv) = true)
                       (filter (fun kv => MetadataBackend.is_oc (fst kv) = true)
                               (i_xattrs r))
                     ∪ i_xattrs i)) i)
    /\ w_fs w' !! newRev
       = Some (Inode false "" 12 0
                 (filter (fun kv => tree.revisionAttr (fst kv) = true)
                    (filter (fun kv => MetadataBackend.is_oc (fst kv) = true)
                            (i_xattrs i))))
    /\ w_fs w' !! rev = None
    /\ w_fs w' !! lock = None
    /\ (forall q, q <> p -> q <> newRev -> q <> rev -> q <> lock ->
                  w_fs w' !! q = w_fs w !! q)
    /\ w_ids w' = w_ids w /\ w_paths w' = w_paths w.
Proof.
  intros tp ref key w n i r sid p rev newRev lock rlock.
  assert (H1 : strings.SplitN2 key RevisionIDDelimiter = ["idf"; "7"]) by (vm_compute; reflexivity).
  assert (H2 : tree.restore_access tp ref key "idf" w = (Ok n, w)) by (vm_compute; reflexivity).
  assert (H3 : forall n z w, tree.Propagate tp n z w = (Ok tt, w)) by reflexivity.
  assert (H4 : fs_wf (w_fs w)) by (apply (bool_decide_unpack _); vm_compute; exact I).
  assert (H5 : w_fs w !! p = Some i) by (vm_compute; reflexivity).
  assert (H6 : i_dir i = false) by reflexivity.
  assert (H7 : i_xattrs i !! prefixes.MTimeAttr = Some "12") by (vm_compute; reflexivity).
  assert (H8 : time.Parse "12" = Ok 12) by (vm_compute; reflexivity).
  assert (H9 : w_fs w !! rev = Some r) by (vm_compute; reflexivity).
  assert (H10 : i_dir r = false) by reflexivity.
  assert (H11 : i_xattrs r !! prefixes.BlobsizeAttr = Some "3") by (vm_compute; reflexivity).
  assert (H12 : ParseInt "3" = Ok 3) by (vm_compute; reflexivity).
  assert (H13 : w_fs w !! newRev = None) by (vm_compute; reflexivity).
  assert (H14 : filepath.Dir newRev = filepath.Dir p) by (vm_compute; reflexivity).
  assert (H15 : comps newRev <> []) by (vm_compute; discriminate).
  assert (H16 : w_fs w !! lock = None) by (vm_compute; reflexivity).
  assert (H17 : w_fs w !! rlock = None) by (vm_compute; reflexivity).
  assert (H18 : p <> rev) by (vm_compute; discriminate).
  assert (H19 : lock <> newRev) by (vm_compute; discriminate).
  assert (H20 : rlock <> lock) by (vm_compute; discriminate).
  assert (H21 : rlock <> newRev) by (vm_compute; discriminate).
  repeat (split; [assumption|]).
  exact (X22_RestoreRevision_swaps tp ref key "idf" "7" w n i r "12" 12 "3" 3
           H1 H2 H3 H4 H5 H6 H7 H8 H9 H10 H11 H12 H13 H14 H15 H16 H17 H18 H19 H20 H21).
Defined.

(** ** A trashed item in the listing *)

Lemma mkdir_down_is_dir t todo : forall made fs fs',
  os.mkdir_down t true made todo fs = (Ok tt, fs') ->
  (todo = [] -> is_dir_at fs (FPath true made)) ->
  is_dir_at fs' (FPath true (made ++ todo)).
Proof.
  induction todo as [|c todo IH]; intros made fs fs' H Hm; simpl in H.
  - injection H as <-. rewrite app_nil_r. by apply Hm.
  - destruct (os.lookup fs (FPath true (made ++ [c]))) as [x|] eqn:E.
    + destruct (i_dir x) eqn:Ex; [|discriminate].
      rewrite (app_assoc made [c] todo : made ++ c :: todo = (made ++ [c]) ++ todo).
      apply (IH _ _ _ H). intros _. by exists x.
    + rewrite (app_assoc made [c] todo : made ++ c :: todo = (made ++ [c]) ++ todo).
      apply (IH _ _ _ H). intros _. exists (os.new_dir t).
      split; [apply os_lookup_insert | done].
Qed.

Lemma MkdirAll_is_dir t fs p fs' :
  os.MkdirAll t fs p = (Ok tt, fs') -> comps p <> [] -> is_dir_at fs' p.
Proof.
  unfold os.MkdirAll. destruct p as [a l]. simpl. destruct a; [|discriminate].
  intros H Hne. apply (mkdir_down_is_dir _ _ [] _ _ H). by intros ->.
Qed.

(** an entry shows in the listing of its directory *)
Lemma ReadDir_elem fs d q x :
  is_dir_at fs d -> fs !! q = Some x -> filepath.Dir q = d -> q <> d ->
  exists entries, os.ReadDir fs d = Ok entries /\ (filepath.Base q, x) ∈ entries.
Proof.
  intros (dd & Hd & Hdd) Hq Hdir Hne. unfold os.ReadDir. rewrite Hd, Hdd.
  eexists. split; [reflexivity|].
  rewrite merge_sort_Permutation. apply list_elem_of_omap.
  exists (q, x). split; [by apply elem_of_map_to_list|].
  simpl. by rewrite decide_True.
Qed.

Lemma listEntries_keeps tb spaceID key rel trashRoot base opath w entries : forall ts items it,
  it ∈ items ->
  it ∈ trashbin.listEntries tb spaceID key rel trashRoot base opath entries ts items w.
Proof.
  induction entries as [|[name ino] rest IH]; intros ts items it Hit; [done|].
  cbn [trashbin.listEntries].
  destruct (strings.HasSuffix name ".trashitem").
  - destruct (fst (trashbin.readInfoFile tb trashRoot _ w)) as [[op ts']|e].
    + apply IH. apply elem_of_app. by left.
    + by apply IH.
  - destruct (os.Stat (w_fs w) _) as [fi|e].
    + apply IH. apply elem_of_app. by left.
    + by apply IH.
Qed.

(** a [.trashitem] entry with a readable sidecar is listed *)
Lemma listEntries_trashitem tb spaceID key rel trashRoot base opath w name ino op ts' entries :
  (name, ino) ∈ entries ->
  strings.HasSuffix name ".trashitem" = true ->
  fst (trashbin.readInfoFile tb trashRoot (strings.TrimSuffix name ".trashitem") w) = Ok (op, ts') ->
  forall ts items,
    trashbin.MkRecycleItem
      (filepath.to_string
         (filepath.Join filepath.empty [key; rel; strings.TrimSuffix name ".trashitem"]))
      (Z.of_nat (String.length (i_data ino)))
      (Ref spaceID spaceID op) ts'
      (if i_dir ino then trashbin.RESOURCE_TYPE_CONTAINER else trashbin.RESOURCE_TYPE_FILE)
    ∈ trashbin.listEntries tb spaceID key rel trashRoot base opath entries ts items w.
Proof.
  intros Hin Hs Hr. induction entries as [|[name0 ino0] rest IH]; intros ts items.
  - by apply elem_of_nil in Hin.
  - apply elem_of_cons in Hin as [[= <- <-] | Hin].
    + cbn [trashbin.listEntries]. rewrite Hs, Hr.
      apply listEntries_keeps. apply elem_of_app. right. by apply list_elem_of_singleton.
    + cbn [trashbin.listEntries].
      destruct (strings.HasSuffix name0 ".trashitem").
      * destruct (fst (trashbin.readInfoFile tb trashRoot (strings.TrimSuffix name0 _) w))
          as [[op0 ts0]|e]; by apply IH.
      * destruct (os.Stat (w_fs w) _) as [fi|e]; by apply IH.
Qed.

Lemma HasPrefix_slash s : no_slash s = true -> strings.HasPrefix s "/" = false.
Proof.
  destruct s as [|c k]; [done|]. intros [Hc _]%andb_prop.
  unfold strings.HasPrefix. cbn [String.prefix].
  destruct (ascii_dec "/" c) as [E|E]; [|reflexivity].
  subst c. vm_compute in Hc. discriminate Hc.
Qed.

Lemma Join_empty_key key :
  plain key -> filepath.to_string (filepath.Join filepath.empty [""; ""; key]) = key.
Proof.
  intros Hk. unfold filepath.Join. rewrite bool_decide_eq_true_2 by done.
  assert (Hs : filepath.starts_abs [""; ""; key] = false).
  { unfold filepath.starts_abs. destruct Hk as (Hns & Hne & _).
    rewrite !filter_cons, filter_nil.
    destruct (decide ("" <> "")) as [H|_]; [done|].
    destruct (decide (key <> "")) as [_|H]; [|done].
    by apply HasPrefix_slash. }
  rewrite Hs. rewrite pushes_cons. simpl. rewrite pushes_cons. simpl.
  rewrite pushes_plain by done. unfold filepath.pushes. simpl.
  unfold filepath.to_string. simpl. reflexivity.
Qed.

(** the tree [MoveToTrash] leaves: the two trash directories made, the
    sidecar written, the entry renamed *)
Lemma MoveToTrash_run tb n p w w1 i spaceID :
  let key := w_uuid w (w_uuid_next w) in
  let rootp := lookup.cached w spaceID spaceID in
  let relPath := strings.TrimPrefix
                   (strings.TrimPrefix (filepath.to_string p) (filepath.to_string rootp)) "/" in
  let content := trashbin.trashHeader +:+ nl +:+ "Path=" +:+ relPath
                 +:+ nl +:+ "DeletionDate="
                 +:+ time.Format_timeFormat (trashbin.Local tb) (w_now w) in
  fs_wf (w_fs w) ->
  SpaceRoot n = (spaceID, spaceID) ->
  is_node_id spaceID = true ->
  is_node_id (ID n) = true ->
  w_paths w !! p = Some (SpaceID n, ID n) ->
  no_slash key = true ->
  w_fs w !! trash_item rootp key = None ->
  w_fs w !! trash_info rootp key = None ->
  w_fs w !! p = Some i ->
  trashbin.MoveToTrash tb n p w = (Ok tt, w1) ->
  is_abs rootp = true
  /\ w_ids w1 = delete (SpaceID n, ID n) (w_ids w)
  /\ exists fs2,
       w_fs w1 = os.rename_tree p (trash_item rootp key) i
                   (<[trash_info rootp key := os.new_file (w_now w) content]> fs2)
       /\ trash_frame rootp key (w_fs w) fs2
       /\ is_dir_at fs2 (FPath true (comps rootp ++ [".Trash"; "files"]))
       /\ ~ filepath.under p (trash_item rootp key).
Proof.
  intros key rootp relPath content Hwf Hroot Hsid Hnid Hrev Hkey Hitem Hinfo Hi.
  unfold trashbin.MoveToTrash.
  unfold bind at 1, uuid_New at 1. unfold bind at 1, get_world at 1.
  unfold trashbin.trashRootForNode. rewrite (SpaceRoot_path _ _ _ Hroot Hsid).
  change (lookup.cached (set_uuid_next _ w) spaceID spaceID) with rootp.
  fold key.
  unfold bind at 1, now at 1.
  destruct (decide (is_abs rootp = true)) as [Habs|Hrel].
  2:{ apply not_true_is_false in Hrel.
      unfold bind at 1, on_fs at 1. unfold os.MkdirAll.
      assert (Hr : is_abs (filepath.Join (filepath.Join rootp [".Trash"]) ["info"]) = false).
      { destruct (decide (rootp = filepath.empty)) as [->|Hne]; [reflexivity|].
        apply Join_rel; [by apply Join_rel|].
        unfold filepath.Join. rewrite bool_decide_eq_false_2 by done.
        intros E. unfold filepath.empty in E. injection E as _ E.
        unfold filepath.pushes in E. simpl in E. unfold filepath.push in E. simpl in E.
        by destruct (comps rootp). }
      rewrite Hr. simpl. discriminate. }
  unfold trashbin.writeInfoFile.
  rewrite (info_dir_eq rootp Habs), (files_dir_eq rootp Habs),
    (info_file_eq rootp key Habs Hkey), (item_eq rootp key Habs Hkey).
  set (item := trash_item rootp key) in *. set (info := trash_info rootp key) in *.
  unfold bind at 1, on_fs at 1. cbn [w_fs w_now set_uuid_next].
  destruct (os.MkdirAll _ _ _) as [[[]|e] fs1] eqn:E1; [|discriminate].
  unfold bind at 1, on_fs at 1. cbn [w_fs w_now set_fs].
  destruct (os.MkdirAll _ fs1 _) as [[[]|e] fs2] eqn:E2; [|discriminate].
  unfold bind at 1, get_world at 1.
  rewrite (SpaceRoot_path _ _ _ Hroot Hsid).
  change (lookup.cached (set_fs _ (set_fs _ (set_uuid_next _ w))) spaceID spaceID) with rootp.
  fold relPath. fold content.
  unfold bind at 1, bind at 1, now at 1, on_fs at 1. cbn [w_fs w_now set_fs set_uuid_next].
  assert (F2 : trash_frame rootp key (w_fs w) fs2).
  { eapply trash_frame_mkdir; [|exact E2]. eapply trash_frame_mkdir; [|exact E1].
    apply trash_frame_refl. }
  unfold os.WriteFile.
  assert (Hl2 : os.lookup fs2 info = None).
  { rewrite os_lookup_nonroot by (unfold info, trash_info; simpl; by destruct (comps rootp)).
    destruct (F2 info) as [-> | (_ & _ & _ & Hu)]; [done|].
    destruct (fs2 !! info) eqn:E'; [|done].
    destruct (MkdirAll_frame _ _ _ _ _ E2 info) as [H2 | (_ & _ & Hl)].
    - destruct (MkdirAll_frame _ _ _ _ _ E1 info) as [H1 | (_ & _ & Hl)].
      + congruence.
      + unfold info, trash_info in Hl. simpl in Hl. rewrite !length_app in Hl. simpl in Hl. lia.
    - unfold info, trash_info in Hl. simpl in Hl. rewrite !length_app in Hl. simpl in Hl. lia. }
  rewrite Hl2. destruct (os.parent_is_dir fs2 info); [|discriminate].
  set (fs3 := <[info := _]> fs2).
  assert (Efs3 : fs3 = <[info := os.new_file (w_now w) content]> fs2) by reflexivity.
  assert (F3 : trash_frame rootp key (w_fs w) fs3) by (by apply trash_frame_info).
  unfold bind at 1, IDCache.DeleteByPath at 1, modify. cbn [w_paths set_fs set_uuid_next].
  rewrite Hrev.
  unfold bind at 1, MetadataBackend.Purge at 1. unfold as_mn, mn_InternalPath.
  rewrite (InternalPath_node_id _ _ _ Hnid). unfold lookup.cached at 1, IDCache.Get.
  cbn [w_ids set_cache set_fs set_uuid_next w_fs]. rewrite lookup_delete_eq. cbn [default].
  rewrite (trash_frame_empty _ _ _ _ Hwf F3).
  unfold on_fs, os.Rename. cbn [w_fs set_cache set_fs set_uuid_next].
  rewrite (trash_frame_old _ _ _ _ _ _ F3 Hi).
  destruct (os.parent_is_dir fs3 item); [|discriminate]. cbn [negb].
  case_bool_decide as Hu; [discriminate|].
  rewrite bool_decide_eq_false_2 by (intros ->; congruence).
  pose proof (trash_frame_item _ _ _ _ F3 Hitem) as Hx. fold item in Hx. rewrite Hx.
  intros [= <-]. split; [done|]. split; [done|]. exists fs2.
  split; [cbn [w_fs set_fs]; by rewrite Efs3|]. split; [done|]. split; [|done].
  eapply MkdirAll_is_dir; [exact E2|]. simpl. by destruct (comps rootp).
Qed.

Lemma prefix_of_trash_info (l R : list string) k :
  l `prefix_of` R ++ [".Trash"; "info"; k] ->
  (R ++ [".Trash"]) `prefix_of` l \/ l `prefix_of` R.
Proof.
  intros H.
  rewrite (app_assoc R [".Trash"; "info"] [k] : R ++ [".Trash"; "info"; k]
                                                  = (R ++ [".Trash"; "info"]) ++ [k]) in H.
  apply prefix_snoc_inv in H as [-> | H].
  { left. exists ["info"; k]. by rewrite <- !app_assoc. }
  rewrite (app_assoc R [".Trash"] ["info"] : R ++ [".Trash"; "info"]
                                               = (R ++ [".Trash"]) ++ ["info"]) in H.
  apply prefix_snoc_inv in H as [-> | H].
  { left. exists ["info"]. by rewrite <- !app_assoc. }
  apply prefix_snoc_inv in H as [-> | H]; [by left | by right].
Qed.

(** X23: an item moved to the trash shows in the listing of the trash.  Let
    [n] be a node other than the space root, in a well-formed tree, at a path
    [p] outside the trash that has a reverse entry in the id cache naming
    [n]; let the UUID minted as trash key be fresh and a plain name; let the
    path of [p] with the path of the space root and a leading slash trimmed
    off have no line break, and the local year of the deletion four digits.
    After a successful [MoveToTrash] the path [p] is gone, and [ListRecycle]
    of the space lists an item with that key, the size and kind of the entry,
    the trimmed path as original path and, as deletion time, the Unix time
    that [time.Date] finds for the local wall-clock reading of the
    deletion. *)
Theorem X23_MoveToTrash_then_ListRecycle tb n p w w1 i spaceID :
  let key := w_uuid w (w_uuid_next w) in
  let rootp := lookup.cached w spaceID spaceID in
  let relPath := strings.TrimPrefix
                   (strings.TrimPrefix (filepath.to_string p) (filepath.to_string rootp)) "/" in
  let loc := trashbin.Local tb in
  let unix := w_now w / time.nanos in
  let wall := unix + time.offset (time.lookup loc unix) in
  fs_wf (w_fs w) ->
  SpaceRoot n = (spaceID, spaceID) ->
  is_node_id spaceID = true ->
  is_node_id (ID n) = true ->
  (SpaceID n, ID n) <> (spaceID, spaceID) ->
  w_paths w !! p = Some (SpaceID n, ID n) ->
  plain key ->
  w_fs w !! trash_item rootp key = None ->
  w_fs w !! trash_info rootp key = None ->
  w_fs w !! p = Some i ->
  ~ filepath.at_or_under (FPath true (comps rootp ++ [".Trash"])) p ->
  no_newline relPath = true ->
  0 <= time.Year loc (w_now w) <= 9999 ->
  trashbin.MoveToTrash tb n p w = (Ok tt, w1) ->
  w_fs w1 !! p = None
  /\ exists items,
       trashbin.ListRecycle tb spaceID "" "" w1 = (Ok items, w1)
       /\ trashbin.MkRecycleItem key (Z.of_nat (String.length (i_data i)))
            (Ref spaceID spaceID relPath)
            (Some (time.unix_of_local loc wall * time.nanos))
            (if i_dir i then trashbin.RESOURCE_TYPE_CONTAINER
             else trashbin.RESOURCE_TYPE_FILE) ∈ items.
Proof.
  intros key rootp relPath loc unix wall Hwf Hroot Hsid Hnid Hnr Hrev Hplain Hitem Hinfo Hi Hout
    Hnl Hy Hmove.
  pose proof (proj1 Hplain) as Hkey.
  destruct (MoveToTrash_run tb n p w w1 i spaceID Hwf Hroot Hsid Hnid Hrev Hkey Hitem Hinfo
              Hi Hmove) as (Habs & Hids & fs2 & Hfs1 & HF & Hfd & Hnu).
  fold key rootp relPath in Hfs1, HF, Hnu, Hfd.
  set (item := trash_item rootp key) in *. set (info := trash_info rootp key) in *.
  set (files := FPath true (comps rootp ++ [".Trash"; "files"])) in *.
  set (content := trashbin.trashHeader +:+ _) in Hfs1.
  assert (Hpa : is_abs p = true) by (by destruct (Hwf _ _ Hi)).
  assert (Hine : comps item <> []).
  { unfold item, trash_item. simpl. by destruct (comps rootp). }
  assert (Hroot1 : lookup.InternalPath w1 spaceID spaceID = rootp).
  { rewrite InternalPath_node_id by done. unfold lookup.cached, IDCache.Get.
    rewrite Hids. by rewrite lookup_delete_ne. }
  assert (Hip : ~ filepath.at_or_under item p) by (by eapply wf_fresh).
  assert (Hi1 : w_fs w1 !! item = Some i) by (rewrite Hfs1; apply rename_tree_dst).
  assert (Hp1 : w_fs w1 !! p = None) by (rewrite Hfs1; by apply rename_tree_src).
  assert (Hdi : filepath.Dir item = files).
  { unfold item, trash_item, files, filepath.Dir. simpl. f_equal.
    rewrite (app_assoc (comps rootp) [".Trash"; "files"] [key +:+ ".trashitem"]
             : comps rootp ++ [".Trash"; "files"; key +:+ ".trashitem"]
               = (comps rootp ++ [".Trash"; "files"]) ++ [key +:+ ".trashitem"]).
    by rewrite removelast_last. }
  (* the sidecar is where it was written *)
  assert (Hinfo1 : w_fs w1 !! info = Some (os.new_file (w_now w) content)).
  { rewrite Hfs1, rename_tree_other; [apply lookup_insert_eq | | apply item_not_above_info].
    intros [_ Hpre]. unfold info, trash_info in Hpre. simpl in Hpre.
    apply prefix_of_trash_info in Hpre as [Hpre | Hpre].
    - apply Hout. split; [by rewrite Hpa | done].
    - apply Hnu. split; [by rewrite Hpa|]. split.
      + unfold item, trash_item. simpl. by apply prefix_app_r.
      + intros E. unfold item, trash_item in E. simpl in E. rewrite E in Hpre.
        apply prefix_length in Hpre. rewrite length_app in Hpre. simpl in Hpre. lia. }
  (* the directory of the items is there *)
  assert (Hfiles1 : is_dir_at (w_fs w1) files).
  { destruct Hfd as (x & Hx & Hxd). exists x. split; [|done].
    assert (Hfne : comps files <> []) by (unfold files; simpl; by destruct (comps rootp)).
    rewrite os_lookup_nonroot in * by done.
    rewrite Hfs1, rename_tree_other.
    - rewrite lookup_insert_ne; [done|]. unfold info, trash_info, files. intros [= E].
      apply app_inv_head in E. discriminate E.
    - intros Hu. apply Hnu. apply under_Dir; [done|]. by rewrite Hdi.
    - intros Hu%at_or_under_length. unfold item, trash_item, files in Hu. simpl in Hu.
      rewrite !length_app in Hu. simpl in Hu. lia. }
  split; [exact Hp1|].
  destruct (ReadDir_elem (w_fs w1) files item i Hfiles1 Hi1 Hdi) as (entries & Hrd & Hin).
  { intros E. rewrite <- Hdi in E. symmetry in E. by apply Dir_neq in E. }
  assert (Hbase : filepath.Base item = key +:+ ".trashitem").
  { unfold filepath.Base, item, trash_item. simpl.
    rewrite (app_assoc (comps rootp) [".Trash"; "files"] [key +:+ ".trashitem"]
             : comps rootp ++ [".Trash"; "files"; key +:+ ".trashitem"]
               = (comps rootp ++ [".Trash"; "files"]) ++ [key +:+ ".trashitem"]).
    by rewrite last_snoc. }
  rewrite Hbase in Hin.
  unfold trashbin.ListRecycle. unfold bind at 1, get_world at 1.
  rewrite Hroot1. rewrite (files_dir_eq rootp Habs). fold files.
  rewrite bool_decide_eq_false_2 by (by intros H).
  unfold bind at 1, ret at 1. rewrite Hrd. unfold ret.
  eexists. split; [reflexivity|].
  assert (Hread : fst (trashbin.readInfoFile tb (filepath.Join rootp [".Trash"])
                         (strings.TrimSuffix (key +:+ ".trashitem") ".trashitem") w1)
                  = Ok (relPath, Some (time.unix_of_local loc wall * time.nanos))).
  { rewrite TrimSuffix_app. unfold trashbin.readInfoFile, bind, read_fs, lift_res.
    rewrite (info_file_eq rootp key Habs Hkey). fold info.
    unfold os.OpenRead. rewrite (os_lookup_Some _ _ _ Hinfo1). cbn [os.new_file i_data fst].
    unfold content. by rewrite trashinfo_lines. }
  pose proof (listEntries_trashitem tb spaceID "" "" (filepath.Join rootp [".Trash"]) files ""
                w1 _ _ _ _ entries Hin (HasSuffix_app key ".trashitem") Hread None []) as Hl.
  rewrite TrimSuffix_app, (Join_empty_key key Hplain) in Hl. exact Hl.
Qed.

Lemma X23_MoveToTrash_then_ListRecycle_witness :
  let tb := sample.tb sample.all_perms in
  let n := sample.nf in
  let p := sample.P ["s"; "a"; "f"] in
  let w := sample.w0 in
  let w1 := sample.w_trashed in
  let i := Inode false "abcdefgh" 12 0 sample.f_attrs in
  let spaceID := "space1" in
  let key := w_uuid w (w_uuid_next w) in
  let rootp := lookup.cached w spaceID spaceID in
  let relPath := strings.TrimPrefix
                   (strings.TrimPrefix (filepath.to_string p) (filepath.to_string rootp)) "/" in
  let loc := trashbin.Local tb in
  let unix := w_now w / time.nanos in
  let wall := unix + time.offset (time.lookup loc unix) in
  fs_wf (w_fs w) /\
  SpaceRoot n = (spaceID, spaceID) /\
  is_node_id spaceID = true /\
  is_node_id (ID n) = true /\
  (SpaceID n, ID n) <> (spaceID, spaceID) /\
  w_paths w !! p = Some (SpaceID n, ID n) /\
  plain key /\
  w_fs w !! trash_item rootp key = None /\
  w_fs w !! trash_info rootp key = None /\
  w_fs w !! p = Some i /\
  ~ filepath.at_or_under (FPath true (comps rootp ++ [".Trash"])) p /\
  no_newline relPath = true /\
  0 <= time.Year loc (w_now w) <= 9999 /\
  trashbin.MoveToTrash tb n p w = (Ok tt, w1) /\
  w_fs w1 !! p = None
  /\ exists items,
       trashbin.ListRecycle tb spaceID "" "" w1 = (Ok items, w1)
       /\ trashbin.MkRecycleItem key (Z.of_nat (String.length (i_data i)))
            (Ref spaceID spaceID relPath)
            (Some (time.unix_of_local loc wall * time.nanos))
            (if i_dir i then trashbin.RESOURCE_TYPE_CONTAINER
             else trashbin.RESOURCE_TYPE_FILE) ∈ items.
Proof.
  intros tb n p w w1 i spaceID key rootp relPath loc unix wall.
  assert (H1 : fs_wf (w_fs w)) by (apply (bool_decide_unpack _); vm_compute; exact I).
  assert (H2 : SpaceRoot n = (spaceID, spaceID)) by reflexivity.
  assert (H3 : is_node_id spaceID = true) by (vm_compute; reflexivity).
  assert (H4 : is_node_id (ID n) = true) by (vm_compute; reflexivity).
  assert (H5 : (SpaceID n, ID n) <> (spaceID, spaceID)) by discriminate.
  assert (H6 : w_paths w !! p = Some (SpaceID n, ID n)) by (vm_compute; reflexivity).
  assert (H7 : plain key) by (by repeat split).
  assert (H8 : w_fs w !! trash_item rootp key = None) by (vm_compute; reflexivity).
  assert (H9 : w_fs w !! trash_info rootp key = None) by (vm_compute; reflexivity).
  assert (H10 : w_fs w !! p = Some i) by (vm_compute; reflexivity).
  assert (H11 : ~ filepath.at_or_under (FPath true (comps rootp ++ [".Trash"])) p).
  { intros [_ [k Hk]]. vm_compute in Hk. discriminate Hk. }
  assert (H12 : no_newline relPath = true) by (vm_compute; reflexivity).
  assert (Hy : 0 <= time.Year loc (w_now w) <= 9999) by (vm_compute; split; discriminate).
  assert (H13 : trashbin.MoveToTrash tb n p w = (Ok tt, w1)) by (vm_compute; reflexivity).
  do 14 (split; [assumption|]).
  exact (X23_MoveToTrash_then_ListRecycle tb n p w w1 i spaceID
           H1 H2 H3 H4 H5 H6 H7 H8 H9 H10 H11 H12 Hy H13).
Defined.

(** the listing of the sample trash *)
Example ListRecycle_sample :
  fst (trashbin.ListRecycle (sample.tb sample.all_perms) "space1" "" "" sample.w_trashed)
  = Ok [trashbin.MkRecycleItem "6f1c0a" 8 (Ref "space1" "space1" "a/f") (Some 0)
          trashbin.RESOURCE_TYPE_FILE].
Proof. vm_compute. reflexivity. Qed.

(** ** Assimilation: from the clash to the new id *)

Lemma bind_get_world {A} (k : World -> M A) w : (w0 <- get_world ;; k w0) w = k w w.
Proof. reflexivity. Qed.

Lemma scopeSpace_agree t cand w w2 (sp : string) :
  gid_of w2 cand = gid_of w cand ->
  exists r s,
    (tree.scopeSpace t cand ;;; ret sp) w
    = (r, from_option (fun g => set_scope (Some g) w) w s)
    /\ (tree.scopeSpace t cand ;;; ret sp) w2
       = (r, from_option (fun g => set_scope (Some g) w2) w2 s).
Proof.
  unfold gid_of. intros Hg. unfold tree.scopeSpace.
  destruct (tree.UseSpaceGroups (tree.options t)); cbn [negb];
    [|by exists (Ok sp), None].
  unfold bind, read_fs, os.Stat, lift_res, modify, ret.
  destruct (os.lookup (w_fs w) cand) as [x|] eqn:Ex;
    destruct (os.lookup (w_fs w2) cand) as [x2|] eqn:Ex2; try discriminate Hg;
    [|by eexists (Err _), None].
  injection Hg as Hg. rewrite Hg.
  destruct (tree.ScopeUserByIds t (-1) (i_gid x)) as [[]|e];
    [by eexists (Ok _), (Some (i_gid x)) | by eexists (Err e), None].
Qed.

(** [findSpaceId] sees of the world the space ids of the paths and the
    groups of the entries, and changes the scope only. *)
Lemma findSpaceId_loop_agree t path w w2 fuel : forall cand,
  (forall c, space_of w2 c = space_of w c) ->
  (forall c, gid_of w2 c = gid_of w c) ->
  exists r s,
    tree.findSpaceId_loop t fuel path cand w = (r, from_option (fun g => set_scope (Some g) w) w s)
    /\ tree.findSpaceId_loop t fuel path cand w2
       = (r, from_option (fun g => set_scope (Some g) w2) w2 s).
Proof.
  intros cand Hsp Hgid. revert cand.
  assert (Hfail : forall e : error, exists r s,
             fail (A := string) e w = (r, from_option (fun g => set_scope (Some g) w) w s)
             /\ fail (A := string) e w2
                = (r, from_option (fun g => set_scope (Some g) w2) w2 s)).
  { intros e. by exists (Err e), None. }
  induction fuel as [|fuel IH]; intros cand; simpl;
    (destruct (strings.HasPrefix _ _); [|apply Hfail]);
    rewrite !bind_get_world;
    pose proof (Hsp cand) as Hc; unfold space_of in Hc;
    pose proof (scopeSpace_agree t cand w w2 (space_of w cand) (Hgid cand)) as Hscope;
    unfold space_of in Hscope.
  all: destruct (lookup.IDsForPath w cand) as [[sp1 id1]|e1];
       destruct (lookup.IDsForPath w2 cand) as [[sp2 id2]|e2]; subst;
       repeat case_bool_decide; subst; try done; try apply Hfail; try apply IH;
       try exact Hscope.
Qed.

Lemma filter_not_oc (a : gmap string string) k :
  MetadataBackend.is_oc k = true ->
  filter (fun kv => MetadataBackend.is_oc (fst kv) = false) a !! k = None.
Proof.
  intros Hk. apply map_lookup_filter_None. right. intros v _. simpl. by rewrite Hk.
Qed.

(** X24: from the clash to the new id.  A worker of the scan queue receives
    an item, not recursive, for a file that carries the id of another item
    that still exists (a copy): the space of the path is found, the file has
    an id attribute and no space id attribute, the id cache knows that id at
    another path that exists, and the item of that id has a parent id.  Let
    further the id cache know the parent directory of the file by its path,
    the entry its id resolves to be a directory that carries an id, the
    fresh UUID differ from the space id, and a propagation of a zero size
    difference change nothing.  Then the round of the worker ends without
    error and leaves one goroutine; when that goroutine runs, it ends without
    error, the file has the fresh UUID as id and the id of the parent
    directory as parent id, its content is untouched, no other entry of the
    tree changed over the two steps, the id cache gained the entry of the new
    id in both directions and lost none, and one event was published for the
    new id. *)
Theorem X24_id_clash_resolved t it w spaceID w1 i id prev ppid psp pid0 d pid :
  let path := Path it in
  let newId := w_uuid w (w_uuid_next w) in
  let task := GoAssimilate (ScanItem path true false) in
  (forall n w, tree.Propagate t n 0 w = (Ok tt, w)) ->
  Recurse it = false ->
  tree.findSpaceId t path w = (Ok spaceID, w1) ->
  w_fs w !! path = Some i ->
  i_dir i = false ->
  i_xattrs i !! prefixes.IDAttr = Some id ->
  id <> "" ->
  i_xattrs i !! prefixes.SpaceIDAttr = None ->
  IDCache.Get w spaceID id = Some prev ->
  prev <> path ->
  is_Some (os.lookup (w_fs w) prev) ->
  xattr.Get (w_fs w) (lookup.InternalPath w spaceID id) prefixes.ParentidAttr = Ok ppid ->
  ppid <> "" ->
  newId <> spaceID ->
  w_paths w !! filepath.Dir path = Some (psp, pid0) ->
  os.lookup (w_fs w) (lookup.InternalPath w spaceID pid0) = Some d ->
  i_dir d = true ->
  i_xattrs d !! prefixes.IDAttr = Some pid ->
  pid <> "" ->
  exists w2 w3 j,
    tree.workScanQueue_item t it w = (Ok tt, w2)
    /\ w_tasks w2 = w_tasks w ++ [task]
    /\ tree.run_task t task w2 = (Ok tt, w3)
    /\ w_fs w3 = <[path := j]> (w_fs w)
    /\ i_data j = i_data i
    /\ i_xattrs j !! prefixes.IDAttr = Some newId
    /\ i_xattrs j !! prefixes.ParentidAttr = Some pid
    /\ w_ids w3 = <[(spaceID, newId) := path]> (w_ids w)
    /\ w_paths w3 = <[path := (spaceID, newId)]> (w_paths w)
    /\ w_events w3
       = w_events w ++ [if bool_decide (String.length (i_data i) = 0%nat)
                        then FileTouched (Ref spaceID newId "")
                        else UploadReady (Ref spaceID newId "")].
Proof.
  intros path newId task Hprop Hrec Hs Hi Hfile Hid Hne Hnosp Hc Hprev Hj Hpp Hppne Hnew
    Hpar Hd Hddir Hpid Hpne.
  pose proof (assimilate_id_clash_run t it w spaceID w1 i id prev ppid
                Hs Hi Hid Hne Hc Hprev Hj Hpp Hppne) as Hrun1.
  fold path in Hrun1.
  set (i' := with_xattrs _ i) in Hrun1.
  set (w2 := set_tasks _ _) in Hrun1.
  destruct (findSpaceId_loop_only_scope _ _ _ _ _ _ _ Hs) as [s Hw1].
  pose proof (os_lookup_Some _ _ _ Hi) as Hi'.
  assert (Hfs2 : w_fs w2 = <[path := i']> (w_fs w)) by (subst w2 w1; by destruct w).
  assert (Hids2 : w_ids w2 = w_ids w) by (subst w2 w1; by destruct w).
  assert (Hpaths2 : w_paths w2 = w_paths w) by (subst w2 w1; by destruct w).
  assert (Hint : forall a b, lookup.InternalPath w2 a b = lookup.InternalPath w a b).
  { intros a b. unfold lookup.InternalPath, lookup.cached, IDCache.Get. by rewrite Hids2. }
  assert (Hoc : forall k, MetadataBackend.is_oc k = true ->
                          lookup.attr_or_empty (w_fs w2) path k = "").
  { intros k Hk. unfold lookup.attr_or_empty, xattr.Get. rewrite Hfs2, os_lookup_insert.
    unfold i'. cbn [i_xattrs with_xattrs]. by rewrite filter_not_oc. }
  (* the space is found as before *)
  assert (Hsp : forall c, space_of w2 c = space_of w c).
  { intros c. unfold space_of, lookup.IDsForPath. rewrite Hpaths2.
    destruct (w_paths w !! c); [done|].
    destruct (decide (c = path)) as [->|Hcp].
    - rewrite (Hoc prefixes.IDAttr) by reflexivity.
      rewrite bool_decide_eq_true_2 by done.
      unfold lookup.attr_or_empty.
      rewrite (xattr_Get_Some _ _ _ _ _ Hi' Hid).
      rewrite bool_decide_eq_false_2 by done.
      unfold xattr.Get. by rewrite Hi', Hnosp.
    - unfold lookup.attr_or_empty, xattr.Get. rewrite Hfs2.
      by rewrite os_lookup_insert_ne by done. }
  assert (Hgid : forall c, gid_of w2 c = gid_of w c).
  { intros c. unfold gid_of. rewrite Hfs2.
    destruct (decide (c = path)) as [->|Hcp].
    - by rewrite os_lookup_insert, Hi'.
    - by rewrite os_lookup_insert_ne by done. }
  destruct (findSpaceId_loop_agree t path w w2 (length (comps path)) path Hsp Hgid)
    as (r & s' & Hl & Hl2).
  fold (tree.findSpaceId t path) in Hl, Hl2. rewrite Hs in Hl. injection Hl as <- _.
  (* the parent directory is another entry than the file *)
  assert (Hdp : lookup.InternalPath w spaceID pid0 <> path).
  { intros E. rewrite E, Hi' in Hd. injection Hd as <-. by rewrite Hfile in Hddir. }
  assert (Hnew2 : w_uuid w2 (w_uuid_next w2) = newId) by (subst w2 w1; by destruct w).
  destruct (assimilate_new_file_run t (ScanItem path true false) w2 spaceID _ i' psp pid0 d pid
              Hprop Hl2)
    as (w3 & j & Hrun2 & Hfs3 & _ & Hdata & _ & Hjid & _ & Hjpar & _ & _ & _ & _ & _ & _
        & Hids3 & Hpaths3 & _ & Hev3 & _); cbn [Path].
  { rewrite Hfs2. apply lookup_insert_eq. }
  { done. }
  { by apply Hoc. }
  { by rewrite Hnew2. }
  { unfold lookup.IDsForPath. by rewrite Hpaths2, Hpar. }
  { rewrite Hint, Hfs2. by rewrite os_lookup_insert_ne. }
  { done. }
  { done. }
  cbn [Path] in *. rewrite Hnew2 in *.
  exists w2, w3, j.
  split.
  { unfold tree.workScanQueue_item, bind, try. rewrite Hrun1, Hrec. reflexivity. }
  split; [subst w2 w1; by destruct w|].
  split.
  { unfold tree.run_task, task, bind, try. by rewrite Hrun2. }
  split; [by rewrite Hfs3, Hfs2, insert_insert_eq|].
  split; [by rewrite Hdata|].
  split; [done|]. split; [done|].
  split; [by rewrite Hids3, Hids2|].
  split; [by rewrite Hpaths3, Hpaths2|].
  rewrite Hev3. subst w2 w1. by destruct w.
Qed.

Lemma X24_id_clash_resolved_witness :
  let t := sample.tp sample.all_perms in
  let i := Inode false "abcdefgh" 30 0 sample.f_attrs in
  let it := ScanItem (sample.P ["s"; "a"; "g"]) false false in
  let w := set_fs (<[sample.P ["s"; "a"; "g"] := i]> sample.fs0) sample.w0 in
  let prev := sample.P ["s"; "a"; "f"] in
  let d := Inode true "" 11 0 sample.a_attrs in
  let path := Path it in
  let newId := w_uuid w (w_uuid_next w) in
  let task := GoAssimilate (ScanItem path true false) in
  (forall n w, tree.Propagate t n 0 w = (Ok tt, w)) /\
  Recurse it = false /\
  tree.findSpaceId t path w = (Ok "space1", w) /\
  w_fs w !! path = Some i /\
  i_dir i = false /\
  i_xattrs i !! prefixes.IDAttr = Some "idf" /\
  "idf" <> "" /\
  i_xattrs i !! prefixes.SpaceIDAttr = None /\
  IDCache.Get w "space1" "idf" = Some prev /\
  prev <> path /\
  is_Some (os.lookup (w_fs w) prev) /\
  xattr.Get (w_fs w) (lookup.InternalPath w "space1" "idf") prefixes.ParentidAttr = Ok "ida" /\
  "ida" <> "" /\
  newId <> "space1" /\
  w_paths w !! filepath.Dir path = Some ("space1", "ida") /\
  os.lookup (w_fs w) (lookup.InternalPath w "space1" "ida") = Some d /\
  i_dir d = true /\
  i_xattrs d !! prefixes.IDAttr = Some "ida" /\
  "ida" <> "" /\
  exists w2 w3 j,
    tree.workScanQueue_item t it w = (Ok tt, w2)
    /\ w_tasks w2 = w_tasks w ++ [task]
    /\ tree.run_task t task w2 = (Ok tt, w3)
    /\ w_fs w3 = <[path := j]> (w_fs w)
    /\ i_data j = i_data i
    /\ i_xattrs j !! prefixes.IDAttr = Some newId
    /\ i_xattrs j !! prefixes.ParentidAttr = Some "ida"
    /\ w_ids w3 = <[("space1", newId) := path]> (w_ids w)
    /\ w_paths w3 = <[path := ("space1", newId)]> (w_paths w)
    /\ w_events w3
       = w_events w ++ [if bool_decide (String.length (i_data i) = 0%nat)
                        then FileTouched (Ref "space1" newId "")
                        else UploadReady (Ref "space1" newId "")].
Proof.
  intros t i it w prev d path newId task.
  assert (H0 : forall n w, tree.Propagate t n 0 w = (Ok tt, w)) by reflexivity.
  assert (H1 : Recurse it = false) by reflexivity.
  assert (H2 : tree.findSpaceId t path w = (Ok "space1", w)) by (vm_compute; reflexivity).
  assert (H3 : w_fs w !! path = Some i) by (vm_compute; reflexivity).
  assert (H4 : i_dir i = false) by reflexivity.
  assert (H5 : i_xattrs i !! prefixes.IDAttr = Some "idf") by (vm_compute; reflexivity).
  assert (H6 : "idf" <> "") by discriminate.
  assert (H7 : i_xattrs i !! prefixes.SpaceIDAttr = None) by (vm_compute; reflexivity).
  assert (H8 : IDCache.Get w "space1" "idf" = Some prev) by (vm_compute; reflexivity).
  assert (H9 : prev <> path) by discriminate.
  assert (H10 : is_Some (os.lookup (w_fs w) prev)) by (vm_compute; eauto).
  assert (H11 : xattr.Get (w_fs w) (lookup.InternalPath w "space1" "idf") prefixes.ParentidAttr
                = Ok "ida") by (vm_compute; reflexivity).
  assert (H12 : "ida" <> "") by discriminate.
  assert (H13 : newId <> "space1") by discriminate.
  assert (H14 : w_paths w !! filepath.Dir path = Some ("space1", "ida"))
    by (vm_compute; reflexivity).
  assert (H15 : os.lookup (w_fs w) (lookup.InternalPath w "space1" "ida") = Some d)
    by (vm_compute; reflexivity).
  assert (H16 : i_dir d = true) by reflexivity.
  assert (H17 : i_xattrs d !! prefixes.IDAttr = Some "ida") by (vm_compute; reflexivity).
  split; [exact H0|].
  do 18 (split; [assumption|]).
  exact (X24_id_clash_resolved t it w "space1" w i "idf" prev "ida" "space1" "ida" d "ida"
           H0 H1 H2 H3 H4 H5 H6 H7 H8 H9 H10 H11 H12 H13 H14 H15 H16 H17 H12).
Defined.

(** the copy [a/g] of [a/f] in the sample space, after the worker and the
    goroutine it started: [a/g] has the fresh id, [a/f] keeps its own *)
Example id_clash_sample :
  let t := sample.tp sample.all_perms in
  let i := Inode false "abcdefgh" 30 0 sample.f_attrs in
  let g := sample.P ["s"; "a"; "g"] in
  let w := set_fs (<[g := i]> sample.fs0) sample.w0 in
  let w2 := snd (tree.workScanQueue_item t (ScanItem g false false) w) in
  let w3 := snd (tree.run_task t (GoAssimilate (ScanItem g true false)) w2) in
  xattr.Get (w_fs w3) g prefixes.IDAttr = Ok "6f1c0a"
  /\ xattr.Get (w_fs w3) (sample.P ["s"; "a"; "f"]) prefixes.IDAttr = Ok "idf"
  /\ w_ids w3 !! ("space1", "idf") = Some (sample.P ["s"; "a"; "f"])
  /\ w_ids w3 !! ("space1", "6f1c0a") = Some g.
Proof. vm_compute. repeat split. Qed.
